(** * Reporting system: dynamic report shaping, ad-hoc SQL execution and
      function-based access filters

    A shallow embedding of the decision logic of
    [routes/report_api_routes.py] and
    [services/user_function_access_service.py].

    Conventions of the embedding.
    - Python [str] is [string]; the string primitives ([strip], [upper],
      [lower], the regular-expression class [\w]) are given on ASCII text,
      which is where the source's keywords, format names and sentinels live.
    - A Python [dict] is an association list kept in insertion order, with
      in-place overwrite on an existing key ([dict_set]).
    - Code that can raise returns an [outcome]; [try]/[except] becomes a
      match on it.
    - Calls to the database driver are recorded in a list of [event]s, so
      that "before any connection is opened" is a statement on that list.
    - What the endpoints call outside these files (the query builder, the
      renderers, the export log) is a variable of the section that holds
      the endpoint; its calls are recorded with their arguments. *)

From Stdlib Require Import String Ascii List ZArith Bool Lia DecimalString.
From Stdlib Require Import QArith.
Import ListNotations.

Close Scope Q_scope.
Open Scope list_scope.
Open Scope string_scope.

Set Implicit Arguments.

(* ================================================================= *)
(** ** Python runtime: exceptions *)

Inductive exn_class : Type :=
| TypeError
| ValueError
| UnicodeEncodeError   (* a subclass of ValueError *)
| AttributeError
| IndexError
| NameError
| OverflowError
| DriverError          (* pyodbc.Error and its subclasses *)
| OtherError.          (* any other subclass of Exception *)

Record pyexn : Type := Raise_ { exn_cls : exn_class; exn_msg : string }.

Inductive outcome (A : Type) : Type :=
| Ok (a : A)
| Raise (e : pyexn).
Arguments Ok {A} a.
Arguments Raise {A} e.

Definition bind {A B} (m : outcome A) (k : A -> outcome B) : outcome B :=
  match m with
  | Ok a => k a
  | Raise e => Raise e
  end.

Declare Scope py_scope.
Delimit Scope py_scope with py.
Notation "x <- m ;; k" := (bind m (fun x => k))
  (at level 61, m at next level, right associativity) : py_scope.
Open Scope py_scope.

Definition exn_class_eqb (a b : exn_class) : bool :=
  match a, b with
  | TypeError, TypeError | ValueError, ValueError
  | UnicodeEncodeError, UnicodeEncodeError | AttributeError, AttributeError
  | IndexError, IndexError | NameError, NameError
  | OverflowError, OverflowError | DriverError, DriverError
  | OtherError, OtherError => true
  | _, _ => false
  end.

(** [isinstance(e, handler)]: the class itself, or [UnicodeEncodeError]
    under [ValueError]. *)
Definition is_instance_of (handler c : exn_class) : bool :=
  exn_class_eqb handler c
  || match handler, c with
     | ValueError, UnicodeEncodeError => true
     | _, _ => false
     end.

(** [except (H1, H2, ...)] catches [e]. *)
Definition caught_by (handlers : list exn_class) (e : pyexn) : bool :=
  existsb (fun h => is_instance_of h (exn_cls e)) handlers.

(* ================================================================= *)
(** ** Python runtime: strings *)

Definition code (c : ascii) : nat := nat_of_ascii c.

Definition in_range (lo hi : nat) (c : ascii) : bool :=
  (lo <=? code c)%nat && (code c <=? hi)%nat.

(** [str.isspace] on ASCII: TAB, LF, VT, FF, CR, FS, GS, RS, US, SPACE. *)
Definition py_isspace (c : ascii) : bool :=
  in_range 9 13 c || in_range 28 32 c.

Definition is_upper_letter (c : ascii) : bool := in_range 65 90 c.
Definition is_lower_letter (c : ascii) : bool := in_range 97 122 c.
Definition is_digit (c : ascii) : bool := in_range 48 57 c.

(** The class [\w] of the [re] module, on ASCII. *)
Definition is_word_char (c : ascii) : bool :=
  is_upper_letter c || is_lower_letter c || is_digit c
  || (code c =? 95)%nat.

Definition upper_char (c : ascii) : ascii :=
  if is_lower_letter c then ascii_of_nat (code c - 32) else c.

Definition lower_char (c : ascii) : ascii :=
  if is_upper_letter c then ascii_of_nat (code c + 32) else c.

Fixpoint map_string (f : ascii -> ascii) (s : string) : string :=
  match s with
  | EmptyString => EmptyString
  | String c r => String (f c) (map_string f r)
  end.

Definition upper : string -> string := map_string upper_char.
Definition lower : string -> string := map_string lower_char.

Fixpoint lstrip (s : string) : string :=
  match s with
  | EmptyString => EmptyString
  | String c r => if py_isspace c then lstrip r else s
  end.

Fixpoint rstrip (s : string) : string :=
  match s with
  | EmptyString => EmptyString
  | String c r =>
      match rstrip r with
      | EmptyString => if py_isspace c then EmptyString else String c EmptyString
      | r' => String c r'
      end
  end.

Definition strip (s : string) : string := rstrip (lstrip s).

Definition startswith (s p : string) : bool := String.prefix p s.

Fixpoint drop (n : nat) (s : string) : string :=
  match n, s with
  | O, _ => s
  | S n', String _ r => drop n' r
  | S _, EmptyString => EmptyString
  end.

Definition head_char (s : string) : option ascii :=
  match s with
  | EmptyString => None
  | String c _ => Some c
  end.

Fixpoint last_char (default : option ascii) (s : string) : option ascii :=
  match s with
  | EmptyString => default
  | String c r => last_char (Some c) r
  end.

(** [x in s] for a one-character [x]. *)
Fixpoint contains_char (x : ascii) (s : string) : bool :=
  match s with
  | EmptyString => false
  | String c r => Ascii.eqb c x || contains_char x r
  end.

(** [s.split(sep)] for a one-character separator. *)
Fixpoint split (sep : ascii) (s : string) : list string :=
  match s with
  | EmptyString => [EmptyString]
  | String c r =>
      if Ascii.eqb c sep then EmptyString :: split sep r
      else match split sep r with
           | h :: t => String c h :: t
           | [] => [String c EmptyString]
           end
  end.

(** [str(n)] for a Python [int]. *)
Definition str_of_int (z : Z) : string :=
  NilZero.string_of_int (Z.to_int z).

Definition str_of_nat (n : nat) : string := str_of_int (Z.of_nat n).

(** [sep.join(l)]. *)
Definition join (sep : string) (l : list string) : string :=
  String.concat sep l.

(** *** Word-boundary search: [re.search(rf'\b{re.escape(kw)}\b', s)] *)

Definition opt_is_word (c : option ascii) : bool :=
  match c with
  | Some a => is_word_char a
  | None => false
  end.

(** [\b] holds between two positions when exactly one side is a word
    character (the outside of the text counts as a non-word). *)
Definition at_boundary (prev next : option ascii) : bool :=
  xorb (opt_is_word prev) (opt_is_word next).

(** A match of [\bkw\b] that starts right here, [prev] being the character
    before the current position. *)
Definition word_match_here (prev : option ascii) (kw s : string) : bool :=
  at_boundary prev (head_char s)
  && String.prefix kw s
  && at_boundary (last_char prev kw) (head_char (drop (String.length kw) s)).

Fixpoint word_search_from (prev : option ascii) (kw s : string) : bool :=
  word_match_here prev kw s
  || match s with
     | EmptyString => false
     | String c r => word_search_from (Some c) kw r
     end.

Definition word_search (kw s : string) : bool := word_search_from None kw s.

(** Plain substring test, [p in s]. *)
Fixpoint substring_in (p s : string) : bool :=
  String.prefix p s
  || match s with
     | EmptyString => false
     | String _ r => substring_in p r
     end.

(* ================================================================= *)
(** ** Python runtime: insertion-ordered dictionaries and [Counter] *)

Definition pydict (V : Type) : Type := list (string * V).

(** [d[k] = v]: overwrite in place, or append a new key. *)
Fixpoint dict_set {V} (k : string) (v : V) (d : pydict V) : pydict V :=
  match d with
  | [] => [(k, v)]
  | (k', v') :: r =>
      if String.eqb k' k then (k, v) :: r else (k', v') :: dict_set k v r
  end.

(** [d.get(k)]. *)
Fixpoint dict_get {V} (k : string) (d : pydict V) : option V :=
  match d with
  | [] => None
  | (k', v) :: r => if String.eqb k' k then Some v else dict_get k r
  end.

(** [d.get(k, default)]. *)
Definition dict_get_default {V} (k : string) (default : V) (d : pydict V)
  : V :=
  match dict_get k d with
  | Some v => v
  | None => default
  end.

Definition dict_keys {V} (d : pydict V) : list string := map fst d.
Definition dict_values {V} (d : pydict V) : list V := map snd d.

(** [dict(pairs)]. *)
Definition dict_of_pairs {V} (ps : list (string * V)) : pydict V :=
  fold_left (fun d kv => dict_set (fst kv) (snd kv) d) ps [].

(** [Counter(xs)]: one entry per distinct element, in first-seen order. *)
Fixpoint counter_add (x : string) (d : pydict nat) : pydict nat :=
  match d with
  | [] => [(x, 1%nat)]
  | (k, n) :: r =>
      if String.eqb k x then (k, S n) :: r else (k, n) :: counter_add x r
  end.

Definition counter_step (d : pydict nat) (x : string) : pydict nat :=
  counter_add x d.

Definition Counter (xs : list string) : pydict nat :=
  fold_left counter_step xs [].

(** Truth value of a string or [None]: [None] and [''] are false. *)
Definition truthy (o : option string) : bool :=
  match o with
  | None => false
  | Some s => negb (String.eqb s "")
  end.

(** The text of an optional string, [''] when there is none. *)
Definition key_text (k : option string) : string :=
  match k with
  | Some s => s
  | None => ""
  end.

(** [a or b] on optional strings. *)
Definition or_else (a b : option string) : option string :=
  if truthy a then a else b.

(** [not l] for a list. *)
Definition is_empty {A} (l : list A) : bool :=
  match l with
  | [] => true
  | _ :: _ => false
  end.

(** [l[:n]] for a Python [int] bound, negative bounds counting from the
    end. *)
Definition slice_to {A} (l : list A) (n : Z) : list A :=
  if (n <? 0)%Z then firstn (length l - Z.to_nat (- n)) l
  else firstn (Z.to_nat n) l.

(* ================================================================= *)
(** ** [services/user_function_access_service.py] *)

Module UserFunctionAccessService.

Record UserFunctionAccess : Type :=
  { is_super_admin : bool; function_ids : list string }.

(** The string held by an [Optional[str]] that passed the truth test. *)
Definition selected (o : option string) : string :=
  match o with
  | None => ""
  | Some s => s
  end.

(** [x in l]. *)
Definition str_in (x : string) (l : list string) : bool :=
  existsb (String.eqb x) l.

Definition deny_all : string := " AND 1 = 0".

Definition build_control_function_filter
    (table_alias : string) (access : UserFunctionAccess)
    (selected_function_id : option string) : string :=
  if truthy selected_function_id then
    let sel := selected selected_function_id in
    if negb (is_super_admin access)
       && negb (str_in sel (function_ids access))
    then deny_all
    else " AND EXISTS (SELECT 1 FROM [ControlFunctions] cf WHERE cf.control_id = "
         ++ table_alias ++ ".id AND cf.function_id = '" ++ sel
         ++ "' AND cf.deletedAt IS NULL)"
  else if is_super_admin access then ""
  else if is_empty (function_ids access) then deny_all
  else
    let function_ids_str := join "','" (function_ids access) in
    " AND EXISTS (SELECT 1 FROM [ControlFunctions] cf WHERE cf.control_id = "
    ++ table_alias ++ ".id AND cf.function_id IN ('" ++ function_ids_str
    ++ "') AND cf.deletedAt IS NULL)".

Definition build_risk_function_filter
    (table_alias : string) (access : UserFunctionAccess)
    (selected_function_id : option string) : string :=
  if truthy selected_function_id then
    let sel := selected selected_function_id in
    if negb (is_super_admin access)
       && negb (str_in sel (function_ids access))
    then deny_all
    else " AND EXISTS (SELECT 1 FROM [RiskFunctions] rf WHERE rf.risk_id = "
         ++ table_alias ++ ".id AND rf.function_id = '" ++ sel
         ++ "' AND rf.deletedAt IS NULL)"
  else if is_super_admin access then ""
  else if is_empty (function_ids access) then deny_all
  else
    let function_ids_str := join "','" (function_ids access) in
    " AND EXISTS (SELECT 1 FROM [RiskFunctions] rf WHERE rf.risk_id = "
    ++ table_alias ++ ".id AND rf.function_id IN ('" ++ function_ids_str
    ++ "') AND rf.deletedAt IS NULL)".

Definition build_kri_function_filter
    (table_alias : string) (access : UserFunctionAccess)
    (selected_function_id : option string) : string :=
  if truthy selected_function_id then
    let sel := selected selected_function_id in
    if negb (is_super_admin access)
       && negb (str_in sel (function_ids access))
    then deny_all
    else " AND " ++ table_alias ++ ".related_function_id = '" ++ sel ++ "'"
  else if is_super_admin access then ""
  else if is_empty (function_ids access) then deny_all
  else
    let function_ids_str := join "','" (function_ids access) in
    " AND " ++ table_alias ++ ".related_function_id IN ('"
    ++ function_ids_str ++ "')".

Definition build_incident_function_filter
    (table_alias : string) (access : UserFunctionAccess)
    (selected_function_id : option string) : string :=
  if truthy selected_function_id then
    let sel := selected selected_function_id in
    if negb (is_super_admin access)
       && negb (str_in sel (function_ids access))
    then deny_all
    else " AND " ++ table_alias ++ ".function_id = '" ++ sel ++ "'"
  else if is_super_admin access then ""
  else if is_empty (function_ids access) then deny_all
  else
    let function_ids_str := join "','" (function_ids access) in
    " AND " ++ table_alias ++ ".function_id IN ('" ++ function_ids_str
    ++ "')".

End UserFunctionAccessService.

(* ================================================================= *)
(** ** Python runtime: database scalars *)

Definition raise {A} (c : exn_class) (msg : string) : outcome A :=
  Raise (Raise_ c msg).

(** A [float]: a binary64 number, given by the rational it stands for (in
    lowest terms), an infinity, or a NaN.  The sign of a zero is not
    kept. *)
Inductive pyfloat : Type :=
| FFinite (q : Q)
| FInf (negative : bool)
| FNan.

(** [floor(log2(n / d))] for positive [n] and [d]. *)
Definition floor_log2 (n d : Z) : Z :=
  let e0 := (Z.log2 n - Z.log2 d)%Z in
  if (0 <=? e0)%Z then
    if (d * 2 ^ e0 <=? n)%Z then e0 else (e0 - 1)%Z
  else
    if (d <=? n * 2 ^ (- e0))%Z then e0 else (e0 - 1)%Z.

(** [n / d] rounded to the nearest integer, ties to the even one. *)
Definition round_half_even (n d : Z) : Z :=
  let m := (n / d)%Z in
  let r := (n mod d)%Z in
  if (d <? 2 * r)%Z then (m + 1)%Z
  else if (2 * r =? d)%Z then (if Z.even m then m else m + 1)%Z
  else m.

(** The binary64 number nearest to a rational, ties to even: 53 bits of
    significand, exponents down to that of the subnormals, and an infinity
    from [2^1024] on. *)
Definition binary64_of_Q (q : Q) : pyfloat :=
  let n := Qnum q in
  let d := Zpos (Qden q) in
  if (n =? 0)%Z then FFinite 0%Q
  else
    let a := Z.abs n in
    let e := Z.max (floor_log2 a d - 52) (-1074) in
    let m :=
      if (0 <=? e)%Z then round_half_even a (d * 2 ^ e)
      else round_half_even (a * 2 ^ (- e)) d in
    let signed := (if (n <? 0)%Z then - m else m)%Z in
    if (0 <=? e)%Z then
      if (2 ^ 1024 <=? m * 2 ^ e)%Z then FInf (n <? 0)%Z
      else FFinite (inject_Z (signed * 2 ^ e))
    else FFinite (Qred (Qmake signed (Z.to_pos (2 ^ (- e))))).

Record date : Type := Date { year : nat; month : nat; day : nat }.

Record datetime : Type :=
  DateTime { dt_date : date; hour : nat; minute : nat; second : nat;
             microsecond : nat }.

(** Any other object a driver may hand back ([Decimal], [bytes], [UUID],
    [time], ...), seen through what [str], [repr] and [float] do on it. *)
Record pyobject : Type :=
  PyObject { obj_str : outcome string; obj_repr : outcome string;
             obj_float : outcome pyfloat }.

(** A cell of a result row.  A database [float] carries the text [str]
    prints for it. *)
Inductive db_value : Type :=
| VNone
| VStr (s : string)
| VInt (z : Z)
| VBool (b : bool)
| VFloat (f : pyfloat) (shown : string)
| VDate (d : date)
| VDateTime (t : datetime)
| VObject (o : pyobject).

Definition is_none (v : db_value) : bool :=
  match v with
  | VNone => true
  | _ => false
  end.

Fixpoint zeros (n : nat) : string :=
  match n with
  | O => ""
  | S n' => "0" ++ zeros n'
  end.

(** ["%0<w>d" % n]. *)
Definition zero_padded (w n : nat) : string :=
  let s := str_of_nat n in zeros (w - String.length s) ++ s.

Definition date_isoformat (d : date) : string :=
  zero_padded 4 (year d) ++ "-" ++ zero_padded 2 (month d) ++ "-"
  ++ zero_padded 2 (day d).

Definition datetime_isoformat (sep : string) (t : datetime) : string :=
  date_isoformat (dt_date t) ++ sep
  ++ zero_padded 2 (hour t) ++ ":" ++ zero_padded 2 (minute t) ++ ":"
  ++ zero_padded 2 (second t)
  ++ (if (microsecond t =? 0)%nat then ""
      else "." ++ zero_padded 6 (microsecond t)).

(** [str(v)]. *)
Definition py_str (v : db_value) : outcome string :=
  match v with
  | VNone => Ok "None"
  | VStr s => Ok s
  | VInt z => Ok (str_of_int z)
  | VBool b => Ok (if b then "True" else "False")
  | VFloat _ shown => Ok shown
  | VDate d => Ok (date_isoformat d)
  | VDateTime t => Ok (datetime_isoformat " " t)
  | VObject o => obj_str o
  end.

(** *** [float(s)] on text *)

(** The blanks [float] skips at both ends of ASCII text: TAB, LF, VT, FF,
    CR and SPACE.  The separators FS, GS, RS and US, which [str.strip]
    removes, are not among them. *)
Definition float_isspace (c : ascii) : bool :=
  in_range 9 13 c || (code c =? 32)%nat.

Fixpoint float_lstrip (s : string) : string :=
  match s with
  | EmptyString => EmptyString
  | String c r => if float_isspace c then float_lstrip r else s
  end.

Fixpoint float_rstrip (s : string) : string :=
  match s with
  | EmptyString => EmptyString
  | String c r =>
      match float_rstrip r with
      | EmptyString =>
          if float_isspace c then EmptyString else String c EmptyString
      | r' => String c r'
      end
  end.

Definition float_strip (s : string) : string :=
  float_rstrip (float_lstrip s).

Definition digit_val (c : ascii) : Z := Z.of_nat (code c - 48).

(** The rest of a [digitpart]: digits, each optionally preceded by one
    underscore. *)
Fixpoint digits_tail (s : string) : list Z * string :=
  match s with
  | EmptyString => ([], EmptyString)
  | String c r =>
      if is_digit c then
        let (ds, rest) := digits_tail r in (digit_val c :: ds, rest)
      else if Ascii.eqb c "_" then
        match r with
        | String d r' =>
            if is_digit d then
              let (ds, rest) := digits_tail r' in (digit_val d :: ds, rest)
            else ([], s)
        | EmptyString => ([], s)
        end
      else ([], s)
  end.

Definition digitpart (s : string) : option (list Z * string) :=
  match s with
  | String c r =>
      if is_digit c then
        let (ds, rest) := digits_tail r in Some (digit_val c :: ds, rest)
      else None
  | EmptyString => None
  end.

Definition digits_value (ds : list Z) : Z :=
  fold_left (fun acc d => 10 * acc + d)%Z ds 0%Z.

(** [sign]: the flag is [true] for a minus. *)
Definition read_sign (s : string) : bool * string :=
  match s with
  | String "-" r => (true, r)
  | String "+" r => (false, r)
  | _ => (false, s)
  end.

(** [number]: integer digits, fraction digits, rest. *)
Definition read_number (s : string) : option (list Z * list Z * string) :=
  match digitpart s with
  | Some (ip, rest) =>
      match rest with
      | String "." after =>
          match digitpart after with
          | Some (fp, rest') => Some (ip, fp, rest')
          | None => Some (ip, [], after)
          end
      | _ => Some (ip, [], rest)
      end
  | None =>
      match s with
      | String "." after =>
          match digitpart after with
          | Some (fp, rest') => Some ([], fp, rest')
          | None => None
          end
      | _ => None
      end
  end.

(** [exponent], when one is written; [None] is a syntax error. *)
Definition read_exponent (s : string) : option (Z * string) :=
  match s with
  | String c r =>
      if Ascii.eqb c "e" || Ascii.eqb c "E" then
        let (neg, r') := read_sign r in
        match digitpart r' with
        | Some (ds, rest) =>
            Some ((if neg then - digits_value ds else digits_value ds)%Z, rest)
        | None => None
        end
      else Some (0%Z, s)
  | EmptyString => Some (0%Z, s)
  end.

Definition decimal_value (neg : bool) (mantissa exp10 : Z) : Q :=
  let m := (if neg then - mantissa else mantissa)%Z in
  if (0 <=? exp10)%Z then inject_Z (m * 10 ^ exp10)
  else Qred (Qmake m (Z.to_pos (10 ^ (- exp10)))).

Definition parse_float (text : string) : option pyfloat :=
  let (neg, body) := read_sign (float_strip text) in
  let word := lower body in
  if String.eqb word "inf" || String.eqb word "infinity" then Some (FInf neg)
  else if String.eqb word "nan" then Some FNan
  else
    match read_number body with
    | Some (ip, fp, rest) =>
        match read_exponent rest with
        | Some (e, EmptyString) =>
            Some (binary64_of_Q
                    (decimal_value neg (digits_value (ip ++ fp)%list)
                       (e - Z.of_nat (length fp))))
        | _ => None
        end
    | None => None
    end.

(** [float(v)]. *)
Definition py_float (v : db_value) : outcome pyfloat :=
  match v with
  | VNone => raise TypeError "float() argument must be a string or a real number"
  | VStr s =>
      match parse_float s with
      | Some f => Ok f
      | None => raise ValueError "could not convert string to float"
      end
  | VInt z =>
      match binary64_of_Q (inject_Z z) with
      | FInf _ => raise OverflowError "int too large to convert to float"
      | f => Ok f
      end
  | VBool b => Ok (FFinite (inject_Z (if b then 1 else 0)))
  | VFloat f _ => Ok f
  | VDate _ | VDateTime _ =>
      raise TypeError "float() argument must be a string or a real number"
  | VObject o => obj_float o
  end.

(* ================================================================= *)
(** ** [convert_value_safely] *)

(** What the imports at the top of [report_api_routes.py] bind at module
    level.  The file says [from datetime import datetime]; the statement
    [from datetime import datetime, date] sits inside [execute_sql_query]
    and binds names local to that function only. *)
Definition module_globals : list string :=
  [ "asyncio"; "json"; "datetime"; "os"; "httpx";
    "APIRouter"; "Query"; "HTTPException"; "Request"; "UploadFile"; "File";
    "Form"; "Response"; "FileResponse"; "StreamingResponse"; "Optional";
    "APIService"; "PDFService"; "ExcelService"; "ControlService";
    "IncidentService"; "BankCheckService"; "EnhancedBankCheckService";
    "DashboardActivityService"; "get_default_header_config";
    "ExportRequest"; "ExportResponse"; "write_debug"; "parse_header_config";
    "merge_header_config"; "convert_to_boolean"; "save_and_log_export";
    "build_dynamic_sql_query"; "generate_excel_report";
    "generate_word_report"; "generate_pdf_report" ].

(** Evaluation of a global name inside a module-level function. *)
Definition global_name (name : string) : outcome unit :=
  if existsb (String.eqb name) module_globals then Ok tt
  else raise NameError ("name '" ++ name ++ "' is not defined").

Definition convert_value_safely (value : db_value) : string :=
  let body : outcome string :=
    match value with
    | VNone => Ok ""
    | VStr _ | VInt _ | VFloat _ _ | VBool _ => py_str value
    | _ =>
        (* elif isinstance(value, (datetime, date)): *)
        _ <- global_name "datetime" ;;
        _ <- global_name "date" ;;
        match value with
        | VDate d => Ok (date_isoformat d)
        | VDateTime t => Ok (datetime_isoformat "T" t)
        | VObject o =>
            match obj_str o with
            | Ok s => Ok s
            | Raise e =>
                if caught_by [TypeError; ValueError; UnicodeEncodeError] e then
                  match obj_repr o with
                  | Ok s => Ok s
                  | Raise _ => Ok "[Unsupported Type]"
                  end
                else Raise e
            end
        | _ => py_str value
        end
    end in
  match body with
  | Ok s => s
  | Raise _ => "[Conversion Error]"
  end.

(* ================================================================= *)
(** ** Export format, [generate_dynamic_report] lines 333-357 *)

(** A JSON value of the request body, as [request.json()] hands it over:
    [None], a [str], an [int], a [bool], a [list] or a [dict].  Numbers
    with a fraction are left out; the code modelled here only tests such a
    value for truth, compares it with a text or passes it on. *)
#[warnings="-register-all"] Inductive json : Type :=
| JNull
| JString (s : string)
| JNumber (z : Z)
| JBool (b : bool)
| JArray (items : list json)
| JObject (fields : list (string * json)).

(** Truth value of a JSON value. *)
Definition json_truthy (v : json) : bool :=
  match v with
  | JNull => false
  | JString s => negb (String.eqb s "")
  | JNumber z => negb (z =? 0)%Z
  | JBool b => b
  | JArray items => negb (is_empty items)
  | JObject fields => negb (is_empty fields)
  end.

(** [len(v)]. *)
Definition json_len (v : json) : outcome nat :=
  match v with
  | JString s => Ok (String.length s)
  | JArray items => Ok (length items)
  | JObject fields => Ok (length fields)
  | _ => raise TypeError "object has no len()"
  end.

Definition format_mapping : pydict string :=
  [("xlsx", "excel"); ("xls", "excel"); ("doc", "word"); ("docx", "word")].

Definition valid_formats : list string := ["excel"; "pdf"; "word"].

(** [body_format] is [body.get('format')]; a missing key reads as
    ['excel']. *)
Definition resolve_format (body_format : option json) : string :=
  let format_type_raw :=
    match body_format with
    | Some v => v
    | None => JString "excel"
    end in
  let format_type :=
    match format_type_raw with
    | JString s => strip (lower s)
    | _ => "excel"
    end in
  let format_type :=
    match dict_get format_type format_mapping with
    | Some v => v
    | None => format_type
    end in
  if existsb (String.eqb format_type) valid_formats then format_type
  else "excel".

(* ================================================================= *)
(** ** The ad-hoc executor, [execute_sql_query] *)

(** Calls made on the database driver, in order. *)
Inductive event : Type :=
| EvConnect                 (* pyodbc.connect(...) *)
| EvCursor                  (* conn.cursor(), the first cursor *)
| EvExecute (sql : string)  (* cursor.execute(sql) *)
| EvFetchAll                (* cursor.fetchall() *)
| EvFetchOne                (* cursor.fetchone() *)
| EvCursorClose             (* cursor.close() *)
| EvNewCursor               (* conn.cursor(), the second cursor *)
| EvConnClose.              (* conn.close() *)

(** One answer of [cursor.fetchone()]: a row whose cells may fail to be
    read one by one, or an exception. *)
Inductive fetched : Type :=
| FetchedRow (cells : list (outcome db_value))
| FetchFailed (e : pyexn).

(** What the database does during one request, call by call:
    [pyodbc.connect], the first [conn.cursor()], [cursor.execute] with the
    column names of [cursor.description], [cursor.fetchall], and for the
    row-by-row path the second [conn.cursor()], [cursor.execute] on it and
    the answers of [cursor.fetchone].  [db_fetchone] is the finite sequence
    of answers of the second cursor; past its end [fetchone] returns
    [None].  [db_close_again] is what [cursor.close()] does on the first
    cursor when it was closed before, which is where the [finally] block
    ends up when the second cursor cannot be made.  Closing an open cursor
    and closing the connection are taken to return normally. *)
Record driver : Type :=
  Driver { db_connect : outcome unit;
           db_cursor : outcome unit;
           db_execute : outcome (list string);
           db_fetchall : outcome (list (list db_value));
           db_cursor_again : outcome unit;
           db_reexecute : outcome unit;
           db_fetchone : list fetched;
           db_close_again : outcome unit }.

Inductive response : Type :=
| HTTPException (status_code : Z) (detail : string)
  (* raised by the endpoint itself *)
| ServerError (e : pyexn)
  (* any other exception [e], turned into a status 500 by the last handler
     of the endpoint, with a detail built from [str(e)] *)
| SqlResult (columns : list string) (rows : list (pydict string))
            (total : nat).
  (* {"success": True, "columns": ..., "rows": ..., "total": ...} *)

Definition dangerous_keywords : list string :=
  ["DROP"; "DELETE"; "UPDATE"; "INSERT"; "ALTER"; "CREATE"; "TRUNCATE";
   "EXEC"; "EXECUTE"].

(** The [for keyword in dangerous_keywords] loop: the first keyword of the
    list found as a whole word. *)
Definition first_dangerous_keyword (sql_upper : string) : option string :=
  find (fun keyword => word_search keyword sql_upper) dangerous_keywords.

(** Lines 1213-1234: the checks made before anything touches the database.
    [None] lets the query through. *)
Definition reject_sql (sql_query : string) : option response :=
  if String.eqb sql_query "" then
    Some (HTTPException 400 "SQL query is required")
  else
    let sql_upper := strip (upper sql_query) in
    if negb (startswith sql_upper "SELECT") then
      Some (HTTPException 400 "Only SELECT statements are allowed")
    else
      match first_dangerous_keyword sql_upper with
      | Some keyword =>
          Some (HTTPException 400
                  ("Operation '" ++ keyword ++ "' is not allowed"))
      | None => None
      end.

(** [row[idx]]. *)
Definition row_item {A} (row : list A) (idx : nat) : outcome A :=
  match nth_error row idx with
  | Some v => Ok v
  | None => raise IndexError "tuple index out of range"
  end.

(** Lines 1314-1317: one row of the bulk path. *)
Fixpoint bulk_row (row : list db_value) (columns : list string) (idx : nat)
    (row_dict : pydict string) : outcome (pydict string) :=
  match columns with
  | [] => Ok row_dict
  | col :: rest =>
      value <- row_item row idx ;;
      bulk_row row rest (S idx)
        (dict_set col (convert_value_safely value) row_dict)
  end.

(** Lines 1313-1319: rows, count, and the exception that ended the loop. *)
Fixpoint bulk_rows (rows : list (list db_value)) (columns : list string)
    (result_rows : list (pydict string)) (row_count : Z)
  : list (pydict string) * Z * option pyexn :=
  match rows with
  | [] => (result_rows, row_count, None)
  | row :: rest =>
      match bulk_row row columns 0 [] with
      | Ok row_dict =>
          bulk_rows rest columns (result_rows ++ [row_dict])%list
            (row_count + 1)%Z
      | Raise e => (result_rows, row_count, Some e)
      end
  end.

(** Lines 1336-1347: one cell of the row-by-row path. *)
Definition degraded_cell (cells : list (outcome db_value)) (idx : nat)
  : string :=
  match bind (row_item cells idx) (fun cell => cell) with
  | Ok value => convert_value_safely value
  | Raise col_err =>
      if caught_by [TypeError; ValueError; AttributeError; IndexError] col_err
      then "[Unsupported Type]"
      else "[Error]"
  end.

(** Lines 1333-1347: one row of the row-by-row path. *)
Fixpoint degraded_row (cells : list (outcome db_value))
    (columns : list string) (idx : nat) (row_dict : pydict string)
  : pydict string :=
  match columns with
  | [] => row_dict
  | col :: rest =>
      degraded_row cells rest (S idx)
        (dict_set col (degraded_cell cells idx) row_dict)
  end.

(** Lines 1327-1357: the [while row_count < max_rows] loop, run on the
    answers the cursor still has to give. *)
Fixpoint degraded_loop (answers : list fetched) (columns : list string)
    (max_rows : Z) (result_rows : list (pydict string)) (row_count : Z)
  : list event * list (pydict string) :=
  if (row_count <? max_rows)%Z then
    match answers with
    | [] => ([EvFetchOne], result_rows)                 (* row is None *)
    | FetchFailed _ :: _ => ([EvFetchOne], result_rows) (* except: break *)
    | FetchedRow cells :: rest =>
        let row_dict := degraded_row cells columns 0 [] in
        let (evs, rows) :=
          match row_dict with
          | [] => degraded_loop rest columns max_rows result_rows row_count
          | _ :: _ =>
              degraded_loop rest columns max_rows
                (result_rows ++ [row_dict])%list (row_count + 1)%Z
          end in
        (EvFetchOne :: evs, rows)
    end
  else ([], result_rows).

Definition success (columns : list string) (result_rows : list (pydict string))
  : response :=
  SqlResult columns result_rows (length result_rows).

(** [body_sql] is [body.get('sql')] and [body_limit] is [body.get('limit')],
    for a body that holds a string and an integer there. *)
Definition execute_sql_query (body_sql : option string)
    (body_limit : option Z) (db : driver) : list event * response :=
  let sql_query :=
    strip (match body_sql with Some s => s | None => "" end) in
  let limit := match body_limit with Some n => n | None => 1000%Z end in
  match reject_sql sql_query with
  | Some rejection => ([], rejection)
  | None =>
      (* lines 1279-1280, before the [try] that has the [finally] *)
      match db_connect db with
      | Raise e => ([EvConnect], ServerError e)
      | Ok _ =>
      match db_cursor db with
      | Raise e => ([EvConnect; EvCursor], ServerError e)
      | Ok _ =>
          let finally := [EvCursorClose; EvConnClose] in
          let opened := [EvConnect; EvCursor; EvExecute sql_query] in
          match db_execute db with
          | Raise e => (opened ++ finally, ServerError e)%list
          | Ok columns =>
              let max_rows := limit in
              let started := (opened ++ [EvFetchAll])%list in
              let (bulk, fetch_err) :=
                match db_fetchall db with
                | Ok rows => bulk_rows (slice_to rows max_rows) columns [] 0%Z
                | Raise e => ([], 0%Z, Some e)
                end in
              let (result_rows, row_count) := bulk in
              match fetch_err with
              | None => (started ++ finally, success columns result_rows)%list
              | Some _ =>
                  (* line 1323 closes the first cursor, line 1324 asks for
                     a second one *)
                  let reopened := [EvCursorClose; EvNewCursor] in
                  match db_cursor_again db with
                  | Raise e =>
                      (* [cursor] is still the closed cursor in [finally] *)
                      match db_close_again db with
                      | Ok _ =>
                          (started ++ reopened ++ finally, ServerError e)%list
                      | Raise e' =>
                          (started ++ reopened ++ [EvCursorClose],
                           ServerError e')%list
                      end
                  | Ok _ =>
                      let retried :=
                        (reopened ++ [EvExecute sql_query])%list in
                      match db_reexecute db with
                      | Raise e =>
                          (started ++ retried ++ finally, ServerError e)%list
                      | Ok _ =>
                          let (fetches, result_rows) :=
                            degraded_loop (db_fetchone db) columns max_rows
                              result_rows row_count in
                          (started ++ retried ++ fetches ++ finally,
                           success columns result_rows)%list
                      end
                  end
              end
          end
      end
      end
  end.

(* ================================================================= *)
(** ** The dynamic report endpoints *)

(** Modelled from the spec: the shape of a join, a filter predicate and a
    time filter of a selection (section 3, Selection).  The endpoints only
    hand them to [build_dynamic_sql_query], which lives in
    [routes/route_utils.py]. *)
Record join_spec : Type :=
  JoinSpec { leftTable : string; rightTable : string; leftColumn : string;
             rightColumn : string; joinType : string }.

Record where_condition : Type :=
  WhereCondition { wc_column : string; wc_operator : string;
                   wc_value : string }.

Record time_filter : Type :=
  TimeFilter { tf_column : string; tf_range : string }.

(** The chart binding of [headerConfig.chartConfig]: a key is [None] when
    it is missing or null; [chart_type_field] is the value under ['type'],
    of any kind, and [None] when the binding has no such key. *)
Record chart_config : Type :=
  ChartConfig { xKey : option string; yKey : option string;
                chart_type_field : option json }.

(** A header configuration, as far as the export endpoint looks into it:
    the entries ['chartConfig'] and ['chart_data'].  An entry is [None]
    when the dictionary has no such key; a ['chartConfig'] that is not a
    dictionary (a null, say) is [Some None]. *)
Record config_dict : Type :=
  HeaderConfig { hc_chartConfig : option (option chart_config);
                 hc_chart_data : option json }.

(** The body of a report request.  [export_type_field] is the value under
    ['type'], [None] when it is missing or null. *)
Record selection : Type :=
  Selection { tables : list string;
              joins : list join_spec;
              columns : list string;
              whereConditions : list where_condition;
              timeFilter : option time_filter;
              format : option json;
              headerConfig : config_dict;
              export_type_field : option string;
              previewLimit : option Z }.

(** [request.state.user], as far as the endpoints read it. *)
Record request_user : Type :=
  RequestUser { user_id_field : option string;
                user_groupName : option string;
                user_name_field : option string;
                user_userName : option string }.

(** What an endpoint reads of the request besides its body: the user the
    auth middleware left in [request.state], and two headers. *)
Record request_info : Type :=
  RequestInfo { state_user : option request_user;
                header_x_user_name : option string;
                header_authorization : option string }.

(** A number of a chart series: [Counter] counts and integer cells stay
    [int], a [bool] cell stays [bool], everything else went through
    [float]. *)
Inductive number : Type :=
| NumInt (z : Z)
| NumBool (b : bool)
| NumFloat (f : pyfloat).

(** The dictionary of lines 608-612; its ['type'] is whatever the binding
    holds under that key. *)
Record chart_dataset : Type :=
  ChartData { labels : list string; values : list number;
              chart_type : json }.

(** [merged_config.get('chart_data')] when the renderer is called. *)
Inductive chart_entry : Type :=
| NoChartData                        (* no such key *)
| ChartDataSent (v : json)           (* what the request or the defaults held *)
| ChartDataMade (d : chart_dataset). (* the dataset of lines 608-612 *)

(** Lines 336 and 774. *)
Definition valid_columns_of (columns : list string) : list string :=
  filter (fun col => negb (String.eqb col "#")
                     && negb (String.eqb (strip col) "")) columns.

(** [str(cell) if cell is not None else '']. *)
Definition cell_text (cell : db_value) : outcome string :=
  if is_none cell then Ok "" else py_str cell.

(** Lines 398-401: the cells of one row, into its dictionary and its list
    of texts. *)
Fixpoint convert_cells (row : list db_value) (column_names : list string)
    (idx : nat) (row_dict : pydict db_value) (row_list : list string)
  : outcome (pydict db_value * list string) :=
  match row with
  | [] => Ok (row_dict, row_list)
  | cell :: rest =>
      let col_name :=
        match nth_error column_names idx with
        | Some name => name
        | None => "col_" ++ str_of_nat idx
        end in
      text <- cell_text cell ;;
      convert_cells rest column_names (S idx)
        (dict_set col_name cell row_dict) (row_list ++ [text])%list
  end.

(** Lines 393-403. *)
Fixpoint convert_rows (rows : list (list db_value))
    (column_names : list string)
  : outcome (list (pydict db_value) * list (list string)) :=
  match rows with
  | [] => Ok ([], [])
  | row :: rest =>
      converted <- convert_cells row column_names 0 [] [] ;;
      others <- convert_rows rest column_names ;;
      Ok (fst converted :: fst others, snd converted :: snd others)
  end.

(** Lines 412-414: [enumerate(data_rows, start)]. *)
Fixpoint with_index (start : nat) (data_rows : list (list string))
  : list (list string) :=
  match data_rows with
  | [] => []
  | row :: rest => (str_of_nat start :: row) :: with_index (S start) rest
  end.

(** Lines 417-418. *)
Fixpoint dicts_with_index (start : nat) (dicts : list (pydict db_value))
  : list (pydict db_value) :=
  match dicts with
  | [] => []
  | row_dict :: rest =>
      dict_set "#" (VStr (str_of_nat start)) row_dict
      :: dicts_with_index (S start) rest
  end.

(** *** Chart binding: column resolution, lines 496-529 *)

(** [k.split('.')[-1].lower() if '.' in k else k.lower()]. *)
Definition normalized (k : string) : string :=
  if contains_char "." k then lower (last (split "." k) "") else lower k.

(** One turn of the loop over [available_cols], for one of the two keys. *)
Definition match_step (key key_normalized : string)
    (col_match : option string) (col : string) : option string :=
  let col_normalized := normalized col in
  if negb (truthy col_match) && String.eqb col key then Some col
  else if negb (truthy col_match) && String.eqb col_normalized key_normalized
  then Some col
  else if negb (truthy col_match) && String.eqb (lower col) (lower key)
  then Some col
  else col_match.

(** The source resolves [xKey] and [yKey] in one loop; the two do not
    interact, and [resolve_column] is that loop for one key. *)
Definition resolve_column (key : string) (available_cols : list string)
  : option string :=
  let key_normalized := normalized key in
  let col_match :=
    if String.eqb key "#" || String.eqb key_normalized "#" then Some "#"
    else None in
  fold_left (match_step key key_normalized) available_cols col_match.

(** *** Chart binding: aggregation, lines 536-616 *)

(** [v = row_dict.get(col)] followed by the test [v is not None]. *)
Definition get_not_none (col : string) (row_dict : pydict db_value)
  : option db_value :=
  match dict_get col row_dict with
  | Some v => if is_none v then None else Some v
  | None => None
  end.

(** Lines 541-545 and 579-583: the texts of a column, nulls left out. *)
Fixpoint column_texts (col : string) (data_rows_dict : list (pydict db_value))
  : outcome (list string) :=
  match data_rows_dict with
  | [] => Ok []
  | row_dict :: rest =>
      match get_not_none col row_dict with
      | Some v =>
          text <- py_str v ;;
          others <- column_texts col rest ;;
          Ok (text :: others)
      | None => column_texts col rest
      end
  end.

(** Lines 548-550 and 586-588. *)
Definition count_series (texts : list string) : list string * list number :=
  let counter := Counter texts in
  (dict_keys counter,
   map (fun n => NumInt (Z.of_nat n)) (dict_values counter)).

(** Lines 558-562. *)
Definition sample_y_vals (y_col : string)
    (data_rows_dict : list (pydict db_value)) : list db_value :=
  flat_map (fun row_dict =>
              match get_not_none y_col row_dict with
              | Some v => [v]
              | None => []
              end)
           (firstn 10 data_rows_dict).

(** Lines 565-571. *)
Definition is_y_numeric (sample : list db_value) : outcome bool :=
  match sample with
  | [] => Ok false
  | first :: _ =>
      match py_float first with
      | Ok _ => Ok true
      | Raise e =>
          if caught_by [ValueError; TypeError] e then Ok false else Raise e
      end
  end.

(** Line 599:
    [float(y_val) if not isinstance(y_val, (int, float)) else y_val]. *)
Definition y_number (y_val : db_value) : outcome number :=
  match y_val with
  | VInt z => Ok (NumInt z)
  | VBool b => Ok (NumBool b)
  | VFloat f _ => Ok (NumFloat f)
  | _ => f <- py_float y_val ;; Ok (NumFloat f)
  end.

(** Lines 599-601, the body of the inner [try]. *)
Definition numeric_point (x_val y_val : db_value)
  : outcome (string * number) :=
  y_num <- y_number y_val ;;
  label <- py_str x_val ;;
  Ok (label, y_num).

(** Lines 592-604. *)
Fixpoint numeric_series (x_col y_col : string)
    (data_rows_dict : list (pydict db_value))
    (labels : list string) (values : list number)
  : outcome (list string * list number) :=
  match data_rows_dict with
  | [] => Ok (labels, values)
  | row_dict :: rest =>
      match get_not_none x_col row_dict, get_not_none y_col row_dict with
      | Some x_val, Some y_val =>
          match numeric_point x_val y_val with
          | Ok (label, y_num) =>
              numeric_series x_col y_col rest
                (labels ++ [label])%list (values ++ [y_num])%list
          | Raise e =>
              if caught_by [ValueError; TypeError] e
              then numeric_series x_col y_col rest labels values
              else Raise e
          end
      | _, _ => numeric_series x_col y_col rest labels values
      end
  end.

(** [chart_type == 'pie']. *)
Definition is_pie (chart_type : json) : bool :=
  match chart_type with
  | JString s => String.eqb s "pie"
  | _ => false
  end.

(** Lines 538-604: labels and values for resolved columns. *)
Definition series (x_col y_col : string) (chart_type : json)
    (data_rows_dict : list (pydict db_value))
  : outcome (list string * list number) :=
  if String.eqb y_col "#" then
    x_values <- column_texts x_col data_rows_dict ;;
    Ok (count_series x_values)
  else
    numeric <- is_y_numeric (sample_y_vals y_col data_rows_dict) ;;
    if negb numeric && is_pie chart_type then
      y_values <- column_texts y_col data_rows_dict ;;
      Ok (count_series y_values)
    else numeric_series x_col y_col data_rows_dict [] [].

(** Lines 474-478. *)
Definition has_key (key_val : option string) : bool :=
  match key_val with
  | Some k =>
      if truthy key_val then
        let k_str := strip k in
        negb (String.eqb k_str "") && negb (String.eqb (lower k_str) "none")
      else false
  | None => false
  end.

(** Lines 485-616, the body of the [try]: [None] is "no chart_data set". *)
Definition chart_body (cfg : chart_config)
    (data_rows_dict : list (pydict db_value))
  : outcome (option chart_dataset) :=
  let x_key := strip (match xKey cfg with Some k => k | None => "" end) in
  let y_key := strip (match yKey cfg with Some k => k | None => "" end) in
  let chart_type :=
    match chart_type_field cfg with Some t => t | None => JString "bar" end in
  let available_cols :=
    match data_rows_dict with
    | first :: _ => dict_keys first
    | [] => []
    end in
  let x_col_match := resolve_column x_key available_cols in
  let y_col_match := resolve_column y_key available_cols in
  match x_col_match, y_col_match with
  | Some x_col, Some y_col =>
      if negb (truthy x_col_match) || negb (truthy y_col_match) then Ok None
      else
        extracted <- series x_col y_col chart_type data_rows_dict ;;
        let (labels, values) := extracted in
        if (0 <? length labels)%nat && (0 <? length values)%nat
        then Ok (Some (ChartData labels values chart_type))
        else Ok None
  | _, _ => Ok None
  end.

(** Lines 434-440: [{**default_config, **header_config}], which is
    [default_config] itself when [header_config] has no key. *)
Definition merge_config (default_config header_config : config_dict)
  : config_dict :=
  HeaderConfig
    match hc_chartConfig header_config with
    | Some v => Some v
    | None => hc_chartConfig default_config
    end
    match hc_chart_data header_config with
    | Some v => Some v
    | None => hc_chart_data default_config
    end.

(** A ['chartConfig'] entry that is a dictionary. *)
Definition binding_of (entry : option (option chart_config))
  : option chart_config :=
  match entry with
  | Some (Some cfg) => Some cfg
  | _ => None
  end.

(** Line 446:
    [merged_config.get('chartConfig') or header_config.get('chartConfig')],
    as far as it is a dictionary. *)
Definition chart_config_raw_of (merged_config header_config : config_dict)
  : option chart_config :=
  match binding_of (hc_chartConfig merged_config) with
  | Some cfg => Some cfg
  | None => binding_of (hc_chartConfig header_config)
  end.

(** Lines 453-623: the dataset written to [merged_config['chart_data']] at
    line 608, [None] when that line is not reached.  [chart_config_raw] is
    the chart binding found in the header configuration, if any. *)
Definition made_chart_data (chart_config_raw : option chart_config)
    (data_rows_dict : list (pydict db_value)) : option chart_dataset :=
  match chart_config_raw with
  | None => None
  | Some cfg =>
      if negb (truthy (xKey cfg)) && negb (truthy (yKey cfg)) then None
      else
        let has_data := (0 <? length data_rows_dict)%nat in
        if has_key (xKey cfg) && has_key (yKey cfg) && has_data then
          match chart_body cfg data_rows_dict with
          | Ok made => made
          | Raise _ => None            (* except Exception: log only *)
          end
        else None
  end.

(** Lines 430-623: [merged_config.get('chart_data')] after the chart
    processing: the dataset made from the binding, or else whatever the
    request's header configuration, or the defaults, had under that key. *)
Definition chart_data (default_config header_config : config_dict)
    (data_rows_dict : list (pydict db_value)) : chart_entry :=
  let merged_config := merge_config default_config header_config in
  let chart_config_raw := chart_config_raw_of merged_config header_config in
  match made_chart_data chart_config_raw data_rows_dict with
  | Some made => ChartDataMade made
  | None =>
      match hc_chart_data merged_config with
      | Some sent => ChartDataSent sent
      | None => NoChartData
      end
  end.

(** [shape]: lines 390-623 on fetched rows, the tabular part and the
    chart part.  [default_config] is what
    [get_default_header_config("dynamic")] returns. *)
Definition shape (valid_columns column_names : list string)
    (rows : list (list db_value))
    (default_config header_config : config_dict)
  : outcome (list string * list (list string) * chart_entry) :=
  converted <- convert_rows rows column_names ;;
  let (data_rows_dict, data_rows) := converted in
  let index_column_name := "#" in
  let columns_with_index := index_column_name :: valid_columns in
  let data_rows_with_index := with_index 1 data_rows in
  let data_rows_dict := dicts_with_index 1 data_rows_dict in
  Ok (columns_with_index, data_rows_with_index,
      chart_data default_config header_config data_rows_dict).

(** *** Renderer and media type of an export *)

(** Lines 649-670: the renderer called for a format and the file extension
    it sets; [None] is the branch that raises "Unsupported format". *)
Definition renderer_of_format (format_type : string)
  : option (string * string) :=
  if String.eqb format_type "excel"
  then Some ("generate_excel_report", "xlsx")
  else if String.eqb format_type "word"
  then Some ("generate_word_report", "docx")
  else if String.eqb format_type "pdf"
  then Some ("generate_pdf_report", "pdf")
  else None.

(** Lines 722-727. *)
Definition export_media_types : pydict string :=
  [("pdf", "application/pdf");
   ("xlsx",
    "application/vnd.openxmlformats-officedocument.spreadsheetml.sheet");
   ("docx",
    "application/vnd.openxmlformats-officedocument.wordprocessingml.document")].

Definition export_media_type (file_extension : string) : string :=
  match dict_get file_extension export_media_types with
  | Some m => m
  | None => "application/octet-stream"
  end.

(** Lines 852-873 of [download_export]: [fmt] is the stored format. *)
Definition download_media_types : pydict string :=
  [("pdf", "application/pdf");
   ("xlsx",
    "application/vnd.openxmlformats-officedocument.spreadsheetml.sheet");
   ("xls", "application/vnd.ms-excel");
   ("docx",
    "application/vnd.openxmlformats-officedocument.wordprocessingml.document");
   ("doc", "application/msword")].

Definition download_media_type (stored_format : option string) : string :=
  let fmt := if truthy stored_format then key_text stored_format else "pdf" in
  match dict_get (lower fmt) download_media_types with
  | Some m => m
  | None => "application/octet-stream"
  end.

(** *** The endpoints *)

(** Lines 655-657, on the Excel path only: the debug line that reads
    [cd.get('labels')] and [len(cd.get('labels', []))], and the same for
    ['values'], when [merged_config.get('chart_data')] is true.  A dataset
    made at line 608 is a dictionary of two lists. *)
Definition excel_debug (chart : chart_entry) : outcome unit :=
  match chart with
  | ChartDataSent cd =>
      if json_truthy cd then
        match cd with
        | JObject fields =>
            _ <- json_len (dict_get_default "labels" (JArray []) fields) ;;
            _ <- json_len (dict_get_default "values" (JArray []) fields) ;;
            Ok tt
        | _ => raise AttributeError "object has no attribute 'get'"
        end
      else Ok tt
  | _ => Ok tt
  end.

(** Modelled from the spec: what the persistence function returns
    (section 6, "returning {filename, relative_path, export_id}"); the
    function, [save_and_log_export], lives in [routes/route_utils.py]. *)
Record export_info : Type :=
  ExportInfo { ei_filename : string; ei_relative_path : string;
               ei_export_id : option Z }.

(** [str(export_info.get('export_id', ''))]. *)
Definition export_id_text (info : export_info) : string :=
  match ei_export_id info with
  | Some n => str_of_int n
  | None => "None"
  end.

(** Calls made by a report endpoint, in order. *)
Inductive report_event : Type :=
| EvBuildQuery (tables : list string) (columns : list string)
  (* build_dynamic_sql_query(tables, joins, columns, ...) *)
| EvDb (e : event)
| EvRender (renderer : string) (out_columns : list string)
           (data_rows : list (list string)) (chart : chart_entry)
  (* generate_<format>_report(columns, data_rows, merged_config), with
     [chart] as merged_config.get('chart_data') *)
| EvSave (file_extension card_type created_by export_type : string).
  (* await save_and_log_export(content, file_extension, 'transactions',
                              card_type, merged_config, created_by,
                              export_type) *)

Inductive report_response : Type :=
| ReportError (status_code : Z) (detail : string)
| UnsupportedFormat (format_type : string)
  (* status 500 with the detail "Failed to generate report: " followed by
     the text of the HTTPException(400, "Unsupported format: ...") of
     line 670 *)
| Download (content media_type filename export_src export_id : string)
  (* Response(content, media_type, headers) of lines 730-738 *)
| Preview (out_columns : list string) (rows : list (pydict string))
          (total : nat) (preview_limit : Z).
  (* {"success": True, "columns": ..., "rows": ..., "total": ...,
      "previewLimit": ...} *)

Section Endpoints.

(** The collaborators of the endpoints, which are not part of these files:
    [routes.route_utils.build_dynamic_sql_query]; the dictionary
    [utils.export_utils.get_default_header_config("dynamic")] returns; the
    three renderers of [routes.route_utils], told apart by their name; and
    [routes.route_utils.save_and_log_export], called with the content, the
    file extension, the card type, the merged configuration (seen through
    its ['chart_data']), the author and the export type. *)
Variable build_dynamic_sql_query :
  list string -> list join_spec -> list string -> list where_condition ->
  option time_filter -> outcome string.
Variable get_default_header_config : config_dict.
Variable generate_report :
  string -> list string -> list (list string) -> chart_entry ->
  outcome string.
Variable save_and_log_export :
  string -> string -> string -> chart_entry -> string -> string ->
  outcome export_info.

(** The [finally] block of both endpoints. *)
Definition db_closed : list report_event :=
  [EvDb EvCursorClose; EvDb EvConnClose].

(** Lines 680-686. *)
Definition created_by_of (request : request_info) : string :=
  let user_name :=
    match state_user request with
    | Some user => user_name_field user
    | None => None
    end in
  key_text
    (or_else (or_else (or_else user_name (header_x_user_name request))
                (header_authorization request))
       (Some "System")).

(** [POST /api/reports/dynamic]. *)
Definition generate_dynamic_report (body : selection) (request : request_info)
    (db : driver) : list report_event * report_response :=
  let valid_columns := valid_columns_of (columns body) in
  let format_type := resolve_format (format body) in
  if is_empty (tables body)
     || is_empty valid_columns then
    ([], ReportError 400 "Tables and valid columns are required")
  else
    let built := [EvBuildQuery (tables body) valid_columns] in
    match build_dynamic_sql_query (tables body) (joins body) valid_columns
            (whereConditions body) (timeFilter body) with
    | Raise sql_err =>
        (built,
         ReportError 400 ("Failed to build SQL query: " ++ exn_msg sql_err))
    | Ok sql_query =>
        let no_connection db_err :=
          ReportError 500 ("Database connection failed: " ++ exn_msg db_err) in
        (* lines 376-382: both calls sit in one [try], before the [try]
           that has the [finally] *)
        match db_connect db with
        | Raise db_err => (built ++ [EvDb EvConnect], no_connection db_err)%list
        | Ok _ =>
        match db_cursor db with
        | Raise db_err =>
            (built ++ [EvDb EvConnect; EvDb EvCursor],
             no_connection db_err)%list
        | Ok _ =>
            let executed :=
              (built ++ [EvDb EvConnect; EvDb EvCursor;
                         EvDb (EvExecute sql_query)])%list in
            let fetched := (executed ++ [EvDb EvFetchAll])%list in
            let failed e :=
              ReportError 500
                ("Failed to generate dynamic report: " ++ exn_msg e) in
            let not_generated gen_err :=
              ReportError 500
                ("Failed to generate report: " ++ exn_msg gen_err) in
            match db_execute db with
            | Raise e => (executed ++ db_closed, failed e)%list
            | Ok column_names =>
            match db_fetchall db with
            | Raise e => (fetched ++ db_closed, failed e)%list
            | Ok rows =>
            match shape valid_columns column_names rows
                    get_default_header_config (headerConfig body) with
            | Raise e => (fetched ++ db_closed, failed e)%list
            | Ok (columns_with_index, data_rows, chart) =>
                let export_type :=
                  match export_type_field body with
                  | Some t => t
                  | None => "transaction"
                  end in
                match renderer_of_format format_type with
                | None =>
                    (fetched ++ db_closed, UnsupportedFormat format_type)%list
                | Some (renderer, file_extension) =>
                    let checked :=
                      if String.eqb format_type "excel"
                      then excel_debug chart else Ok tt in
                    match checked with
                    | Raise gen_err =>
                        (fetched ++ db_closed, not_generated gen_err)%list
                    | Ok _ =>
                    let rendered :=
                      (fetched ++ [EvRender renderer columns_with_index
                                     data_rows chart])%list in
                    match generate_report renderer columns_with_index
                            data_rows chart with
                    | Raise gen_err =>
                        (rendered ++ db_closed, not_generated gen_err)%list
                    | Ok report_content =>
                        let created_by := created_by_of request in
                        let table_names :=
                          if is_empty (tables body) then "Dynamic_Report"
                          else join "_" (tables body) in
                        let export_info :=
                          match save_and_log_export report_content
                                  file_extension table_names chart
                                  created_by export_type with
                          | Ok info => info
                          | Raise _ =>
                              (* continue even if save fails *)
                              ExportInfo
                                ("dynamic_report." ++ file_extension) "" None
                          end in
                        ((rendered
                          ++ [EvSave file_extension table_names created_by
                                export_type]
                          ++ db_closed)%list,
                         Download report_content
                           (export_media_type file_extension)
                           (ei_filename export_info)
                           (ei_relative_path export_info)
                           (export_id_text export_info))
                    end
                    end
                end
            end
            end
            end
        end
        end
    end.

(** Lines 810-814: the rows of the preview. *)
Fixpoint preview_rows (start : nat) (columns_with_index : list string)
    (rows : list (list db_value)) : outcome (list (pydict string)) :=
  match rows with
  | [] => Ok []
  | row :: rest =>
      row_values <-
        fold_right (fun cell acc =>
                      text <- cell_text cell ;;
                      others <- acc ;;
                      Ok (text :: others)) (Ok []) row ;;
      let row_with_index := str_of_nat start :: row_values in
      others <- preview_rows (S start) columns_with_index rest ;;
      Ok (dict_of_pairs (combine columns_with_index row_with_index)
          :: others)
  end.

(** [POST /api/reports/dynamic/preview]. *)
Definition preview_dynamic_report (body : selection) (db : driver)
  : list report_event * report_response :=
  let preview_limit :=
    match previewLimit body with Some n => n | None => 200%Z end in
  if is_empty (tables body)
     || is_empty (columns body) then
    ([], ReportError 400 "Tables and columns are required")
  else
    let valid_columns := valid_columns_of (columns body) in
    if is_empty valid_columns then
      ([], ReportError 400 "No valid columns provided (excluding '#')")
    else
      let built := [EvBuildQuery (tables body) valid_columns] in
      match build_dynamic_sql_query (tables body) (joins body)
              valid_columns (whereConditions body) (timeFilter body) with
      | Raise sql_err =>
          (built,
           ReportError 400
             ("Failed to build SQL query: " ++ exn_msg sql_err))
      | Ok sql_query =>
          let no_connection db_err :=
            ReportError 500
              ("Database connection failed: " ++ exn_msg db_err) in
          (* lines 791-797 *)
          match db_connect db with
          | Raise db_err =>
              (built ++ [EvDb EvConnect], no_connection db_err)%list
          | Ok _ =>
          match db_cursor db with
          | Raise db_err =>
              (built ++ [EvDb EvConnect; EvDb EvCursor],
               no_connection db_err)%list
          | Ok _ =>
              let fetched :=
                (built ++ [EvDb EvConnect; EvDb EvCursor;
                           EvDb (EvExecute sql_query);
                           EvDb EvFetchAll] ++ db_closed)%list in
              let failed e :=
                ReportError 500
                  ("Failed to preview dynamic report: " ++ exn_msg e) in
              match db_execute db with
              | Raise e =>
                  ((built ++ [EvDb EvConnect; EvDb EvCursor;
                              EvDb (EvExecute sql_query)]
                    ++ db_closed)%list, failed e)
              | Ok _ =>
                  match db_fetchall db with
                  | Raise e => (fetched, failed e)
                  | Ok rows =>
                      let total_rows := length rows in
                      let index_column_name := "#" in
                      let columns_with_index :=
                        index_column_name :: columns body in
                      match preview_rows 1 columns_with_index
                              (slice_to rows preview_limit) with
                      | Raise e => (fetched, failed e)
                      | Ok shown =>
                          (fetched,
                           Preview columns_with_index shown total_rows
                             preview_limit)
                      end
                  end
              end
          end
          end
      end.

End Endpoints.

(* ================================================================= *)
(** ** Notions used to state the properties *)

(** [kw] occurs in [s] as a whole word: [s] splits around an occurrence of
    [kw] whose neighbours, where there are any, are not word characters. *)
Definition whole_word (kw s : string) : Prop :=
  exists pre post,
    s = pre ++ kw ++ post
    /\ opt_is_word (last_char None pre) = false
    /\ opt_is_word (head_char post) = false.

Fixpoint all_chars (p : ascii -> bool) (s : string) : bool :=
  match s with
  | EmptyString => true
  | String c r => p c && all_chars p r
  end.

(** A non-empty run of word characters. *)
Definition is_word (kw : string) : bool :=
  negb (String.eqb kw "") && all_chars is_word_char kw.

(** The text the security policy looks at. *)
Definition normalized_sql (body_sql : string) : string :=
  strip (upper (strip body_sql)).

(** The detail of a rejection mentions [kw]. *)
Definition cites (kw : string) (r : response) : bool :=
  match r with
  | HTTPException _ detail => substring_in kw detail
  | _ => false
  end.

(** The distinct elements of a list in the order in which they are first
    seen, [seen] being those met before. *)
Fixpoint first_seen_from (seen xs : list string) : list string :=
  match xs with
  | [] => []
  | x :: rest =>
      if existsb (String.eqb x) seen then first_seen_from seen rest
      else x :: first_seen_from (seen ++ [x])%list rest
  end.

Definition first_seen (xs : list string) : list string :=
  first_seen_from [] xs.

(** How many times [x] occurs in [xs]. *)
Definition occurrences (xs : list string) (x : string) : nat :=
  count_occ string_dec xs x.

(** The count held for [k] in a counter, 0 when there is none. *)
Definition count_of (k : string) (d : pydict nat) : nat :=
  match dict_get k d with
  | Some n => n
  | None => 0
  end.

(** Column resolution as the specification words it: the three tests are
    strategies tried in order, each over the whole column list, and the
    first strategy that finds a column decides. *)
Definition resolve_by_priority (key : string) (available_cols : list string)
  : option string :=
  match find (fun col => String.eqb col key) available_cols with
  | Some col => Some col
  | None =>
      match find (fun col => String.eqb (normalized col) (normalized key))
              available_cols with
      | Some col => Some col
      | None =>
          find (fun col => String.eqb (lower col) (lower key)) available_cols
      end
  end.

(** The cell of a row under a column name, null when the row has no such
    column. *)
Definition cell_of (col : string) (row_dict : pydict db_value) : db_value :=
  match dict_get col row_dict with
  | Some v => v
  | None => VNone
  end.

(** The sample as the specification words it: the first y value that is not
    null among those of the first ten rows. *)
Definition first_sample (y_col : string)
    (data_rows_dict : list (pydict db_value)) : option db_value :=
  find (fun v => negb (is_none v))
    (map (cell_of y_col) (firstn 10 data_rows_dict)).

(** The point a row contributes to a numeric series, as the specification
    words it: none when x or y is null or y does not convert. *)
Definition numeric_row (x_col y_col : string) (row_dict : pydict db_value)
  : option (string * number) :=
  if is_none (cell_of x_col row_dict) || is_none (cell_of y_col row_dict)
  then None
  else
    match numeric_point (cell_of x_col row_dict) (cell_of y_col row_dict) with
    | Ok point => Some point
    | Raise _ => None
    end.

Definition numeric_rows (x_col y_col : string)
    (data_rows_dict : list (pydict db_value)) : list (string * number) :=
  flat_map (fun row_dict =>
              match numeric_row x_col y_col row_dict with
              | Some point => [point]
              | None => []
              end) data_rows_dict.

(** No cell of the row raises anything but the [ValueError] or [TypeError]
    of a failed conversion. *)
Definition converts_or_skips (x_col y_col : string)
    (row_dict : pydict db_value) : bool :=
  if is_none (cell_of x_col row_dict) || is_none (cell_of y_col row_dict)
  then true
  else
    match numeric_point (cell_of x_col row_dict) (cell_of y_col row_dict) with
    | Ok _ => true
    | Raise e => caught_by [ValueError; TypeError] e
    end.

(** A cell that has a text: [str] does not raise on it. *)
Definition readable (cell : db_value) : bool :=
  match cell_text cell with
  | Ok _ => true
  | Raise _ => false
  end.

(** A database that answers every call, with an empty result. *)
Definition idle_db : driver :=
  Driver (Ok tt) (Ok tt) (Ok []) (Ok []) (Ok tt) (Ok tt) [] (Ok tt).

(** A request with no header configuration. *)
Definition no_header : config_dict := HeaderConfig None None.

(** A request that carries no user and neither of the two headers. *)
Definition anonymous : request_info := RequestInfo None None None.

(* ================================================================= *)
(** ** Further notions used to state properties *)

(** The events that open or close a cursor after the first one is made. *)
Definition is_cursor_event (e : event) : bool :=
  match e with
  | EvCursorClose | EvNewCursor => true
  | _ => false
  end.

(** The events on the connection itself and on its first cursor. *)
Definition is_connection_event (e : event) : bool :=
  match e with
  | EvConnect | EvCursor | EvConnClose => true
  | _ => false
  end.

(** A result row as a dictionary: the column names zipped with the
    converted cells. *)
Definition converted_row (columns : list string) (row : list db_value)
  : pydict string :=
  dict_of_pairs (combine columns (map convert_value_safely row)).

(** [body.get('sql', '')] and [int(body.get('limit', 1000))]. *)
Definition sql_of_body (body_sql : option string) : string :=
  match body_sql with
  | Some s => s
  | None => ""
  end.

Definition limit_of_body (body_limit : option Z) : Z :=
  match body_limit with
  | Some n => n
  | None => 1000%Z
  end.


(** A column passes one of the three tests of the binding loop for a
    key. *)
Definition column_matches (key col : string) : bool :=
  String.eqb col key
  || String.eqb (normalized col) (normalized key)
  || String.eqb (lower col) (lower key).

(** A y cell that [float] rejects with [ValueError] or [TypeError]: text
    that is not a number, a date or a datetime. *)
Definition unconvertible (v : db_value) : bool :=
  match v with
  | VStr s =>
      match parse_float s with
      | Some _ => false
      | None => true
      end
  | VDate _ | VDateTime _ => true
  | _ => false
  end.

(** The y cell of the row is null, missing or unconvertible. *)
Definition no_number_in (y_col : string) (row_dict : pydict db_value)
  : bool :=
  match get_not_none y_col row_dict with
  | Some v => unconvertible v
  | None => true
  end.


(* ================================================================= *)
(** ** Export log: [log_report_export] and [list_recent_exports] *)

(** [(v or "").strip()]. *)
Definition stripped_or_empty (v : option string) : string :=
  strip (if truthy v then key_text v else "").

(** [x or default] on strings. *)
Definition or_default (x default : string) : string :=
  if String.eqb x "" then default else x.

Record export_log_entry : Type :=
  ExportLogEntry { log_title : string; log_src : string; log_format : string;
                   log_dashboard : string; log_type : string;
                   log_created_by : string }.

(** Lines 63-66 and 111-115 of [log_report_export]: the values bound to the
    parameters of the INSERT. *)
Definition log_entry_of_body
    (title src fmt dashboard created_by : option string)
  : export_log_entry :=
  let title := or_default (stripped_or_empty title) "Untitled Report" in
  let src := stripped_or_empty src in
  let fmt := or_default (lower (stripped_or_empty fmt)) "unknown" in
  let dashboard := or_default (stripped_or_empty dashboard) "general" in
  let created_by := or_default (stripped_or_empty created_by) "System" in
  let export_type :=
    if negb (String.eqb dashboard "")
       && existsb (String.eqb (lower dashboard))
            ["incidents"; "kris"; "risks"; "controls"]
    then "dashboard" else "transaction" in
  ExportLogEntry title src fmt dashboard export_type created_by.

(** Lines 201-228 of [list_recent_exports]: the conditions and the
    parameters bound to them. *)
Definition search_conditions (search : string)
    (type_filter dashboard_filter : option string)
  : list string * list string :=
  let by_title :=
    if negb (String.eqb search "") && negb (String.eqb (strip search) "")
    then (["title LIKE ?"], ["%" ++ strip search ++ "%"])
    else ([], []) in
  let by_type :=
    if truthy type_filter then
      if String.eqb (lower (key_text type_filter)) "dashboard"
      then ["type = 'dashboard'"]
      else if String.eqb (lower (key_text type_filter)) "transaction"
      then ["(type = 'transaction' OR type IS NULL)"]
      else []
    else if truthy dashboard_filter then
      let dashboard_list := map strip (split "," (key_text dashboard_filter)) in
      if (length dashboard_list =? 1)%nat
         && String.eqb (nth 0 dashboard_list "") "transaction"
      then ["(type = 'transaction' OR type IS NULL OR type != 'dashboard')"]
      else if (0 <? length dashboard_list)%nat then ["type = 'dashboard'"]
      else []
    else [] in
  ((fst by_title ++ by_type)%list, snd by_title).

(** Lines 230-232. *)
Definition search_condition (conditions : list string) : string :=
  if is_empty conditions then "" else "WHERE " ++ join " AND " conditions.

Record pagination : Type :=
  Pagination { pg_page : Z; pg_limit : Z; pg_total : Z; pg_totalPages : Z;
               pg_hasNext : bool; pg_hasPrev : bool }.

(** Lines 240-242 and 269-276: the offset of the page and the pagination
    block of the answer. *)
Definition paginate (limit page total_count : Z) : Z * pagination :=
  let safe_limit := Z.max 1 (Z.min 200 limit) in
  let safe_page := Z.max 1 page in
  let offset := ((safe_page - 1) * safe_limit)%Z in
  (offset,
   Pagination safe_page safe_limit total_count
     ((total_count + safe_limit - 1) / safe_limit)%Z
     (offset + safe_limit <? total_count)%Z
     (1 <? safe_page)%Z).

Fixpoint count_char (x : ascii) (s : string) : nat :=
  match s with
  | EmptyString => 0
  | String c r => (if Ascii.eqb c x then 1 else 0) + count_char x r
  end.

(* ================================================================= *)
(** ** [get_user_function_access] and its use by the risk exports *)

Definition SUPER_ADMIN_GROUPS : list string :=
  ["super admin"; "superadmin"; "super_admin"; "admin"].

(** [s.replace(a, b)] for one-character [a] and [b]. *)
Definition replace_char (a b : ascii) (s : string) : string :=
  map_string (fun c => if Ascii.eqb c a then b else c) s.

(** Lines 53-59. *)
Definition group_lower_of (group_name : string) : string :=
  replace_char "-" " " (replace_char "_" " " (lower group_name)).

Definition is_super_admin_group (group_name : option string) : bool :=
  if truthy group_name then
    let group_lower := group_lower_of (key_text group_name) in
    existsb (fun admin_group =>
               substring_in admin_group group_lower
               || substring_in group_lower admin_group)
      SUPER_ADMIN_GROUPS
  else false.

(** The [function_id] cell of a row of the lookup: an identifier column
    holds a null, an integer or text. *)
Inductive id_cell : Type :=
| IdNull
| IdInt (z : Z)
| IdText (s : string).

Definition id_truthy (c : id_cell) : bool :=
  match c with
  | IdNull => false
  | IdInt z => negb (z =? 0)%Z
  | IdText s => negb (String.eqb s "")
  end.

Definition id_str (c : id_cell) : string :=
  match c with
  | IdNull => "None"
  | IdInt z => str_of_int z
  | IdText s => s
  end.

(** [execute_query]: the rows, or no row at all when anything fails. *)
Definition execute_query (db_answer : outcome (list id_cell))
  : list id_cell :=
  match db_answer with
  | Ok rows => rows
  | Raise _ => []
  end.

(** Lines 47-78.  [db_answer] is what the database does with the lookup of
    the user's functions; the flag tells whether the lookup was made. *)
Definition get_user_function_access (db_answer : outcome (list id_cell))
    (user_id group_name : option string)
  : bool * UserFunctionAccessService.UserFunctionAccess :=
  if is_super_admin_group group_name then
    (false, UserFunctionAccessService.Build_UserFunctionAccess true [])
  else if negb (truthy user_id) then
    (false, UserFunctionAccessService.Build_UserFunctionAccess false [])
  else
    let results := execute_query db_answer in
    let function_ids := map id_str (filter id_truthy results) in
    (true, UserFunctionAccessService.Build_UserFunctionAccess false
             function_ids).

(** Lines 57-62 and 228-233 of [risk_api_routes.py]: the function filter
    of a risk export. *)
Definition risk_function_filter (db_answer : outcome (list id_cell))
    (user : option request_user) (functionId : option string) : string :=
  let user_id :=
    match user with Some u => user_id_field u | None => None end in
  let group_name :=
    match user with Some u => user_groupName u | None => None end in
  let access :=
    if truthy user_id
    then snd (get_user_function_access db_answer user_id group_name)
    else UserFunctionAccessService.Build_UserFunctionAccess true [] in
  UserFunctionAccessService.build_risk_function_filter "r" access functionId.

(* ================================================================= *)
(** ** [save_chart_to_dynamic_dashboard] *)

(** [s[:n]]. *)
Fixpoint take (n : nat) (s : string) : string :=
  match n, s with
  | O, _ => EmptyString
  | S _, EmptyString => EmptyString
  | S n', String c r => String c (take n' r)
  end.

Record chart_row : Type :=
  ChartRow { row_user_id : option string; row_user_name : string;
             row_title : string; row_chart_type : string }.

(** Lines 957-960 and 1026-1029: the user, title and chart type bound to
    the INSERT.  The name is read from [user] before anything else is
    done, whether or not there is a user. *)
Definition chart_row_of_request (user : option request_user)
    (x_user_name : option string) (body_title body_chartType : option string)
  : outcome chart_row :=
  let user_id :=
    match user with Some u => user_id_field u | None => None end in
  user_name <-
    match user with
    | Some u =>
        Ok (or_else (or_else (or_else (user_name_field u) (user_userName u))
                       x_user_name) (Some "System"))
    | None =>
        raise AttributeError "'NoneType' object has no attribute 'get'"
    end ;;
  let title :=
    take 1000 (key_text (or_else body_title (Some "Dynamic Chart"))) in
  let chart_type := take 100 (key_text (or_else body_chartType (Some "bar"))) in
  let user_id_str :=
    if truthy user_id then Some (take 500 (key_text user_id)) else None in
  let user_name_str :=
    take 500 (key_text (or_else user_name (Some "System"))) in
  Ok (ChartRow user_id_str user_name_str title chart_type).

(* ================================================================= *)
(** ** Report lookup of the comply exports *)

(** Lines 174-208 of [comply_api_routes.py]. *)
Definition report_name_map : pydict string :=
  [("surveysByStatus", "Surveys by Status");
   ("complianceByStatus", "Compliance per complianceStatus");
   ("complianceByProgress", "Compliance per progressStatus");
   ("complianceByApproval", "Compliance per approval_status");
   ("avgScorePerSurvey", "Average Score Per Survey");
   ("complianceByControlCategory", "Compliance by Control Category");
   ("topFailedControls", "Top Failed Controls");
   ("controlsPerCategory", "Controls no. per category");
   ("risksPerCategory", "Risks no. per category");
   ("impactedAreasTrend", "Impacted Areas Trend Over Time");
   ("totalSurveys", "Surveys by Status");
   ("totalCompliance", "Compliance Details");
   ("avgCompletionRate", "Survey Completion Rate");
   ("complianceWithoutEvidence", "Compliance controls without evidence");
   ("complianceDetails", "Compliance Details");
   ("surveyCompletionRate", "Survey Completion Rate");
   ("bankQuestionsDetails", "Bank Questions details");
   ("risksPerCategoryDetails", "Risks per category details");
   ("controlsPerCategoryDetails", "Controls per category details");
   ("controlsPerDomainsDetails", "Controls per domains Details");
   ("questionsPerCategory", "Questions Per Category");
   ("impactedAreasByControls", "Impacted Areas by Number of Linked Controls");
   ("surveyParticipationByDepartment", "Survey Participation by Department");
   ("activeFunctions", "Most Active vs Least Active Functions (Answer Count)");
   ("surveyCoverageByCategory",
    "Survey Coverage by Category (How many categories included per survey)");
   ("complianceManagementDetails", "Compliance managment details");
   ("questionsPerType", "Questions no. per type");
   ("questionsPerReferences", "Questions no. per References");
   ("controlNosPerDomains", "Control Nos. per Domains")].

(** Lines 218-223: the first key that holds the card type, without regard
    to case. *)
Definition partial_match {A} (cardType : string)
    (comply_data : pydict (list A)) : option string :=
  find (fun key => substring_in (lower cardType) (lower key))
    (dict_keys comply_data).

(** Lines 211-234: the report name, the data found, and the dictionary
    handed to the renderer.  [comply_data] maps report names to lists of
    records; [cardType] is not empty at this point of the endpoint. *)
Definition comply_lookup {A} (comply_data : pydict (list A))
    (cardType : string) : string * list A * pydict (list A) :=
  let report_name := dict_get_default cardType cardType report_name_map in
  let export_data :=
    dict_get_default report_name
      (dict_get_default cardType [] comply_data) comply_data in
  let found :=
    if is_empty export_data && negb (String.eqb cardType "") then
      match partial_match cardType comply_data with
      | Some key => (key, dict_get_default key [] comply_data)
      | None => (report_name, export_data)
      end
    else (report_name, export_data) in
  let (report_name, export_data) := found in
  let comply_export_data := [(cardType, export_data)] in
  let comply_export_data :=
    if negb (String.eqb report_name cardType)
    then dict_set report_name export_data comply_export_data
    else comply_export_data in
  (report_name, export_data, comply_export_data).


Definition opt_isspace (c : option ascii) : bool :=
  match c with
  | Some a => py_isspace a
  | None => false
  end.

(** The text neither starts nor ends with a blank. *)
Definition trimmed (s : string) : bool :=
  negb (opt_isspace (head_char s)) && negb (opt_isspace (last_char None s)).

(** The texts the WHERE clause of [list_recent_exports] can be. *)
Definition search_clauses : list string :=
  [ "";
    "WHERE title LIKE ?";
    "WHERE type = 'dashboard'";
    "WHERE (type = 'transaction' OR type IS NULL)";
    "WHERE (type = 'transaction' OR type IS NULL OR type != 'dashboard')";
    "WHERE title LIKE ? AND type = 'dashboard'";
    "WHERE title LIKE ? AND (type = 'transaction' OR type IS NULL)";
    "WHERE title LIKE ? AND (type = 'transaction' OR type IS NULL OR type != 'dashboard')" ].


(** The database calls among the calls of a report endpoint. *)
Definition db_events (evs : list report_event) : list event :=
  flat_map (fun ev => match ev with
                      | EvDb e => [e]
                      | _ => []
                      end) evs.

(** The calls a report endpoint may make on its connection for the query
    [sql]: none; a connection that fails; a connection on which no cursor
    can be made, which is then left open; or a connection and a cursor that
    are closed, cursor first, after the query, with or without the
    fetch. *)
Definition report_db_calls (sql : string) : list (list event) :=
  [ [];
    [EvConnect];
    [EvConnect; EvCursor];
    [EvConnect; EvCursor; EvExecute sql; EvCursorClose; EvConnClose];
    [EvConnect; EvCursor; EvExecute sql; EvFetchAll; EvCursorClose;
     EvConnClose] ].

(** What a report endpoint does between the query and the [finally]
    block: nothing, the fetch, the fetch and a rendering, or the fetch, a
    rendering and the saving of what was rendered. *)
Definition report_work (work : list report_event) : Prop :=
  work = []
  \/ work = [EvDb EvFetchAll]
  \/ (exists renderer out_columns data_rows chart,
         work = [EvDb EvFetchAll;
                 EvRender renderer out_columns data_rows chart])
  \/ (exists renderer out_columns data_rows chart file_extension card_type
             created_by export_type,
         work = [EvDb EvFetchAll;
                 EvRender renderer out_columns data_rows chart;
                 EvSave file_extension card_type created_by export_type]).

(** The calls of a report endpoint on the tables [t] and the valid columns
    [c], [built] being what the query builder answers and [cursor_made]
    what [conn.cursor()] does: none for a request that is refused; the
    builder alone when it fails; a connection that fails; a connection
    left open when no cursor can be made; and otherwise the query and the
    work on its result, followed by the closing of the cursor and of the
    connection. *)
Definition report_trace (t c : list string) (built : outcome string)
    (cursor_made : outcome unit) (evs : list report_event) : Prop :=
  evs = []
  \/ (t <> [] /\ c <> []
      /\ match built with
         | Raise _ => evs = [EvBuildQuery t c]
         | Ok sql =>
             evs = [EvBuildQuery t c; EvDb EvConnect]
             \/ (evs = [EvBuildQuery t c; EvDb EvConnect; EvDb EvCursor]
                 /\ exists e, cursor_made = Raise e)
             \/ (cursor_made = Ok tt
                 /\ exists work,
                      report_work work
                      /\ evs = ([EvBuildQuery t c; EvDb EvConnect;
                                 EvDb EvCursor; EvDb (EvExecute sql)]
                                ++ work
                                ++ [EvDb EvCursorClose; EvDb EvConnClose])%list)
         end).

(* ================================================================= *)
(** * Theorems *)

Unset Implicit Arguments.

(* ================================================================= *)
(** ** Strings *)

Lemma lower_char_idem (c : ascii) : lower_char (lower_char c) = lower_char c.
Proof. destruct c as [[] [] [] [] [] [] [] []]; reflexivity. Qed.

Lemma lower_upper_char (c : ascii) : lower_char (upper_char c) = lower_char c.
Proof. destruct c as [[] [] [] [] [] [] [] []]; reflexivity. Qed.

Lemma lower_idem (s : string) : lower (lower s) = lower s.
Proof.
  induction s as [|c r IH]; simpl; [reflexivity|].
  unfold lower in *; simpl; now rewrite lower_char_idem, IH.
Qed.

Lemma lower_upper (s : string) : lower (upper s) = lower s.
Proof.
  induction s as [|c r IH]; simpl; [reflexivity|].
  unfold lower, upper in *; simpl; now rewrite lower_upper_char, IH.
Qed.

Lemma prefix_split (p s : string) :
  String.prefix p s = true <-> exists t, s = p ++ t.
Proof.
  revert s; induction p as [|c p IH]; intros s; simpl.
  - split; [intros _; now exists s | destruct s; reflexivity].
  - destruct s as [|d s]; simpl.
    + split; [discriminate | intros [t Ht]; discriminate].
    + destruct (ascii_dec c d) as [->|Hcd].
      * rewrite IH; split; intros [t Ht]; exists t; congruence.
      * split; [discriminate | intros [t Ht]; congruence].
Qed.

Lemma drop_app (p t : string) : drop (String.length p) (p ++ t) = t.
Proof. induction p as [|c p IH]; simpl; auto. Qed.

Lemma string_app_nil_inv (a b : string) : a ++ b = "" -> a = "" /\ b = "".
Proof. destruct a; simpl; [auto | discriminate]. Qed.

(** The word before the second [\b] ends in a word character. *)
Lemma last_char_word (kw : string) :
  all_chars is_word_char kw = true ->
  forall prev, (kw <> "" \/ opt_is_word prev = true) ->
               opt_is_word (last_char prev kw) = true.
Proof.
  induction kw as [|c r IH]; simpl; intros Hall prev Hne.
  - destruct Hne as [Hne|Hne]; [congruence | exact Hne].
  - apply andb_true_iff in Hall as [Hc Hr].
    apply IH; [exact Hr | right; exact Hc].
Qed.

Lemma word_match_here_spec (kw : string) :
  is_word kw = true ->
  forall prev s,
    word_match_here prev kw s = true
    <-> exists post, s = kw ++ post
                     /\ opt_is_word prev = false
                     /\ opt_is_word (head_char post) = false.
Proof.
  intros Hkw prev s.
  apply andb_true_iff in Hkw as [Hne Hall].
  assert (Hkw : kw <> "")
    by (intros ->; discriminate Hne).
  assert (Hlast : opt_is_word (last_char prev kw) = true)
    by (apply last_char_word; auto).
  unfold word_match_here, at_boundary.
  rewrite Hlast.
  split.
  - intros H.
    apply andb_true_iff in H as [H Hpost].
    apply andb_true_iff in H as [Hprev Hpre].
    apply prefix_split in Hpre as [post ->].
    rewrite drop_app in Hpost.
    exists post; split; [reflexivity|].
    destruct kw as [|k kw']; [congruence|].
    simpl in Hprev, Hall.
    apply andb_true_iff in Hall as [Hk _]; rewrite Hk in Hprev.
    split.
    + destruct (opt_is_word prev); [discriminate | reflexivity].
    + destruct (opt_is_word (head_char post)); [discriminate | reflexivity].
  - intros (post & -> & Hprev & Hpost).
    rewrite drop_app, Hpost, Hprev.
    assert (Hpre : String.prefix kw (kw ++ post) = true)
      by (apply prefix_split; now exists post).
    rewrite Hpre.
    destruct kw as [|k kw']; [congruence|].
    simpl in Hall |- *.
    apply andb_true_iff in Hall as [Hk _]; now rewrite Hk.
Qed.

Lemma word_search_from_spec (kw : string) :
  is_word kw = true ->
  forall s prev,
    word_search_from prev kw s = true
    <-> exists pre post,
          s = pre ++ kw ++ post
          /\ opt_is_word (last_char prev pre) = false
          /\ opt_is_word (head_char post) = false.
Proof.
  intros Hkw.
  assert (Hne : kw <> "").
  { apply andb_true_iff in Hkw as [Hne _]; intros ->; discriminate Hne. }
  induction s as [|c r IH]; intros prev; simpl word_search_from.
  - rewrite orb_false_r, (word_match_here_spec kw Hkw).
    split.
    + intros (post & Hs & Hp & Hq).
      symmetry in Hs; apply string_app_nil_inv in Hs as [Hk _]; congruence.
    + intros (pre & post & Hs & _).
      symmetry in Hs; apply string_app_nil_inv in Hs as [_ Hs].
      apply string_app_nil_inv in Hs as [Hk _]; congruence.
  - rewrite orb_true_iff, (word_match_here_spec kw Hkw), IH.
    split.
    + intros [(post & Hs & Hp & Hq) | (pre & post & Hs & Hp & Hq)].
      * exists "", post; simpl; auto.
      * exists (String c pre), post; simpl; rewrite Hs; auto.
    + intros (pre & post & Hs & Hp & Hq).
      destruct pre as [|c' pre]; simpl in Hs, Hp.
      * left; exists post; auto.
      * right; injection Hs as -> ->. exists pre, post; auto.
Qed.

(** The regular expression [\bkw\b] finds exactly the whole-word
    occurrences. *)
Lemma word_search_whole_word (kw s : string) :
  is_word kw = true -> (word_search kw s = true <-> whole_word kw s).
Proof. intros Hkw; apply (word_search_from_spec kw Hkw). Qed.

Lemma dangerous_keywords_are_words (kw : string) :
  In kw dangerous_keywords -> is_word kw = true.
Proof.
  simpl; intros H.
  repeat (destruct H as [<-|H]; [reflexivity|]); contradiction.
Qed.

(* ================================================================= *)
(** ** Export format *)

Lemma resolve_format_of_text (s : string) :
  resolve_format (Some (JString s))
  = let t := strip (lower s) in
    if String.eqb t "xlsx" || String.eqb t "xls" || String.eqb t "excel"
    then "excel"
    else if String.eqb t "doc" || String.eqb t "docx" || String.eqb t "word"
    then "word"
    else if String.eqb t "pdf" then "pdf" else "excel".
Proof.
  unfold resolve_format; cbv zeta.
  generalize (strip (lower s)); intros t.
  unfold format_mapping, valid_formats; cbn [dict_get].
  rewrite !(String.eqb_sym _ t).
  destruct (String.eqb_spec t "xlsx") as [->|]; [reflexivity|].
  destruct (String.eqb_spec t "xls") as [->|]; [reflexivity|].
  destruct (String.eqb_spec t "doc") as [->|]; [reflexivity|].
  destruct (String.eqb_spec t "docx") as [->|]; [reflexivity|].
  cbn [existsb].
  rewrite ?(String.eqb_sym _ t).
  destruct (String.eqb_spec t "excel") as [->|]; [reflexivity|].
  destruct (String.eqb_spec t "pdf") as [->|]; [reflexivity|].
  destruct (String.eqb_spec t "word") as [->|]; reflexivity.
Qed.

(** C9. The export format is read case-insensitively; [xlsx] and [xls]
    resolve to [excel], [doc] and [docx] to [word]; anything else, and any
    value that is not a string, resolves to [excel]; so the resolved format
    is always one of [excel], [pdf], [word]. *)
Theorem export_format_resolution :
  forall (body_format : option json) (s : string),
    let t := strip (lower s) in
    let resolved := resolve_format (Some (JString s)) in
    In (resolve_format body_format) ["excel"; "pdf"; "word"]
    /\ resolved = resolve_format (Some (JString (lower s)))
    /\ resolved = resolve_format (Some (JString (upper s)))
    /\ (t = "xlsx" \/ t = "xls" \/ t = "excel" -> resolved = "excel")
    /\ (t = "doc" \/ t = "docx" \/ t = "word" -> resolved = "word")
    /\ (t = "pdf" -> resolved = "pdf")
    /\ (~ In t ["xlsx"; "xls"; "excel"; "doc"; "docx"; "word"; "pdf"] ->
        resolved = "excel")
    /\ (match body_format with
        | Some (JString _) => True
        | None => resolve_format body_format = "excel"
        | Some _ => resolve_format body_format = "excel"
        end).
Proof.
  intros body_format s; cbv zeta.
  assert (Hin : forall u,
             In (resolve_format (Some (JString u))) ["excel"; "pdf"; "word"]).
  { intros u; rewrite resolve_format_of_text; cbv zeta.
    repeat match goal with
           | |- context [if ?b then _ else _] => destruct b
           end; simpl; auto. }
  split; [| split; [| split; [| split; [| split; [| split; [| split]]]]]].
  - destruct body_format as [[| u | | | |]|]; try (simpl; now auto).
    apply Hin.
  - rewrite !resolve_format_of_text, lower_idem; reflexivity.
  - rewrite !resolve_format_of_text, lower_upper; reflexivity.
  - rewrite resolve_format_of_text; cbv zeta.
    intros [-> | [-> | ->]]; reflexivity.
  - rewrite resolve_format_of_text; cbv zeta.
    intros [-> | [-> | ->]]; reflexivity.
  - rewrite resolve_format_of_text; cbv zeta; intros ->; reflexivity.
  - rewrite resolve_format_of_text; cbv zeta; intros Hnot.
    repeat match goal with
           | |- context [String.eqb ?a ?b] =>
               destruct (String.eqb_spec a b) as [Heq|_];
               [exfalso; apply Hnot; rewrite Heq; simpl; tauto|]
           end.
    reflexivity.
  - destruct body_format as [[| u | | | |]|]; simpl; auto.
Qed.

(** The statement at [" XLSX "], [None] and ["csv"]. *)
Lemma export_format_resolution_witness :
  resolve_format (Some (JString " XLSX ")) = "excel"
  /\ resolve_format (Some (JString "csv")) = "excel"
  /\ resolve_format (Some (JString "Docx")) = "word"
  /\ resolve_format (Some (JString "PDF")) = "pdf".
Proof.
  split; [| split; [| split]].
  - destruct (export_format_resolution None " XLSX ")
      as (_ & _ & _ & Halias & _).
    apply Halias; left; reflexivity.
  - destruct (export_format_resolution None "csv")
      as (_ & _ & _ & _ & _ & _ & Hother & _).
    apply Hother; simpl.
    intros H; repeat (destruct H as [H|H]; [discriminate H|]); exact H.
  - destruct (export_format_resolution None "Docx")
      as (_ & _ & _ & _ & Halias & _).
    apply Halias; right; left; reflexivity.
  - destruct (export_format_resolution None "PDF")
      as (_ & _ & _ & _ & _ & Hpdf & _).
    apply Hpdf; reflexivity.
Defined.

(* ================================================================= *)
(** ** Access filters *)

Module UserFunctionAccessFacts.
Import UserFunctionAccessService.

(** Splits a builder into its five return statements. *)
Ltac filter_cases alias access sel :=
  destruct access as [adm ids]; simpl in *;
  destruct (truthy sel) eqn:Hsel;
  destruct adm; simpl;
  try (destruct (str_in (selected sel) ids) eqn:Hin; simpl);
  try (destruct ids as [|i ids]; simpl).

(** Which of the five returns is the empty string. *)
Ltac empty_iff alias access sel :=
  filter_cases alias access sel; unfold deny_all;
  (split; [intros Hempty; (discriminate Hempty || auto)
          | intros [Hadm' Hsel']; (discriminate || auto)]).

(** C10. A user who is not a super admin, has no assigned function and
    selects no function gets the deny-all fragment [" AND 1 = 0"] from
    each of the four filter builders; and each builder returns the empty
    fragment exactly for a super admin who selects no function. *)
Theorem function_filters_fail_closed :
  forall (table_alias : string) (access : UserFunctionAccess)
         (selected_function_id : option string),
    let unfiltered b := b table_alias access selected_function_id = "" in
    let denied b := b table_alias access selected_function_id = " AND 1 = 0" in
    let no_access :=
      is_super_admin access = false /\ function_ids access = []
      /\ truthy selected_function_id = false in
    let admin_all :=
      is_super_admin access = true /\ truthy selected_function_id = false in
    (no_access ->
       denied build_control_function_filter
       /\ denied build_risk_function_filter
       /\ denied build_kri_function_filter
       /\ denied build_incident_function_filter)
    /\ (unfiltered build_control_function_filter <-> admin_all)
    /\ (unfiltered build_risk_function_filter <-> admin_all)
    /\ (unfiltered build_kri_function_filter <-> admin_all)
    /\ (unfiltered build_incident_function_filter <-> admin_all).
Proof.
  intros alias access sel; cbv zeta.
  split; [| split; [| split; [| split]]].
  - intros (Hadm & Hids & Hsel).
    unfold build_control_function_filter, build_risk_function_filter,
      build_kri_function_filter, build_incident_function_filter.
    rewrite Hsel, Hadm, Hids; simpl; auto.
  - unfold build_control_function_filter; empty_iff alias access sel.
  - unfold build_risk_function_filter; empty_iff alias access sel.
  - unfold build_kri_function_filter; empty_iff alias access sel.
  - unfold build_incident_function_filter; empty_iff alias access sel.
Qed.

(** The statement at an auditor with no function, and at a super admin. *)
Lemma function_filters_fail_closed_witness :
  build_control_function_filter "c" (Build_UserFunctionAccess false []) None
    = " AND 1 = 0"
  /\ build_incident_function_filter "i" (Build_UserFunctionAccess false [])
       (Some "") = " AND 1 = 0"
  /\ build_kri_function_filter "k" (Build_UserFunctionAccess true ["7"]) None
       = "".
Proof.
  pose proof (function_filters_fail_closed "c"
                (Build_UserFunctionAccess false []) None) as Hc.
  pose proof (function_filters_fail_closed "i"
                (Build_UserFunctionAccess false []) (Some "")) as Hi.
  pose proof (function_filters_fail_closed "k"
                (Build_UserFunctionAccess true ["7"]) None) as Hk.
  cbv zeta in Hc, Hi, Hk.
  destruct Hc as [Hc _], Hi as [Hi _], Hk as (_ & _ & _ & Hk & _).
  split; [| split].
  - apply Hc; simpl; auto.
  - apply Hi; simpl; auto.
  - apply Hk; simpl; auto.
Defined.

End UserFunctionAccessFacts.

(* ================================================================= *)
(** ** The security policy of the ad-hoc executor *)

Lemma execute_rejected (body_sql : string) (body_limit : option Z)
    (db : driver) (r : response) :
  reject_sql (strip body_sql) = Some r ->
  execute_sql_query (Some body_sql) body_limit db = ([], r).
Proof. intros H; unfold execute_sql_query; now rewrite H. Qed.

Lemma execute_accepted (body_sql : string) (body_limit : option Z)
    (db : driver) :
  reject_sql (strip body_sql) = None ->
  exists evs resp,
    execute_sql_query (Some body_sql) body_limit db = (EvConnect :: evs, resp).
Proof.
  intros H; unfold execute_sql_query; rewrite H.
  destruct (db_connect db); [| eauto].
  destruct (db_cursor db); [| eauto].
  destruct (db_execute db) as [columns|e]; [| simpl; eauto].
  destruct (match db_fetchall db with
            | Ok rows => _
            | Raise e => _
            end) as [[result_rows row_count] [err|]]; [| simpl; eauto].
  destruct (db_cursor_again db);
    [| destruct (db_close_again db); simpl; eauto].
  destruct (db_reexecute db); [| simpl; eauto].
  destruct (degraded_loop _ _ _ _ _); simpl; eauto.
Qed.

Lemma first_dangerous_keyword_some (text kw : string) :
  first_dangerous_keyword text = Some kw ->
  In kw dangerous_keywords /\ whole_word kw text.
Proof.
  intros H; apply find_some in H as [Hin Hw]; split; [exact Hin|].
  now apply word_search_whole_word; [apply dangerous_keywords_are_words|].
Qed.

Lemma first_dangerous_keyword_none (text : string) :
  first_dangerous_keyword text = None ->
  forall kw, In kw dangerous_keywords -> ~ whole_word kw text.
Proof.
  intros H kw Hin Hw.
  apply word_search_whole_word in Hw;
    [| now apply dangerous_keywords_are_words].
  pose proof (find_none _ _ H kw Hin) as Hf; simpl in Hf; congruence.
Qed.

(** C1, as the code has it.  A text whose normalized form does not start
    with [SELECT] is rejected with status 400 before anything is opened,
    by a message that names no keyword; a text that holds one of the nine
    keywords as a whole word is rejected before anything is opened, and
    when it starts with [SELECT] the message cites such a keyword; a text
    that starts with [SELECT] and holds none of them as a whole word goes
    on to open the connection.  ['UPDATE T SET x=1'] gets the [SELECT]
    message, ['SELECT 1; UPDATE T SET x=1'] the message citing [UPDATE],
    and ['SELECT createdAt FROM T'] passes the checks. *)
Theorem sql_policy_rejects_before_connecting :
  forall (body_sql : string) (body_limit : option Z) (db : driver),
    let text := normalized_sql body_sql in
    let run := execute_sql_query (Some body_sql) body_limit db in
    (startswith text "SELECT" = false ->
       run = ([], HTTPException 400 "SQL query is required")
       \/ run = ([], HTTPException 400 "Only SELECT statements are allowed"))
    /\ (forall kw, In kw dangerous_keywords -> whole_word kw text ->
          exists detail, run = ([], HTTPException 400 detail))
    /\ (startswith text "SELECT" = true ->
        forall kw, In kw dangerous_keywords -> whole_word kw text ->
          exists cited,
            In cited dangerous_keywords /\ whole_word cited text
            /\ run = ([], HTTPException 400
                            ("Operation '" ++ cited ++ "' is not allowed")))
    /\ (startswith text "SELECT" = true ->
        (forall kw, In kw dangerous_keywords -> ~ whole_word kw text) ->
        exists evs resp, run = (EvConnect :: evs, resp))
    /\ execute_sql_query (Some "UPDATE T SET x=1") body_limit db
       = ([], HTTPException 400 "Only SELECT statements are allowed")
    /\ execute_sql_query (Some "SELECT 1; UPDATE T SET x=1") body_limit db
       = ([], HTTPException 400 "Operation 'UPDATE' is not allowed")
    /\ reject_sql (strip "SELECT createdAt FROM T") = None.
Proof.
  intros body_sql body_limit db; cbv zeta.
  unfold normalized_sql.
  assert (Hcases :
            reject_sql (strip body_sql)
            = if String.eqb (strip body_sql) "" then
                Some (HTTPException 400 "SQL query is required")
              else if negb (startswith (strip (upper (strip body_sql)))
                              "SELECT") then
                Some (HTTPException 400 "Only SELECT statements are allowed")
              else match first_dangerous_keyword
                           (strip (upper (strip body_sql))) with
                   | Some keyword =>
                       Some (HTTPException 400
                               ("Operation '" ++ keyword
                                ++ "' is not allowed"))
                   | None => None
                   end) by reflexivity.
  set (text := strip (upper (strip body_sql))) in *.
  split; [| split; [| split; [| split; [| split; [| split]]]]].
  - intros Hsel; rewrite Hsel in Hcases; simpl in Hcases.
    destruct (String.eqb (strip body_sql) "");
      [left | right]; now apply execute_rejected.
  - intros kw Hin Hw.
    destruct (String.eqb (strip body_sql) "");
      [eexists; apply execute_rejected; exact Hcases|].
    destruct (negb (startswith text "SELECT"));
      [eexists; apply execute_rejected; exact Hcases|].
    destruct (first_dangerous_keyword text) as [k|] eqn:Hfind;
      [eexists; apply execute_rejected; exact Hcases|].
    exfalso; exact (first_dangerous_keyword_none _ Hfind kw Hin Hw).
  - intros Hsel kw Hin Hw.
    destruct (String.eqb_spec (strip body_sql) "") as [Hempty|_].
    { exfalso; subst text; rewrite Hempty in Hsel; discriminate Hsel. }
    rewrite Hsel in Hcases; simpl in Hcases.
    destruct (first_dangerous_keyword text) as [k|] eqn:Hfind.
    + exists k.
      destruct (first_dangerous_keyword_some _ _ Hfind) as [Hk Hkw].
      repeat split; auto; now apply execute_rejected.
    + exfalso; exact (first_dangerous_keyword_none _ Hfind kw Hin Hw).
  - intros Hsel Hnone.
    destruct (String.eqb_spec (strip body_sql) "") as [Hempty|_].
    { exfalso; subst text; rewrite Hempty in Hsel; discriminate Hsel. }
    rewrite Hsel in Hcases; simpl in Hcases.
    destruct (first_dangerous_keyword text) as [k|] eqn:Hfind.
    + destruct (first_dangerous_keyword_some _ _ Hfind) as [Hk Hkw].
      exfalso; exact (Hnone k Hk Hkw).
    + now apply execute_accepted.
  - now apply execute_rejected.
  - now apply execute_rejected.
  - reflexivity.
Qed.

(** The statement at a query that hides an [UPDATE] behind a [SELECT], and
    at one that only names a column [createdAt]. *)
Lemma sql_policy_rejects_before_connecting_witness :
  (exists cited,
      In cited dangerous_keywords
      /\ whole_word cited (normalized_sql "select 1; update T set x=1")
      /\ execute_sql_query (Some "select 1; update T set x=1") None idle_db
         = ([], HTTPException 400
                  ("Operation '" ++ cited ++ "' is not allowed")))
  /\ (exists evs resp,
         execute_sql_query (Some "SELECT createdAt FROM T") None idle_db
         = (EvConnect :: evs, resp)).
Proof.
  split.
  - destruct (sql_policy_rejects_before_connecting
                "select 1; update T set x=1" None idle_db)
      as (_ & _ & Hcite & _).
    apply (Hcite eq_refl "UPDATE").
    + simpl; tauto.
    + apply word_search_whole_word; reflexivity.
  - destruct (sql_policy_rejects_before_connecting
                "SELECT createdAt FROM T" None idle_db)
      as (_ & _ & _ & Hpass & _).
    apply (Hpass eq_refl).
    intros kw Hin Hw.
    apply word_search_whole_word in Hw;
      [| now apply dangerous_keywords_are_words].
    simpl in Hin.
    repeat (destruct Hin as [<-|Hin]; [discriminate Hw|]); exact Hin.
Defined.

(** C1 as worded fails at ['UPDATE T SET x=1']: the request is rejected,
    but by the [SELECT] check, and its message does not cite [UPDATE]. *)
Lemma update_rejection_cites_no_keyword :
  ~ (cites "UPDATE"
       (snd (execute_sql_query (Some "UPDATE T SET x=1") None idle_db))
     = true).
Proof. vm_compute; discriminate. Qed.

(* ================================================================= *)
(** ** Dictionaries *)

Lemma dict_set_not_nil {V} (k : string) (v : V) (d : pydict V) :
  dict_set k v d <> [].
Proof.
  destruct d as [|[k' v'] r]; simpl; [discriminate|].
  destruct (String.eqb k' k); discriminate.
Qed.

Lemma dict_get_set_same {V} (k : string) (v : V) (d : pydict V) :
  dict_get k (dict_set k v d) = Some v.
Proof.
  induction d as [|[k' v'] r IH]; simpl.
  - now rewrite String.eqb_refl.
  - destruct (String.eqb k' k) eqn:E; simpl.
    + now rewrite String.eqb_refl.
    + now rewrite E.
Qed.

Lemma dict_get_set_other {V} (k k' : string) (v : V) (d : pydict V) :
  k <> k' -> dict_get k' (dict_set k v d) = dict_get k' d.
Proof.
  intros Hne; induction d as [|[k0 v0] r IH]; simpl.
  - destruct (String.eqb_spec k k'); congruence.
  - destruct (String.eqb_spec k0 k) as [->|Hk0]; simpl.
    + destruct (String.eqb_spec k k'); congruence.
    + destruct (String.eqb_spec k0 k'); congruence.
Qed.

(* ================================================================= *)
(** ** The row-by-row path of the ad-hoc executor *)

Lemma degraded_row_not_nil (cells : list (outcome db_value))
    (columns : list string) (idx : nat) (d : pydict string) :
  columns <> [] \/ d <> [] -> degraded_row cells columns idx d <> [].
Proof.
  revert idx d; induction columns as [|col rest IH]; intros idx d H; simpl.
  - destruct H; congruence.
  - apply IH; right; apply dict_set_not_nil.
Qed.

Lemma degraded_row_untouched (cells : list (outcome db_value))
    (columns : list string) (col : string) :
  ~ In col columns ->
  forall idx d,
    dict_get col (degraded_row cells columns idx d) = dict_get col d.
Proof.
  induction columns as [|c rest IH]; intros Hnot idx d; simpl; [reflexivity|].
  rewrite IH by (intros Hin; apply Hnot; now right).
  apply dict_get_set_other; intros ->; apply Hnot; now left.
Qed.

Lemma degraded_row_cell (cells : list (outcome db_value))
    (columns : list string) (col : string) :
  NoDup columns ->
  forall i idx d,
    nth_error columns i = Some col ->
    dict_get col (degraded_row cells columns idx d)
    = Some (degraded_cell cells (idx + i)).
Proof.
  induction 1 as [|c rest Hc Hrest IH]; intros i idx d Hnth.
  - destruct i; discriminate.
  - destruct i as [|i]; simpl in Hnth |- *.
    + injection Hnth as ->.
      rewrite degraded_row_untouched by exact Hc.
      now rewrite Nat.add_0_r, dict_get_set_same.
    + rewrite (IH i (S idx) _ Hnth); do 2 f_equal; lia.
Qed.

Lemma degraded_loop_fetches (answers : list fetched) (columns : list string)
    (max_rows : Z) :
  forall acc count,
    Forall (eq EvFetchOne)
      (fst (degraded_loop answers columns max_rows acc count)).
Proof.
  induction answers as [|[cells|e] rest IH]; intros acc count; simpl;
    destruct (count <? max_rows)%Z; simpl; auto.
  destruct (degraded_row cells columns 0 []) as [|entry more].
  - specialize (IH acc count).
    destruct (degraded_loop rest columns max_rows acc count); simpl in *.
    auto.
  - specialize (IH (acc ++ [entry :: more])%list (count + 1)%Z).
    destruct (degraded_loop rest columns max_rows _ _); simpl in *.
    auto.
Qed.

(** The row-by-row loop on answers that are rows up to the end of the
    result, or up to a [fetchone] that fails: it reads rows while the limit
    allows, stops at the end or at the failure, and keeps every row it
    read. *)
Lemma degraded_loop_run (columns : list string) (max_rows : Z)
    (rest : list fetched) :
  columns <> [] ->
  rest = [] \/ (exists row_err more, rest = FetchFailed row_err :: more) ->
  forall good acc count,
    degraded_loop (map FetchedRow good ++ rest) columns max_rows acc count
    = (repeat EvFetchOne
         (Nat.min (S (length good)) (Z.to_nat (max_rows - count))),
       (acc ++ map (fun cells => degraded_row cells columns 0 [])
                 (firstn (Z.to_nat (max_rows - count)) good))%list).
Proof.
  intros Hcols Hrest; induction good as [|cells good IH]; intros acc count.
  - cbn [map app length firstn]; rewrite firstn_nil, app_nil_r.
    destruct (count <? max_rows)%Z eqn:Hlt.
    + apply Z.ltb_lt in Hlt.
      replace (Nat.min 1 (Z.to_nat (max_rows - count))) with 1%nat by lia.
      destruct Hrest as [->|(row_err & more & ->)]; cbn [degraded_loop];
        replace (count <? max_rows)%Z with true
          by (symmetry; apply Z.ltb_lt; lia);
        reflexivity.
    + apply Z.ltb_ge in Hlt.
      replace (Z.to_nat (max_rows - count)) with 0%nat by lia.
      destruct rest as [|[]]; cbn [degraded_loop];
        replace (count <? max_rows)%Z with false
          by (symmetry; apply Z.ltb_ge; lia);
        reflexivity.
  - cbn [map app length degraded_loop].
    destruct (count <? max_rows)%Z eqn:Hlt.
    + apply Z.ltb_lt in Hlt.
      pose proof (degraded_row_not_nil cells columns 0 [] (or_introl Hcols))
        as Hrow.
      destruct (degraded_row cells columns 0 []) as [|entry more] eqn:Erow;
        [congruence|].
      rewrite IH.
      replace (Z.to_nat (max_rows - count))
        with (S (Z.to_nat (max_rows - (count + 1)))) by lia.
      cbn [Nat.min repeat firstn map]; rewrite Erow.
      now rewrite <- app_assoc.
    + apply Z.ltb_ge in Hlt.
      replace (Z.to_nat (max_rows - count)) with 0%nat by lia.
      cbn [firstn map]; rewrite Nat.min_0_r, app_nil_r; reflexivity.
Qed.

(** C3. When [fetchall] fails, the query is issued again on a new cursor
    and rows are fetched one at a time, up to the limit, until the result
    ends or a [fetchone] fails; the response is a success that carries
    every row read before that point, in order, and no other.  In such a
    row a cell that cannot be read shows a placeholder and the other cells
    are converted as usual. *)
Theorem degraded_fetch_keeps_partial_rows :
  forall (body_sql : string) (body_limit : option Z) (db : driver)
         (columns : list string) (fetch_err : pyexn)
         (good : list (list (outcome db_value))) (rest : list fetched),
    reject_sql (strip body_sql) = None ->
    db_connect db = Ok tt ->
    db_cursor db = Ok tt ->
    db_execute db = Ok columns ->
    db_fetchall db = Raise fetch_err ->
    db_cursor_again db = Ok tt ->
    db_reexecute db = Ok tt ->
    columns <> [] ->
    db_fetchone db = (map FetchedRow good ++ rest)%list ->
    rest = [] \/ (exists row_err more, rest = FetchFailed row_err :: more) ->
    let sql := strip body_sql in
    let max_rows := Z.to_nat (limit_of_body body_limit) in
    let row_of cells := degraded_row cells columns 0 [] in
    let kept := firstn max_rows good in
    execute_sql_query (Some body_sql) body_limit db
    = ([EvConnect; EvCursor; EvExecute sql; EvFetchAll;
        EvCursorClose; EvNewCursor; EvExecute sql]
         ++ repeat EvFetchOne (Nat.min (S (length good)) max_rows)
         ++ [EvCursorClose; EvConnClose],
       SqlResult columns (map row_of kept) (length kept))%list
    /\ (forall cells idx col,
           NoDup columns -> nth_error columns idx = Some col ->
           dict_get col (row_of cells)
           = Some match nth_error cells idx with
                  | Some (Ok value) => convert_value_safely value
                  | Some (Raise col_err) =>
                      if caught_by [TypeError; ValueError; AttributeError;
                                    IndexError] col_err
                      then "[Unsupported Type]" else "[Error]"
                  | None => "[Unsupported Type]"
                  end).
Proof.
  intros body_sql body_limit db columns fetch_err good rest
         Hpass Hconn Hcur Hexec Hall Hagain Hre Hcols Hanswers Hrest;
    cbv zeta.
  split.
  - unfold execute_sql_query.
    rewrite Hpass, Hconn, Hcur, Hexec, Hall, Hagain, Hre, Hanswers.
    fold (limit_of_body body_limit).
    rewrite (degraded_loop_run columns (limit_of_body body_limit) rest
               Hcols Hrest good [] 0%Z).
    rewrite Z.sub_0_r; unfold success; cbn [app].
    now rewrite length_map.
  - intros cells idx col Hnodup Hnth.
    rewrite (degraded_row_cell cells columns col Hnodup idx 0 [] Hnth); simpl.
    unfold degraded_cell, row_item.
    destruct (nth_error cells idx) as [[value|col_err]|]; reflexivity.
Qed.

(** The statement on a two-column query: at a result of two rows, the
    first with an unreadable second cell, read to its end; and at a result
    whose second [fetchone] fails. *)
Lemma degraded_fetch_keeps_partial_rows_witness :
  execute_sql_query (Some "SELECT a, b FROM T") None
    (Driver (Ok tt) (Ok tt) (Ok ["a"; "b"])
       (raise DriverError "ODBC SQL type -155 is not yet supported")
       (Ok tt) (Ok tt)
       [FetchedRow [Ok (VInt 1); raise TypeError "unsupported"];
        FetchedRow [Ok (VInt 2); Ok (VInt 3)]]
       (Ok tt))
  = ([EvConnect; EvCursor; EvExecute "SELECT a, b FROM T"; EvFetchAll;
      EvCursorClose; EvNewCursor; EvExecute "SELECT a, b FROM T";
      EvFetchOne; EvFetchOne; EvFetchOne; EvCursorClose; EvConnClose],
     SqlResult ["a"; "b"]
       [[("a", "1"); ("b", "[Unsupported Type]")];
        [("a", "2"); ("b", "3")]] 2)
  /\ execute_sql_query (Some "SELECT a, b FROM T") None
       (Driver (Ok tt) (Ok tt) (Ok ["a"; "b"])
          (raise DriverError "ODBC SQL type -155 is not yet supported")
          (Ok tt) (Ok tt)
          [FetchedRow [Ok (VInt 1); Ok (VInt 4)];
           FetchFailed (Raise_ DriverError "fetch failed");
           FetchedRow [Ok (VInt 2); Ok (VInt 3)]]
          (Ok tt))
     = ([EvConnect; EvCursor; EvExecute "SELECT a, b FROM T"; EvFetchAll;
         EvCursorClose; EvNewCursor; EvExecute "SELECT a, b FROM T";
         EvFetchOne; EvFetchOne; EvCursorClose; EvConnClose],
        SqlResult ["a"; "b"] [[("a", "1"); ("b", "4")]] 1).
Proof.
  split.
  - destruct (degraded_fetch_keeps_partial_rows
                "SELECT a, b FROM T" None
                (Driver (Ok tt) (Ok tt) (Ok ["a"; "b"])
                   (raise DriverError
                      "ODBC SQL type -155 is not yet supported")
                   (Ok tt) (Ok tt)
                   [FetchedRow [Ok (VInt 1); raise TypeError "unsupported"];
                    FetchedRow [Ok (VInt 2); Ok (VInt 3)]]
                   (Ok tt))
                ["a"; "b"]
                (Raise_ DriverError "ODBC SQL type -155 is not yet supported")
                [[Ok (VInt 1); raise TypeError "unsupported"];
                 [Ok (VInt 2); Ok (VInt 3)]]
                []
                eq_refl eq_refl eq_refl eq_refl eq_refl eq_refl eq_refl
                ltac:(discriminate) eq_refl (or_introl eq_refl))
      as [Hrun _].
    exact Hrun.
  - destruct (degraded_fetch_keeps_partial_rows
                "SELECT a, b FROM T" None
                (Driver (Ok tt) (Ok tt) (Ok ["a"; "b"])
                   (raise DriverError
                      "ODBC SQL type -155 is not yet supported")
                   (Ok tt) (Ok tt)
                   [FetchedRow [Ok (VInt 1); Ok (VInt 4)];
                    FetchFailed (Raise_ DriverError "fetch failed");
                    FetchedRow [Ok (VInt 2); Ok (VInt 3)]]
                   (Ok tt))
                ["a"; "b"]
                (Raise_ DriverError "ODBC SQL type -155 is not yet supported")
                [[Ok (VInt 1); Ok (VInt 4)]]
                [FetchFailed (Raise_ DriverError "fetch failed");
                 FetchedRow [Ok (VInt 2); Ok (VInt 3)]]
                eq_refl eq_refl eq_refl eq_refl eq_refl eq_refl eq_refl
                ltac:(discriminate) eq_refl
                (or_intror
                   (ex_intro _ (Raise_ DriverError "fetch failed")
                      (ex_intro _ [FetchedRow [Ok (VInt 2); Ok (VInt 3)]]
                         eq_refl))))
      as [Hrun _].
    exact Hrun.
Defined.

(* ================================================================= *)
(** ** Column resolution of the chart binding *)

Lemma match_step_keeps (key key_normalized col : string)
    (col_match : option string) :
  truthy col_match = true ->
  match_step key key_normalized col_match col = col_match.
Proof. intros H; unfold match_step; now rewrite H. Qed.

Lemma fold_match_step_keeps (key key_normalized : string)
    (cols : list string) (col_match : option string) :
  truthy col_match = true ->
  fold_left (match_step key key_normalized) cols col_match = col_match.
Proof.
  revert col_match; induction cols as [|col rest IH]; intros m H; simpl;
    [reflexivity|].
  rewrite match_step_keeps by exact H; now apply IH.
Qed.

(** The index column resolves to itself whatever the result columns are. *)
Lemma resolve_index_column (cols : list string) :
  resolve_column "#" cols = Some "#".
Proof. unfold resolve_column; simpl; now apply fold_match_step_keeps. Qed.

(** What the loop does: a first column that passes any of the three tests
    is the answer, whatever the columns after it. *)
Lemma resolve_column_head (key col : string) (rest : list string) :
  String.eqb key "#" || String.eqb (normalized key) "#" = false ->
  col <> "" ->
  String.eqb col key
  || String.eqb (normalized col) (normalized key)
  || String.eqb (lower col) (lower key) = true ->
  resolve_column key (col :: rest) = Some col.
Proof.
  intros Hkey Hcol Hmatch; unfold resolve_column; cbv zeta.
  rewrite Hkey; simpl fold_left.
  assert (Hstep : match_step key (normalized key) None col = Some col).
  { unfold match_step; simpl.
    destruct (String.eqb col key); [reflexivity|].
    destruct (String.eqb (normalized col) (normalized key)); [reflexivity|].
    simpl in Hmatch; now rewrite Hmatch. }
  rewrite Hstep; apply fold_match_step_keeps; simpl.
  destruct (String.eqb_spec col ""); [contradiction | reflexivity].
Qed.

(** C2, at two qualified result columns that share a bare name.  The key
    ["Orders.name"] is the second column exactly, yet the binding resolves
    to the first column, which only agrees with it after the dot. *)
Theorem resolve_column_takes_earlier_suffix_match :
  let available_cols := ["Users.name"; "Orders.name"; "#"] in
  resolve_column "Orders.name" available_cols = Some "Users.name"
  /\ resolve_by_priority "Orders.name" available_cols = Some "Orders.name"
  /\ String.eqb "Users.name" "Orders.name" = false
  /\ String.eqb (normalized "Users.name") (normalized "Orders.name") = true.
Proof. cbv zeta; repeat split; reflexivity. Qed.

(* ================================================================= *)
(** ** The index column of the report endpoints *)

Lemma is_empty_false {A} (l : list A) : is_empty l = false -> l <> [].
Proof. destruct l; [discriminate | discriminate]. Qed.

Lemma valid_columns_no_index (columns : list string) :
  ~ In "#" (valid_columns_of columns).
Proof.
  unfold valid_columns_of; intros H; apply filter_In in H as [_ H].
  discriminate H.
Qed.

Lemma with_index_length (start : nat) (data_rows : list (list string)) :
  length (with_index start data_rows) = length data_rows.
Proof.
  revert start; induction data_rows as [|row rest IH]; intros start; simpl;
    [reflexivity | now rewrite IH].
Qed.

Lemma with_index_nth (data_rows : list (list string)) :
  forall start i,
    nth_error (with_index start data_rows) i
    = option_map (cons (str_of_nat (start + i))) (nth_error data_rows i).
Proof.
  induction data_rows as [|row rest IH]; intros start [|i]; simpl; auto.
  - now rewrite Nat.add_0_r.
  - rewrite IH; do 3 f_equal; lia.
Qed.

Lemma convert_rows_length (column_names : list string) :
  forall rows dicts texts,
    convert_rows rows column_names = Ok (dicts, texts) ->
    length texts = length rows.
Proof.
  induction rows as [|row rest IH]; intros dicts texts H; simpl in H.
  - now injection H as <- <-.
  - destruct (convert_cells row column_names 0 [] []) as [[d t]|];
      [| discriminate H]; simpl in H.
    destruct (convert_rows rest column_names) as [[ds ts]|] eqn:E;
      [| discriminate H]; simpl in H.
    injection H as <- <-; simpl; f_equal; now apply (IH ds ts).
Qed.

Lemma Forall2_nth {A B} (R : A -> B -> Prop) (l : list A) (l' : list B) :
  Forall2 R l l' ->
  forall i a, nth_error l i = Some a ->
              exists b, nth_error l' i = Some b /\ R a b.
Proof.
  induction 1 as [|x y l l' Hxy _ IH]; intros [|i] a Hnth; simpl in *;
    try discriminate.
  - injection Hnth as <-; eauto.
  - now apply IH.
Qed.

Lemma convert_cells_texts (column_names : list string) :
  forall row idx d l d' l',
    convert_cells row column_names idx d l = Ok (d', l') ->
    exists texts,
      l' = (l ++ texts)%list
      /\ Forall2 (fun cell text => cell_text cell = Ok text) row texts.
Proof.
  induction row as [|cell rest IH]; intros idx d l d' l' H;
    cbn [convert_cells] in H.
  - injection H as _ <-; exists []; split; [now rewrite app_nil_r | constructor].
  - destruct (cell_text cell) as [text|] eqn:Htext; [| discriminate H].
    cbn [bind] in H; apply IH in H as (texts & -> & Hall).
    exists (text :: texts); split; [now rewrite <- app_assoc|].
    now constructor.
Qed.

Lemma convert_rows_texts (column_names : list string) :
  forall rows dicts tss,
    convert_rows rows column_names = Ok (dicts, tss) ->
    Forall2 (fun row texts =>
               Forall2 (fun cell text => cell_text cell = Ok text) row texts)
      rows tss.
Proof.
  induction rows as [|row rest IH]; intros dicts tss H;
    cbn [convert_rows] in H.
  - injection H as _ <-; constructor.
  - destruct (convert_cells row column_names 0 [] []) as [[d l]|] eqn:Hc;
      [| discriminate H].
    cbn [bind] in H.
    destruct (convert_rows rest column_names) as [[ds ts]|] eqn:Hr;
      [| discriminate H].
    cbn [bind fst snd] in H; injection H as _ <-.
    apply convert_cells_texts in Hc as (texts & -> & Hall).
    constructor; [exact Hall | now apply (IH ds)].
Qed.

(** Rows whose cells all have a text are converted. *)
Lemma convert_cells_total (column_names : list string) :
  forall row idx d l,
    forallb readable row = true ->
    exists d' l', convert_cells row column_names idx d l = Ok (d', l').
Proof.
  induction row as [|cell rest IH]; intros idx d l Hall;
    cbn [convert_cells]; [eauto|].
  cbn [forallb] in Hall; apply andb_true_iff in Hall as [Hcell Hrest].
  unfold readable in Hcell.
  destruct (cell_text cell) as [text|]; [| discriminate Hcell].
  cbn [bind]; now apply IH.
Qed.

Lemma convert_rows_total (column_names : list string) :
  forall rows,
    forallb (forallb readable) rows = true ->
    exists dicts tss, convert_rows rows column_names = Ok (dicts, tss).
Proof.
  induction rows as [|row rest IH]; intros Hall; cbn [convert_rows];
    [eauto|].
  cbn [forallb] in Hall; apply andb_true_iff in Hall as [Hrow Hrest].
  destruct (convert_cells_total column_names row 0 [] [] Hrow)
    as (d & l & ->).
  destruct (IH Hrest) as (dicts & tss & ->).
  cbn [bind]; eauto.
Qed.

(** The table of the shaping, row by row. *)
Lemma shape_table (valid_columns column_names : list string)
    (rows : list (list db_value)) (default_config header_config : config_dict)
    (out_columns : list string) (data_rows : list (list string))
    (chart : chart_entry) :
  shape valid_columns column_names rows default_config header_config
  = Ok (out_columns, data_rows, chart) ->
  out_columns = "#" :: valid_columns
  /\ length data_rows = length rows
  /\ forall i row,
       nth_error rows i = Some row ->
       exists texts,
         nth_error data_rows i = Some (str_of_nat (S i) :: texts)
         /\ Forall2 (fun cell text => cell_text cell = Ok text) row texts.
Proof.
  unfold shape; intros H.
  destruct (convert_rows rows column_names) as [[dicts tss]|] eqn:Hconv;
    [| discriminate H].
  cbn [bind] in H; injection H as <- <- _.
  pose proof (convert_rows_texts column_names rows dicts tss Hconv) as Hall.
  split; [reflexivity | split].
  - rewrite with_index_length; symmetry; exact (Forall2_length Hall).
  - intros i row Hnth.
    destruct (Forall2_nth _ _ _ Hall i row Hnth) as (texts & Hts & Hrow).
    exists texts; rewrite with_index_nth, Hts; simpl; auto.
Qed.

(** The table does not depend on the header configuration. *)
Lemma shape_table_only (valid_columns column_names : list string)
    (rows : list (list db_value))
    (default_config header_config other_default other_header : config_dict) :
  match shape valid_columns column_names rows default_config header_config,
        shape valid_columns column_names rows other_default other_header
  with
  | Ok (out_columns, data_rows, _), Ok (out_columns', data_rows', _) =>
      out_columns = out_columns' /\ data_rows = data_rows'
  | Raise e, Raise e' => e = e'
  | _, _ => False
  end.
Proof.
  unfold shape.
  destruct (convert_rows rows column_names) as [[dicts tss]|]; cbn [bind];
    auto.
Qed.

(** The table of the shaping: the index column first, then the valid
    columns; row [i] (counting from 0) starts with [str(i + 1)]. *)
Lemma shape_index_column (valid_columns column_names : list string)
    (rows : list (list db_value)) (default_config header_config : config_dict)
    (out_columns : list string) (data_rows : list (list string))
    (chart : chart_entry) :
  shape valid_columns column_names rows default_config header_config
  = Ok (out_columns, data_rows, chart) ->
  out_columns = "#" :: valid_columns
  /\ forall i row,
       nth_error data_rows i = Some row ->
       exists cells, row = str_of_nat (i + 1) :: cells.
Proof.
  unfold shape; intros H.
  destruct (convert_rows rows column_names) as [[dicts texts]|] eqn:Econv;
    [| discriminate H].
  cbn [bind] in H; injection H as <- <- _.
  split; [reflexivity|].
  intros i row Hnth; rewrite with_index_nth in Hnth.
  destruct (nth_error texts i) as [cells|]; [| discriminate Hnth].
  injection Hnth as <-; exists cells; do 2 f_equal; lia.
Qed.

(** The export endpoint does what C4 says: the query builder is given the
    columns without ['#'], and whenever a renderer is called its columns
    are ['#'] followed by them, and its row [i] (counting from 0) starts
    with [str(i + 1)]. *)
Lemma export_index_column
    (build : list string -> list join_spec -> list string ->
             list where_condition -> option time_filter -> outcome string)
    (default_config : config_dict)
    (render : string -> list string -> list (list string) -> chart_entry ->
              outcome string)
    (save : string -> string -> string -> chart_entry -> string -> string ->
            outcome export_info)
    (body : selection) (request : request_info) (db : driver)
    (renderer : string) (out_columns : list string)
    (data_rows : list (list string)) (chart : chart_entry) :
  let evs :=
    fst (generate_dynamic_report build default_config render save body
           request db) in
  In (EvRender renderer out_columns data_rows chart) evs ->
  (exists later,
      evs = (EvBuildQuery (tables body) (valid_columns_of (columns body))
             :: later)
      /\ forall t c, ~ In (EvBuildQuery t c) later)
  /\ out_columns = "#" :: valid_columns_of (columns body)
  /\ ~ In "#" (valid_columns_of (columns body))
  /\ forall i row,
       nth_error data_rows i = Some row ->
       exists cells, row = str_of_nat (i + 1) :: cells.
Proof.
  cbv zeta; unfold generate_dynamic_report; cbv zeta.
  assert (Hno : forall (P : Prop) (l : list event) (more : list report_event),
             (In (EvRender renderer out_columns data_rows chart) more -> P) ->
             In (EvRender renderer out_columns data_rows chart)
               (EvBuildQuery (tables body) (valid_columns_of (columns body))
                :: map EvDb l ++ more) -> P).
  { intros P l more Hmore [Hin|Hin]; [discriminate Hin|].
    apply in_app_or in Hin as [Hin|Hin]; [| auto].
    apply in_map_iff in Hin as (e & He & _); discriminate He. }
  assert (Hsplit : forall (l : list event) (more : list report_event),
             (forall t c, ~ In (EvBuildQuery t c) more) ->
             forall t c, ~ In (EvBuildQuery t c) (map EvDb l ++ more)).
  { intros l more Hmore t c Hin.
    apply in_app_or in Hin as [Hin|Hin]; [| exact (Hmore t c Hin)].
    apply in_map_iff in Hin as (e & He & _); discriminate He. }
  destruct (_ || _); [intros []|].
  destruct (build _ _ _ _ _) as [sql|]; [| intros [H|[]]; discriminate H].
  destruct (db_connect db); [| intros [H|[H|[]]]; discriminate H].
  destruct (db_cursor db); [| intros [H|[H|[H|[]]]]; discriminate H].
  destruct (db_execute db) as [column_names|];
    [| intros H; exfalso; revert H;
       apply (Hno False [EvConnect; EvCursor; EvExecute sql;
                         EvCursorClose; EvConnClose] []); intros []].
  destruct (db_fetchall db) as [rows|];
    [| intros H; exfalso; revert H;
       apply (Hno False [EvConnect; EvCursor; EvExecute sql; EvFetchAll;
                         EvCursorClose; EvConnClose] []); intros []].
  destruct (shape _ _ _ _ _) as [[[cols data] made]|] eqn:Hshape;
    [| intros H; exfalso; revert H;
       apply (Hno False [EvConnect; EvCursor; EvExecute sql; EvFetchAll;
                         EvCursorClose; EvConnClose] []); intros []].
  apply shape_index_column in Hshape as [Hcols Hrows].
  destruct (renderer_of_format _) as [[name ext]|];
    [| intros H; exfalso; revert H;
       apply (Hno False [EvConnect; EvCursor; EvExecute sql; EvFetchAll;
                         EvCursorClose; EvConnClose] []); intros []].
  destruct (if String.eqb _ "excel" then _ else _);
    [| intros H; exfalso; revert H;
       apply (Hno False [EvConnect; EvCursor; EvExecute sql; EvFetchAll;
                         EvCursorClose; EvConnClose] []); intros []].
  assert (Hfound :
            In (EvRender renderer out_columns data_rows chart)
              [EvRender name cols data made] ->
            out_columns = "#" :: valid_columns_of (columns body)
            /\ ~ In "#" (valid_columns_of (columns body))
            /\ forall i row,
                 nth_error data_rows i = Some row ->
                 exists cells, row = str_of_nat (i + 1) :: cells).
  { intros [H|[]]; injection H as _ <- <- _.
    split; [exact Hcols | split; [apply valid_columns_no_index | exact Hrows]]. }
  destruct (render name cols data made) as [content|].
  - intros Hin; split.
    + eexists; split; [reflexivity|].
      apply (Hsplit [EvConnect; EvCursor; EvExecute sql; EvFetchAll]).
      intros t c Hbad; simpl in Hbad.
      repeat (destruct Hbad as [Hbad|Hbad]; [discriminate Hbad|]);
        exact Hbad.
    + apply Hfound.
      revert Hin.
      apply (Hno _ [EvConnect; EvCursor; EvExecute sql; EvFetchAll]).
      simpl; intros [H|[H|[H|[H|[]]]]]; try discriminate H; now left.
  - intros Hin; split.
    + eexists; split; [reflexivity|].
      apply (Hsplit [EvConnect; EvCursor; EvExecute sql; EvFetchAll]).
      intros t c Hbad; simpl in Hbad.
      repeat (destruct Hbad as [Hbad|Hbad]; [discriminate Hbad|]);
        exact Hbad.
    + apply Hfound.
      revert Hin.
      apply (Hno _ [EvConnect; EvCursor; EvExecute sql; EvFetchAll]).
      simpl; intros [H|[H|[H|[]]]]; try discriminate H; now left.
Qed.

(** C4, at the columns [['#', 'name']] and two rows.  The preview endpoint
    builds its output columns from the columns as sent, so ['#'] comes
    twice and each row dictionary loses its index (and the [name] key),
    while the export endpoint hands its renderer the table C4 describes.
    Both hand the builder the columns without ['#']. *)
Theorem preview_repeats_index_column :
  forall (sql : string)
         (render : string -> list string -> list (list string) ->
                   chart_entry -> outcome string)
         (save : string -> string -> string -> chart_entry -> string ->
                 string -> outcome export_info)
         (request : request_info),
    let build := fun (_ : list string) (_ : list join_spec) (_ : list string)
                     (_ : list where_condition) (_ : option time_filter) =>
                   Ok sql in
    let body :=
      Selection ["Users"] [] ["#"; "name"] [] None None no_header None None in
    let db :=
      Driver (Ok tt) (Ok tt) (Ok ["name"])
        (Ok [[VStr "Alice"]; [VStr "Bob"]]) (Ok tt) (Ok tt) [] (Ok tt) in
    let fetched :=
      [EvBuildQuery ["Users"] ["name"]; EvDb EvConnect; EvDb EvCursor;
       EvDb (EvExecute sql); EvDb EvFetchAll] in
    preview_dynamic_report build body db
    = ((fetched ++ [EvDb EvCursorClose; EvDb EvConnClose])%list,
       Preview ["#"; "#"; "name"] [[("#", "Alice")]; [("#", "Bob")]] 2 200)
    /\ exists later response,
         generate_dynamic_report build no_header render save body request db
         = ((fetched
             ++ EvRender "generate_excel_report" ["#"; "name"]
                  [["1"; "Alice"]; ["2"; "Bob"]] NoChartData
             :: later ++ [EvDb EvCursorClose; EvDb EvConnClose])%list,
            response).
Proof.
  intros sql render save request; cbv zeta; split; [reflexivity|].
  unfold generate_dynamic_report; cbv -[created_by_of String.append].
  destruct (render _ _ _ _) as [content|e].
  - exists [EvSave "xlsx" "Users" (created_by_of request) "transaction"].
    eexists; reflexivity.
  - exists [], (ReportError 500 ("Failed to generate report: " ++ exn_msg e)).
    reflexivity.
Qed.

(* ================================================================= *)
(** ** Cell conversion of the ad-hoc executor *)

Lemma date_is_not_a_module_global : global_name "date" <> Ok tt.
Proof. vm_compute; discriminate. Qed.

(** [convert_value_safely] returns a string on every value. *)
Lemma convert_value_safely_cases (value : db_value) :
  convert_value_safely value
  = match value with
    | VNone => ""
    | VStr s => s
    | VInt z => str_of_int z
    | VBool b => if b then "True" else "False"
    | VFloat _ shown => shown
    | VDate _ | VDateTime _ | VObject _ => "[Conversion Error]"
    end.
Proof. destruct value; reflexivity. Qed.

(** C8, at a [datetime] cell.  The test
    [isinstance(value, (datetime, date))] names [date], which the module
    does not import, so the conversion of a date, a datetime or any other
    non-primitive value ends in the outer handler: the cell reads
    ["[Conversion Error]"] where C8 says the ISO-8601 text.  Nulls and
    primitive scalars are converted as C8 says.  The last part shows a
    negative limit, which the bulk path reads as a slice bound counted from
    the end. *)
Theorem convert_value_safely_loses_dates :
  forall (t : datetime) (d : date) (o : pyobject) (s : string) (z : Z)
         (b : bool) (f : pyfloat) (shown : string),
    let createdAt := DateTime (Date 2024 1 2) 3 4 5 0 in
    let db rows :=
      Driver (Ok tt) (Ok tt) (Ok ["createdAt"]) (Ok rows) (Ok tt) (Ok tt) []
        (Ok tt) in
    let sql := "SELECT createdAt FROM T" in
    let calls :=
      [EvConnect; EvCursor; EvExecute sql; EvFetchAll; EvCursorClose;
       EvConnClose] in
    convert_value_safely (VDateTime t) = "[Conversion Error]"
    /\ convert_value_safely (VDate d) = "[Conversion Error]"
    /\ convert_value_safely (VObject o) = "[Conversion Error]"
    /\ convert_value_safely VNone = ""
    /\ convert_value_safely (VStr s) = s
    /\ convert_value_safely (VInt z) = str_of_int z
    /\ convert_value_safely (VBool b) = (if b then "True" else "False")
    /\ convert_value_safely (VFloat f shown) = shown
    /\ datetime_isoformat "T" createdAt = "2024-01-02T03:04:05"
    /\ execute_sql_query (Some sql) None (db [[VDateTime createdAt]])
       = (calls,
          SqlResult ["createdAt"] [[("createdAt", "[Conversion Error]")]] 1)
    /\ execute_sql_query (Some sql) (Some (-1)%Z)
         (db [[VStr "a"]; [VStr "b"]; [VStr "c"]])
       = (calls,
          SqlResult ["createdAt"]
            [[("createdAt", "a")]; [("createdAt", "b")]] 2).
Proof. intros; cbv zeta; repeat split; reflexivity. Qed.

(* ================================================================= *)
(** ** [Counter] *)

Lemma existsb_eqb_In (x : string) (l : list string) :
  existsb (String.eqb x) l = true <-> In x l.
Proof.
  rewrite existsb_exists; split.
  - intros (y & Hy & Heq); apply String.eqb_eq in Heq; now subst.
  - intros H; exists x; split; [exact H | apply String.eqb_refl].
Qed.

Lemma keys_counter_add (x : string) (d : pydict nat) :
  dict_keys (counter_add x d)
  = if existsb (String.eqb x) (dict_keys d) then dict_keys d
    else (dict_keys d ++ [x])%list.
Proof.
  unfold dict_keys.
  induction d as [|[k n] r IH]; simpl; [reflexivity|].
  rewrite (String.eqb_sym x k).
  destruct (String.eqb k x); simpl; [reflexivity|].
  rewrite IH.
  destruct (existsb (String.eqb x) (map fst r)); reflexivity.
Qed.

Lemma keys_fold_counter (xs : list string) :
  forall d,
    dict_keys (fold_left counter_step xs d)
    = (dict_keys d ++ first_seen_from (dict_keys d) xs)%list.
Proof.
  induction xs as [|x rest IH]; intros d; simpl.
  - now rewrite app_nil_r.
  - rewrite IH; unfold counter_step; rewrite keys_counter_add.
    destruct (existsb (String.eqb x) (dict_keys d)); [reflexivity|].
    now rewrite <- app_assoc.
Qed.

Lemma count_of_counter_add (k x : string) (d : pydict nat) :
  count_of k (counter_add x d)
  = count_of k d + (if String.eqb x k then 1 else 0).
Proof.
  unfold count_of; induction d as [|[k0 n] r IH]; simpl.
  - destruct (String.eqb x k); reflexivity.
  - destruct (String.eqb_spec k0 x) as [->|Hx]; simpl.
    + destruct (String.eqb x k); lia.
    + destruct (String.eqb_spec k0 k) as [->|Hk].
      * destruct (String.eqb_spec x k); [congruence | lia].
      * exact IH.
Qed.

Lemma count_of_fold_counter (k : string) (xs : list string) :
  forall d,
    count_of k (fold_left counter_step xs d) = count_of k d + occurrences xs k.
Proof.
  unfold occurrences.
  induction xs as [|x rest IH]; intros d; simpl; [lia|].
  rewrite IH; unfold counter_step; rewrite count_of_counter_add.
  destruct (string_dec x k) as [->|Hne].
  - rewrite String.eqb_refl; lia.
  - destruct (String.eqb_spec x k); [congruence | lia].
Qed.

Lemma nodup_keys_counter_add (x : string) (d : pydict nat) :
  NoDup (dict_keys d) -> NoDup (dict_keys (counter_add x d)).
Proof.
  intros H; rewrite keys_counter_add.
  destruct (existsb (String.eqb x) (dict_keys d)) eqn:E; [exact H|].
  apply NoDup_app; [exact H | repeat constructor; intros [] |].
  intros y Hy [<-|[]].
  apply existsb_eqb_In in Hy; congruence.
Qed.

Lemma nodup_keys_fold_counter (xs : list string) :
  forall d, NoDup (dict_keys d) ->
            NoDup (dict_keys (fold_left counter_step xs d)).
Proof.
  induction xs as [|x rest IH]; intros d H; simpl; [exact H|].
  apply IH; now apply nodup_keys_counter_add.
Qed.

Lemma values_by_keys (d : pydict nat) :
  NoDup (dict_keys d) ->
  dict_values d = map (fun k => count_of k d) (dict_keys d).
Proof.
  unfold dict_values, dict_keys.
  induction d as [|[k n] r IH]; simpl; intros H; [reflexivity|].
  inversion H as [|? ? Hk Hr]; subst.
  unfold count_of at 1; simpl; rewrite String.eqb_refl; f_equal.
  rewrite (IH Hr).
  apply map_ext_in; intros k' Hk'.
  unfold count_of; simpl.
  destruct (String.eqb_spec k k'); [congruence | reflexivity].
Qed.

Lemma first_seen_from_In (k : string) (xs : list string) :
  forall seen,
    In k (first_seen_from seen xs) <-> In k xs /\ ~ In k seen.
Proof.
  induction xs as [|x rest IH]; intros seen; simpl; [tauto|].
  destruct (existsb (String.eqb x) seen) eqn:E.
  - apply existsb_eqb_In in E.
    rewrite IH; split; [tauto|].
    intros [[->|Hin] Hnot]; tauto.
  - assert (Hx : ~ In x seen)
      by (intros Hin; apply existsb_eqb_In in Hin; congruence).
    simpl; rewrite IH, in_app_iff; simpl.
    destruct (string_dec x k) as [->|Hne]; [tauto|].
    split; [intros [->|[Hin Hnot]]; tauto | tauto].
Qed.

(** [Counter] lists the distinct elements in first-seen order, each with
    the number of its occurrences. *)
Lemma Counter_spec (xs : list string) :
  dict_keys (Counter xs) = first_seen xs
  /\ dict_values (Counter xs) = map (occurrences xs) (first_seen xs)
  /\ NoDup (first_seen xs).
Proof.
  assert (Hkeys : dict_keys (Counter xs) = first_seen xs)
    by (unfold Counter; apply (keys_fold_counter xs [])).
  assert (Hnodup : NoDup (dict_keys (Counter xs)))
    by (apply (nodup_keys_fold_counter xs []); constructor).
  split; [exact Hkeys | split; [| now rewrite <- Hkeys]].
  rewrite values_by_keys by exact Hnodup.
  rewrite Hkeys; apply map_ext; intros k.
  unfold Counter; now rewrite (count_of_fold_counter k xs []).
Qed.

Lemma count_series_spec (texts : list string) :
  count_series texts
  = (first_seen texts,
     map (fun l => NumInt (Z.of_nat (occurrences texts l)))
       (first_seen texts)).
Proof.
  unfold count_series; cbv zeta.
  destruct (Counter_spec texts) as (-> & -> & _).
  now rewrite map_map.
Qed.

(* ================================================================= *)
(** ** Chart series *)

Lemma numeric_series_lengths (x_col y_col : string) :
  forall data_rows_dict ls vs ls' vs',
    length ls = length vs ->
    numeric_series x_col y_col data_rows_dict ls vs = Ok (ls', vs') ->
    length ls' = length vs'.
Proof.
  induction data_rows_dict as [|row_dict rest IH];
    intros ls vs ls' vs' Hlen H; cbn [numeric_series] in H.
  - now injection H as <- <-.
  - destruct (get_not_none x_col row_dict) as [x_val|];
      [| now apply (IH ls vs)].
    destruct (get_not_none y_col row_dict) as [y_val|];
      [| now apply (IH ls vs)].
    destruct (numeric_point x_val y_val) as [[label y_num]|e].
    + apply (IH _ _ _ _) in H; [exact H|].
      rewrite !length_app; simpl; lia.
    + destruct (caught_by [ValueError; TypeError] e);
        [now apply (IH ls vs) | discriminate H].
Qed.

Lemma count_series_lengths (texts : list string) :
  length (fst (count_series texts)) = length (snd (count_series texts)).
Proof.
  unfold count_series, dict_keys, dict_values; simpl.
  now rewrite !length_map.
Qed.

Lemma series_lengths (x_col y_col : string) (chart_type : json)
    (data_rows_dict : list (pydict db_value)) (ls : list string)
    (vs : list number) :
  series x_col y_col chart_type data_rows_dict = Ok (ls, vs) ->
  length ls = length vs.
Proof.
  unfold series; intros H.
  destruct (String.eqb y_col "#").
  - destruct (column_texts x_col data_rows_dict) as [texts|];
      [| discriminate H]; simpl in H.
    assert (Hcs : count_series texts = (ls, vs)) by congruence.
    pose proof (count_series_lengths texts) as Hlen.
    rewrite Hcs in Hlen; exact Hlen.
  - destruct (is_y_numeric _) as [numeric|]; [| discriminate H]; simpl in H.
    destruct (negb numeric && is_pie chart_type).
    + destruct (column_texts y_col data_rows_dict) as [texts|];
        [| discriminate H]; simpl in H.
      assert (Hcs : count_series texts = (ls, vs)) by congruence.
      pose proof (count_series_lengths texts) as Hlen.
      rewrite Hcs in Hlen; exact Hlen.
    + now apply (numeric_series_lengths x_col y_col data_rows_dict [] []).
Qed.

Lemma chart_body_well_formed (cfg : chart_config)
    (data_rows_dict : list (pydict db_value)) (d : chart_dataset) :
  chart_body cfg data_rows_dict = Ok (Some d) ->
  length (labels d) = length (values d)
  /\ labels d <> [] /\ values d <> [].
Proof.
  unfold chart_body; cbv zeta; intros H.
  destruct (resolve_column _ _) as [x_col|]; [| discriminate H].
  destruct (resolve_column _ _) as [y_col|]; [| discriminate H].
  destruct (_ || _); [discriminate H|].
  destruct (series _ _ _ _) as [[ls vs]|] eqn:Es; [| discriminate H].
  simpl in H.
  destruct ls as [|l ls]; [discriminate H|].
  destruct vs as [|v vs]; [discriminate H|].
  simpl in H; injection H as <-; simpl.
  apply series_lengths in Es.
  repeat split; [exact Es | discriminate | discriminate].
Qed.

Lemma made_chart_data_well_formed (chart_config_raw : option chart_config)
    (data_rows_dict : list (pydict db_value)) (d : chart_dataset) :
  made_chart_data chart_config_raw data_rows_dict = Some d ->
  length (labels d) = length (values d)
  /\ labels d <> [] /\ values d <> [].
Proof.
  unfold made_chart_data; intros H.
  destruct chart_config_raw as [cfg|]; [| discriminate H].
  destruct (_ && _); [discriminate H|].
  destruct (_ && _); [| discriminate H].
  destruct (chart_body cfg data_rows_dict) as [made|] eqn:Eb;
    [| discriminate H].
  subst made; now apply (chart_body_well_formed cfg data_rows_dict).
Qed.

(** C7, as the code has it.  A dataset the shaping makes has as many labels
    as values and is not empty.  When none is made the shaping writes
    nothing: the ['chart_data'] the renderer finds is then the one the
    request's header configuration holds, or else the one of the defaults,
    and there is none only when neither holds one.  The table is ['#']
    followed by the valid columns, with one row per database row headed by
    its position; it is returned whenever every cell has a text, and it is
    the same whatever the header configuration. *)
Theorem chart_dataset_well_formed :
  forall (default_config header_config : config_dict)
         (data_rows_dict : list (pydict db_value))
         (valid_columns column_names : list string)
         (rows : list (list db_value)),
    let merged_config := merge_config default_config header_config in
    let made :=
      made_chart_data (chart_config_raw_of merged_config header_config)
        data_rows_dict in
    let entry := chart_data default_config header_config data_rows_dict in
    (forall d,
        entry = ChartDataMade d <-> made = Some d)
    /\ (forall d,
           made = Some d ->
           length (labels d) = length (values d)
           /\ labels d <> [] /\ values d <> [])
    /\ (forall sent,
           entry = ChartDataSent sent
           <-> made = None
               /\ (hc_chart_data header_config = Some sent
                   \/ hc_chart_data header_config = None
                      /\ hc_chart_data default_config = Some sent))
    /\ (entry = NoChartData
        <-> made = None
            /\ hc_chart_data header_config = None
            /\ hc_chart_data default_config = None)
    /\ (forallb (forallb readable) rows = true ->
        exists data_rows chart,
          shape valid_columns column_names rows default_config header_config
          = Ok ("#" :: valid_columns, data_rows, chart)
          /\ length data_rows = length rows
          /\ forall i row,
               nth_error rows i = Some row ->
               exists texts,
                 nth_error data_rows i = Some (str_of_nat (S i) :: texts)
                 /\ Forall2 (fun cell text => cell_text cell = Ok text)
                      row texts)
    /\ (forall other_default other_header : config_dict,
           match shape valid_columns column_names rows default_config
                   header_config,
                 shape valid_columns column_names rows other_default
                   other_header
           with
           | Ok (out_columns, data_rows, _),
             Ok (out_columns', data_rows', _) =>
               out_columns = out_columns' /\ data_rows = data_rows'
           | Raise e, Raise e' => e = e'
           | _, _ => False
           end).
Proof.
  intros default_config header_config data_rows_dict valid_columns
         column_names rows; cbv zeta.
  unfold chart_data; cbv zeta.
  set (made := made_chart_data _ data_rows_dict).
  unfold merge_config at 1 2 3; cbn [hc_chart_data].
  split; [| split; [| split; [| split; [| split]]]].
  - intros d; destruct made as [m|];
      [| destruct (hc_chart_data header_config);
         [| destruct (hc_chart_data default_config)]];
      split; intros H; try discriminate H; congruence.
  - intros d Hd; subst made.
    now apply made_chart_data_well_formed in Hd.
  - intros sent; destruct made as [m|].
    + split; [discriminate | intros [H _]; discriminate H].
    + destruct (hc_chart_data header_config) as [h|].
      * split.
        -- intros H; injection H as ->; auto.
        -- intros [_ [H|[H _]]]; [now injection H as -> | discriminate H].
      * destruct (hc_chart_data default_config) as [h|].
        -- split.
           ++ intros H; injection H as ->; auto.
           ++ intros [_ [H|[_ H]]]; [discriminate H | now injection H as ->].
        -- split; [discriminate |].
           intros [_ [H|[_ H]]]; discriminate H.
  - destruct made as [m|].
    + split; [discriminate | intros [H _]; discriminate H].
    + destruct (hc_chart_data header_config) as [h|].
      * split; [discriminate | intros (_ & H & _); discriminate H].
      * destruct (hc_chart_data default_config) as [h|].
        -- split; [discriminate | intros (_ & _ & H); discriminate H].
        -- split; auto.
  - intros Hall.
    destruct (convert_rows_total column_names rows Hall)
      as (dicts & tss & Hconv).
    destruct (shape valid_columns column_names rows default_config
                header_config) as [[[out data] chart]|e] eqn:Hshape.
    + destruct (shape_table _ _ _ _ _ _ _ _ Hshape) as (-> & Hlen & Hrows).
      exists data, chart; auto.
    + unfold shape in Hshape; rewrite Hconv in Hshape; discriminate Hshape.
  - intros other_default other_header; apply shape_table_only.
Qed.

(** The statement at a count by status on three rows: the dataset made has
    two labels and two values, and the table has three rows. *)
Lemma chart_dataset_well_formed_witness :
  (length ["open"; "closed"] = length [NumInt 2; NumInt 1]
   /\ ["open"; "closed"] <> [] /\ [NumInt 2; NumInt 1] <> [])
  /\ exists data_rows chart,
       shape ["status"] ["status"]
         [[VStr "open"]; [VStr "open"]; [VStr "closed"]] no_header
         (HeaderConfig
            (Some (Some (ChartConfig (Some "status") (Some "#") None))) None)
       = Ok (["#"; "status"], data_rows, chart)
       /\ length data_rows = 3%nat.
Proof.
  destruct (chart_dataset_well_formed no_header
              (HeaderConfig
                 (Some (Some (ChartConfig (Some "status") (Some "#") None)))
                 None)
              [[("status", VStr "open"); ("#", VStr "1")];
               [("status", VStr "open"); ("#", VStr "2")];
               [("status", VStr "closed"); ("#", VStr "3")]]
              ["status"] ["status"]
              [[VStr "open"]; [VStr "open"]; [VStr "closed"]])
    as (_ & Hwf & _ & _ & Htable & _).
  split.
  - exact (Hwf (ChartData ["open"; "closed"] [NumInt 2; NumInt 1]
                  (JString "bar")) eq_refl).
  - destruct (Htable eq_refl) as (data_rows & chart & Hshape & Hlen & _).
    exists data_rows, chart; auto.
Defined.

(** C7 as worded fails at a request whose header configuration holds a
    ['chart_data'] of its own and no chart binding: no dataset is made,
    and yet the configuration the renderer gets carries one, here with no
    label and no value. *)
Lemma sent_chart_data_stays_attached :
  made_chart_data None [[("status", VStr "open"); ("#", VStr "1")]] = None
  /\ shape ["status"] ["status"] [[VStr "open"]] no_header
       (HeaderConfig None
          (Some (JObject [("labels", JArray []); ("values", JArray [])])))
     = Ok (["#"; "status"], [["1"; "open"]],
           ChartDataSent
             (JObject [("labels", JArray []); ("values", JArray [])]))
  /\ ChartDataSent (JObject [("labels", JArray []); ("values", JArray [])])
     <> NoChartData.
Proof. repeat split; discriminate. Qed.

(** C6. With the index column as y, the series is a count by x: the labels
    are the distinct texts of the x column (nulls left out) in first-seen
    order, and each value is the number of rows showing that text.  The
    key ['#'] always resolves to the index column.  Three rows with status
    open, open, closed give the labels [open, closed] and the values
    [2, 1], whatever the defaults and whatever ['chart_data'] the request
    sent. *)
Theorem count_aggregation_by_x_value :
  forall (x_col : string) (chart_type : json)
         (data_rows_dict : list (pydict db_value)) (texts : list string)
         (available_cols : list string)
         (default_config : config_dict) (sent : option json),
    column_texts x_col data_rows_dict = Ok texts ->
    let labels := first_seen texts in
    resolve_column "#" available_cols = Some "#"
    /\ series x_col "#" chart_type data_rows_dict
       = Ok (labels,
             map (fun l => NumInt (Z.of_nat (occurrences texts l))) labels)
    /\ NoDup labels
    /\ (forall l, In l labels <-> In l texts)
    /\ shape ["status"] ["status"]
         [[VStr "open"]; [VStr "open"]; [VStr "closed"]]
         default_config
         (HeaderConfig
            (Some (Some (ChartConfig (Some "status") (Some "#")
                           (Some chart_type))))
            sent)
       = Ok (["#"; "status"],
             [["1"; "open"]; ["2"; "open"]; ["3"; "closed"]],
             ChartDataMade
               (ChartData ["open"; "closed"] [NumInt 2; NumInt 1]
                  chart_type)).
Proof.
  intros x_col chart_type data_rows_dict texts available_cols
         default_config sent Htexts; cbv zeta.
  split; [apply resolve_index_column | split; [| split; [| split]]].
  - unfold series; simpl; rewrite Htexts; simpl.
    now rewrite count_series_spec.
  - apply Counter_spec.
  - intros l; unfold first_seen; rewrite first_seen_from_In; simpl; tauto.
  - reflexivity.
Qed.

(** The statement at the three rows open, open, closed. *)
Lemma count_aggregation_by_x_value_witness :
  series "status" "#" (JString "bar")
    [[("status", VStr "open"); ("#", VStr "1")];
     [("status", VStr "open"); ("#", VStr "2")];
     [("status", VStr "closed"); ("#", VStr "3")]]
  = Ok (["open"; "closed"], [NumInt 2; NumInt 1]).
Proof.
  destruct (count_aggregation_by_x_value "status" (JString "bar")
              [[("status", VStr "open"); ("#", VStr "1")];
               [("status", VStr "open"); ("#", VStr "2")];
               [("status", VStr "closed"); ("#", VStr "3")]]
              ["open"; "open"; "closed"] ["status"; "#"] no_header None
              eq_refl)
    as (_ & Hseries & _).
  exact Hseries.
Defined.

Lemma sample_y_vals_length (y_col : string) :
  forall (data_rows_dict : list (pydict db_value)),
    (length (sample_y_vals y_col data_rows_dict) <= 10)%nat.
Proof.
  intros rows; unfold sample_y_vals.
  assert (Hbound : forall l : list (pydict db_value),
             (length (flat_map
                        (fun row_dict =>
                           match get_not_none y_col row_dict with
                           | Some v => [v]
                           | None => []
                           end) l) <= length l)%nat).
  { induction l as [|row rest IH]; simpl; [lia|].
    destruct (get_not_none y_col row); simpl; lia. }
  etransitivity; [apply Hbound|].
  rewrite length_firstn; lia.
Qed.

(** What the loops read of a row under a column: the cell when it is there
    and not null. *)
Lemma get_not_none_cell (col : string) (row_dict : pydict db_value) :
  get_not_none col row_dict
  = if is_none (cell_of col row_dict) then None
    else Some (cell_of col row_dict).
Proof.
  unfold get_not_none, cell_of.
  destruct (dict_get col row_dict) as [v|]; reflexivity.
Qed.

(** The judgement on the sample is the judgement on the first y value that
    is not null among the first ten rows. *)
Lemma is_y_numeric_first_sample (y_col : string)
    (data_rows_dict : list (pydict db_value)) :
  is_y_numeric (sample_y_vals y_col data_rows_dict)
  = match first_sample y_col data_rows_dict with
    | None => Ok false
    | Some first =>
        match py_float first with
        | Ok _ => Ok true
        | Raise e =>
            if caught_by [ValueError; TypeError] e then Ok false else Raise e
        end
    end.
Proof.
  unfold sample_y_vals, first_sample.
  generalize (firstn 10 data_rows_dict); intros l.
  induction l as [|row rest IH]; cbn [flat_map map find]; [reflexivity|].
  rewrite get_not_none_cell.
  destruct (is_none (cell_of y_col row)); cbn [negb app]; [exact IH|].
  reflexivity.
Qed.

(** The loop of the numeric series yields the points of the rows in row
    order, when no row raises anything else than a failed conversion. *)
Lemma numeric_series_rows (x_col y_col : string) :
  forall data_rows_dict,
    forallb (converts_or_skips x_col y_col) data_rows_dict = true ->
    forall ls vs,
      numeric_series x_col y_col data_rows_dict ls vs
      = Ok ((ls ++ map fst (numeric_rows x_col y_col data_rows_dict))%list,
            (vs ++ map snd (numeric_rows x_col y_col data_rows_dict))%list).
Proof.
  induction data_rows_dict as [|row_dict rest IH]; intros Hall ls vs.
  - simpl; now rewrite !app_nil_r.
  - cbn [forallb] in Hall; apply andb_true_iff in Hall as [Hrow Hrest].
    cbn [numeric_series numeric_rows flat_map].
    unfold converts_or_skips in Hrow; unfold numeric_row.
    fold (numeric_rows x_col y_col rest).
    rewrite !get_not_none_cell.
    destruct (is_none (cell_of x_col row_dict)); [now apply IH|].
    destruct (is_none (cell_of y_col row_dict)); [now apply IH|].
    cbn [orb] in Hrow |- *.
    destruct (numeric_point _ _) as [[label y_num]|e].
    + rewrite (IH Hrest); cbn [app map fst snd].
      now rewrite <- !app_assoc.
    + rewrite Hrow; now apply IH.
Qed.

(** C5. For a y column other than the index column, whether it is numeric
    is decided by [float] on the first y value that is not null among the
    first ten rows; rows after the tenth play no part in it, and with no
    such value the column is not numeric.  When it is judged numeric the
    series is read row by row: a row whose x or y is null or missing is
    skipped, a row whose y cannot be converted is skipped, and any other
    row adds its x text and its y number; so the series is made of the
    points of the rows that have one, in row order.  The rows (Jan, "5"),
    (Feb, "bad") give the labels [Jan] and the values [5.0]; and of the
    rows (null, 1), (Mar, null), (Apr, 7), (May, "2.5"), (Jun, "n/a") only
    Apr and May are kept, with 7 and 2.5.  A y text between a TAB and a
    space converts, one after the separator FS (code 28) does not: of
    (Jul, TAB "8 ") and (Aug, FS "5") only Jul is kept, with 8.0. *)
Theorem numeric_series_skips_bad_rows :
  forall (x_col y_col : string) (chart_type : json)
         (data_rows_dict more : list (pydict db_value))
         (row_dict : pydict db_value)
         (ls : list string) (vs : list number)
         (chart_type_field : option json) (default_config : config_dict)
         (sent : option json),
    String.eqb y_col "#" = false ->
    let sample := sample_y_vals y_col data_rows_dict in
    let x_val := cell_of x_col row_dict in
    let y_val := cell_of y_col row_dict in
    let skipped :=
      numeric_series x_col y_col (row_dict :: more) ls vs
      = numeric_series x_col y_col more ls vs in
    let binding :=
      HeaderConfig
        (Some (Some (ChartConfig (Some "month") (Some "count")
                       chart_type_field)))
        sent in
    let type_of_chart :=
      match chart_type_field with
      | Some t => t
      | None => JString "bar"
      end in
    is_y_numeric sample
    = match first_sample y_col data_rows_dict with
      | None => Ok false
      | Some first =>
          match py_float first with
          | Ok _ => Ok true
          | Raise e =>
              if caught_by [ValueError; TypeError] e then Ok false
              else Raise e
          end
      end
    /\ (forall other,
           firstn 10 other = firstn 10 data_rows_dict ->
           sample_y_vals y_col other = sample)
    /\ (length sample <= 10)%nat
    /\ (is_y_numeric sample = Ok true ->
        series x_col y_col chart_type data_rows_dict
        = numeric_series x_col y_col data_rows_dict [] [])
    /\ (x_val = VNone \/ y_val = VNone -> skipped)
    /\ (forall e,
           x_val <> VNone -> y_val <> VNone ->
           y_number y_val = Raise e ->
           caught_by [ValueError; TypeError] e = true ->
           skipped)
    /\ (forall label y_num,
           x_val <> VNone -> y_val <> VNone ->
           y_number y_val = Ok y_num ->
           py_str x_val = Ok label ->
           numeric_series x_col y_col (row_dict :: more) ls vs
           = numeric_series x_col y_col more
               (ls ++ [label])%list (vs ++ [y_num])%list)
    /\ (forallb (converts_or_skips x_col y_col) data_rows_dict = true ->
        let points := numeric_rows x_col y_col data_rows_dict in
        numeric_series x_col y_col data_rows_dict [] []
        = Ok (map fst points, map snd points))
    /\ shape ["month"; "count"] ["month"; "count"]
         [[VStr "Jan"; VStr "5"]; [VStr "Feb"; VStr "bad"]]
         default_config binding
       = Ok (["#"; "month"; "count"],
             [["1"; "Jan"; "5"]; ["2"; "Feb"; "bad"]],
             ChartDataMade
               (ChartData ["Jan"] [NumFloat (FFinite (5 # 1)%Q)]
                  type_of_chart))
    /\ shape ["month"; "count"] ["month"; "count"]
         [[VNone; VInt 1]; [VStr "Mar"; VNone]; [VStr "Apr"; VInt 7];
          [VStr "May"; VStr "2.5"]; [VStr "Jun"; VStr "n/a"]]
         default_config binding
       = Ok (["#"; "month"; "count"],
             [["1"; ""; "1"]; ["2"; "Mar"; ""]; ["3"; "Apr"; "7"];
              ["4"; "May"; "2.5"]; ["5"; "Jun"; "n/a"]],
             ChartDataMade
               (ChartData ["Apr"; "May"]
                  [NumInt 7; NumFloat (FFinite (5 # 2)%Q)]
                  type_of_chart))
    /\ shape ["month"; "count"] ["month"; "count"]
         [[VStr "Jul"; VStr (String (ascii_of_nat 9) "8 ")];
          [VStr "Aug"; VStr (String (ascii_of_nat 28) "5")]]
         default_config binding
       = Ok (["#"; "month"; "count"],
             [["1"; "Jul"; String (ascii_of_nat 9) "8 "];
              ["2"; "Aug"; String (ascii_of_nat 28) "5"]],
             ChartDataMade
               (ChartData ["Jul"] [NumFloat (FFinite (8 # 1)%Q)]
                  type_of_chart)).
Proof.
  intros x_col y_col chart_type data_rows_dict more row_dict ls vs
         chart_type_field default_config sent Hy; cbv zeta.
  assert (Hnone : forall v, v <> VNone -> is_none v = false)
    by (intros [] H; try reflexivity; now elim H).
  split; [| split; [| split; [| split; [| split; [| split; [| split;
    [| split; [| split; [| split]]]]]]]]].
  - apply is_y_numeric_first_sample.
  - intros other Hsame; unfold sample_y_vals; now rewrite Hsame.
  - apply sample_y_vals_length.
  - intros Hnum; unfold series; rewrite Hy, Hnum; reflexivity.
  - intros Hnull; cbn [numeric_series]; rewrite !get_not_none_cell.
    destruct Hnull as [-> | ->]; cbn [is_none];
      [reflexivity | now destruct (is_none (cell_of x_col row_dict))].
  - intros e Hx Hyv Hnum Hcaught; cbn [numeric_series].
    rewrite !get_not_none_cell, (Hnone _ Hx), (Hnone _ Hyv).
    unfold numeric_point; rewrite Hnum; cbn [bind].
    now rewrite Hcaught.
  - intros label y_num Hx Hyv Hnum Hstr; cbn [numeric_series].
    rewrite !get_not_none_cell, (Hnone _ Hx), (Hnone _ Hyv).
    unfold numeric_point; rewrite Hnum, Hstr; reflexivity.
  - intros Hrows; cbv zeta.
    now rewrite (numeric_series_rows x_col y_col data_rows_dict Hrows [] []).
  - destruct chart_type_field; reflexivity.
  - destruct chart_type_field; reflexivity.
  - destruct chart_type_field; reflexivity.
Qed.

(** The statement at the rows (Jan, "5"), (Feb, "bad"): the second row is
    skipped; and at a row whose month is null, which is skipped too. *)
Lemma numeric_series_skips_bad_rows_witness :
  series "month" "count" (JString "bar")
    [[("month", VStr "Jan"); ("count", VStr "5"); ("#", VStr "1")];
     [("month", VStr "Feb"); ("count", VStr "bad"); ("#", VStr "2")]]
  = numeric_series "month" "count" [] ["Jan"] [NumFloat (FFinite (5 # 1)%Q)]
  /\ numeric_series "month" "count"
       [[("month", VNone); ("count", VInt 1); ("#", VStr "1")]] [] []
     = numeric_series "month" "count" [] [] [].
Proof.
  split.
  - destruct (numeric_series_skips_bad_rows "month" "count" (JString "bar")
                [[("month", VStr "Jan"); ("count", VStr "5");
                  ("#", VStr "1")];
                 [("month", VStr "Feb"); ("count", VStr "bad");
                  ("#", VStr "2")]]
                []
                [("month", VStr "Feb"); ("count", VStr "bad");
                 ("#", VStr "2")]
                ["Jan"] [NumFloat (FFinite (5 # 1)%Q)] None no_header None
                eq_refl)
      as (_ & _ & _ & Hseries & _ & Hskip & _).
    rewrite (Hseries eq_refl).
    rewrite <- (Hskip (Raise_ ValueError "could not convert string to float")
                  ltac:(discriminate) ltac:(discriminate) eq_refl eq_refl).
    reflexivity.
  - destruct (numeric_series_skips_bad_rows "month" "count" (JString "bar")
                [] []
                [("month", VNone); ("count", VInt 1); ("#", VStr "1")]
                [] [] None no_header None eq_refl)
      as (_ & _ & _ & _ & Hnull & _).
    exact (Hnull (or_introl eq_refl)).
Defined.

(* ================================================================= *)
(** ** The ad-hoc executor: what is executed, and the connection *)

Lemma reject_sql_none (s : string) :
  reject_sql s = None ->
  startswith (strip (upper s)) "SELECT" = true
  /\ first_dangerous_keyword (strip (upper s)) = None.
Proof.
  unfold reject_sql.
  destruct (String.eqb s ""); [discriminate|].
  destruct (startswith (strip (upper s)) "SELECT"); simpl; [| discriminate].
  destruct (first_dangerous_keyword (strip (upper s))); [discriminate|].
  auto.
Qed.

Lemma reject_sql_is_http (s : string) (r : response) :
  reject_sql s = Some r -> exists status detail, r = HTTPException status detail.
Proof.
  unfold reject_sql; intros H.
  repeat match type of H with
         | (if ?b then _ else _) = _ => destruct b
         | match ?o with Some _ => _ | None => _ end = _ => destruct o
         end;
    try discriminate H; injection H as <-; eauto.
Qed.

Lemma all_fetch_one (l : list event) :
  Forall (eq EvFetchOne) l -> l = repeat EvFetchOne (length l).
Proof.
  induction 1 as [|e l He _ IH]; simpl; [reflexivity|].
  now rewrite <- He, <- IH.
Qed.

(** The shapes of the calls made for a query that passed the checks, with
    what the database did in each. *)
Lemma execute_trace_shape (body_sql : option string) (body_limit : option Z)
    (db : driver) :
  reject_sql (strip (sql_of_body body_sql)) = None ->
  let sql := strip (sql_of_body body_sql) in
  let evs := fst (execute_sql_query body_sql body_limit db) in
  let opened := [EvConnect; EvCursor; EvExecute sql] in
  let reopened := [EvFetchAll; EvCursorClose; EvNewCursor] in
  let closed := [EvCursorClose; EvConnClose] in
  (evs = [EvConnect] /\ exists e, db_connect db = Raise e)
  \/ (evs = [EvConnect; EvCursor] /\ exists e, db_cursor db = Raise e)
  \/ (db_cursor db = Ok tt
      /\ (evs = opened ++ closed
          \/ evs = opened ++ [EvFetchAll] ++ closed
          \/ (evs = opened ++ reopened ++ closed
              /\ db_close_again db = Ok tt)
          \/ (evs = opened ++ reopened ++ [EvCursorClose]
              /\ (exists e, db_cursor_again db = Raise e)
              /\ exists e, db_close_again db = Raise e)
          \/ (evs = opened ++ reopened ++ [EvExecute sql] ++ closed
              /\ db_cursor_again db = Ok tt)
          \/ (exists n,
                 evs = opened ++ reopened ++ [EvExecute sql]
                       ++ repeat EvFetchOne n ++ closed)
             /\ db_cursor_again db = Ok tt))%list.
Proof.
  intros Hpass; cbv zeta.
  unfold execute_sql_query; fold (sql_of_body body_sql); rewrite Hpass.
  destruct (db_connect db) as [[]|e]; [| left; eauto].
  destruct (db_cursor db) as [[]|e]; [| right; left; eauto].
  right; right; split; [reflexivity|].
  destruct (db_execute db) as [columns|e]; [| now left].
  destruct (match db_fetchall db with
            | Ok rows => _
            | Raise e => _
            end) as [[result_rows row_count] [err|]];
    [| right; now left].
  destruct (db_cursor_again db) as [[]|e].
  - destruct (db_reexecute db); [| right; right; right; right; left; auto].
    pose proof (degraded_loop_fetches (db_fetchone db) columns
                  match body_limit with Some n => n | None => 1000%Z end
                  result_rows row_count) as Hf.
    destruct (degraded_loop _ _ _ _ _) as [fetches rows]; simpl in Hf |- *.
    right; right; right; right; right; split; [| reflexivity].
    exists (length fetches); now rewrite <- (all_fetch_one fetches Hf).
  - destruct (db_close_again db) as [[]|e'].
    + right; right; left; auto.
    + right; right; right; left; eauto.
Qed.

Lemma not_in_repeat_fetch (e : event) (n : nat) :
  e <> EvFetchOne -> ~ In e (repeat EvFetchOne n).
Proof. intros Hne Hin; apply repeat_spec in Hin; congruence. Qed.

(** Membership in a list of calls written with [::] and [++], case by
    case. *)
Ltac in_calls H :=
  repeat first
    [ apply in_app_or in H as [H|H]
    | apply in_inv in H as [H|H]
    | apply in_nil in H; contradiction ].

(** X1. Whatever the request and the database, a statement handed to
    [cursor.execute] is the submitted text with its surrounding blanks
    removed, and that text starts with [SELECT] once upper-cased and holds
    none of the nine keywords as a whole word. *)
Theorem executed_sql_is_vetted :
  forall (body_sql : option string) (body_limit : option Z) (db : driver)
         (sql : string),
    In (EvExecute sql) (fst (execute_sql_query body_sql body_limit db)) ->
    sql = strip (sql_of_body body_sql)
    /\ startswith (normalized_sql (sql_of_body body_sql)) "SELECT" = true
    /\ forall kw, In kw dangerous_keywords ->
                  ~ whole_word kw (normalized_sql (sql_of_body body_sql)).
Proof.
  intros body_sql body_limit db sql Hin.
  destruct (reject_sql (strip (sql_of_body body_sql))) as [r|] eqn:Hrej.
  - exfalso; unfold execute_sql_query in Hin.
    fold (sql_of_body body_sql) in Hin; rewrite Hrej in Hin; exact Hin.
  - destruct (reject_sql_none _ Hrej) as [Hsel Hnone].
    split; [| split; [exact Hsel | now apply first_dangerous_keyword_none]].
    pose proof (execute_trace_shape body_sql body_limit db Hrej) as Hshape.
    cbv zeta in Hshape.
    destruct Hshape
      as [[H _]|[[H _]|[_ [H|[H|[[H _]|[[H _]|[[H _]|[[n H] _]]]]]]]]];
      rewrite H in Hin; in_calls Hin;
      try (injection Hin as <-; reflexivity);
      try discriminate Hin.
    exfalso; revert Hin; apply not_in_repeat_fetch; discriminate.
Qed.

(** The statement on a lower-case query padded with blanks. *)
Lemma executed_sql_is_vetted_witness :
  "select id from T" = strip (sql_of_body (Some "  select id from T  "))
  /\ startswith (normalized_sql "  select id from T  ") "SELECT" = true.
Proof.
  destruct (executed_sql_is_vetted (Some "  select id from T  ") None idle_db
              "select id from T") as (Hsql & Hsel & _).
  - simpl; right; right; left; reflexivity.
  - split; [exact Hsql | exact Hsel].
Defined.

Lemma repeat_fetch_neutral (n : nat) :
  existsb is_connection_event (repeat EvFetchOne n) = false
  /\ filter is_cursor_event (repeat EvFetchOne n) = [].
Proof.
  induction n as [|n [IH1 IH2]]; simpl;
    [split; reflexivity | split; assumption].
Qed.

(** X2. The executor opens at most one connection per request and makes no
    database call for a rejected one.  Once the first cursor exists, every
    way out closes a cursor and then the connection, last of all, with at
    most one further cursor opened in between, after the first one was
    closed; the one exception is a second cursor that cannot be made while
    closing the first cursor again raises.  When the first cursor cannot
    be made, the connection that was opened is never closed. *)
Theorem executor_releases_connection :
  forall (body_sql : option string) (body_limit : option Z) (db : driver),
    let evs := fst (execute_sql_query body_sql body_limit db) in
    let closed := [EvCursorClose; EvConnClose] in
    (evs = []
     \/ evs = [EvConnect]
     \/ evs = [EvConnect; EvCursor]
     \/ (exists middle,
            evs = (EvConnect :: EvCursor :: middle ++ closed)%list
            /\ existsb is_connection_event middle = false
            /\ (filter is_cursor_event middle = []
                \/ filter is_cursor_event middle
                   = [EvCursorClose; EvNewCursor]))
     \/ (exists middle,
            evs = (EvConnect :: EvCursor :: middle
                   ++ [EvCursorClose; EvNewCursor; EvCursorClose])%list
            /\ existsb is_connection_event middle = false
            /\ filter is_cursor_event middle = []))
    /\ (reject_sql (strip (sql_of_body body_sql)) <> None -> evs = [])
    /\ (forall e,
           reject_sql (strip (sql_of_body body_sql)) = None ->
           db_connect db = Ok tt -> db_cursor db = Raise e ->
           execute_sql_query body_sql body_limit db
           = ([EvConnect; EvCursor], ServerError e))
    /\ (db_cursor db = Ok tt ->
        db_cursor_again db = Ok tt \/ db_close_again db = Ok tt ->
        In EvCursor evs ->
        exists middle,
          evs = (EvConnect :: EvCursor :: middle ++ closed)%list)
    /\ (In EvConnClose evs ->
        exists before, evs = (before ++ closed)%list
                       /\ ~ In EvConnClose before).
Proof.
  intros body_sql body_limit db; cbv zeta.
  destruct (reject_sql (strip (sql_of_body body_sql))) as [r|] eqn:Hrej.
  { assert (Hnil : fst (execute_sql_query body_sql body_limit db) = []).
    { unfold execute_sql_query.
      fold (sql_of_body body_sql); now rewrite Hrej. }
    rewrite Hnil.
    split; [now left | split; [reflexivity | split; [discriminate|]]].
    split; [intros _ _ []| intros []]. }
  pose proof (execute_trace_shape body_sql body_limit db Hrej) as Hshape.
  cbv zeta in Hshape.
  split; [| split; [congruence | split; [| split]]].
  - destruct Hshape
      as [[H _]|[[H _]|[_ [H|[H|[[H _]|[[H _]|[[H _]|[[n H] _]]]]]]]]];
      rewrite H.
    + right; now left.
    + right; right; now left.
    + right; right; right; left; eexists [_]; simpl; auto.
    + right; right; right; left; eexists [_; _]; simpl; auto.
    + right; right; right; left; eexists [_; _; _; _]; simpl; auto.
    + right; right; right; right; eexists [_; _]; simpl; auto.
    + right; right; right; left; eexists [_; _; _; _; _]; simpl; auto.
    + right; right; right; left.
      exists ([EvExecute (strip (sql_of_body body_sql)); EvFetchAll;
               EvCursorClose; EvNewCursor;
               EvExecute (strip (sql_of_body body_sql))]
                ++ repeat EvFetchOne n)%list.
      split; [reflexivity|].
      cbn [app existsb is_connection_event orb filter is_cursor_event].
      destruct (repeat_fetch_neutral n) as [-> ->]; auto.
  - intros e _ Hconn Hcur.
    unfold execute_sql_query; fold (sql_of_body body_sql).
    now rewrite Hrej, Hconn, Hcur.
  - intros Hcur Hagain Hin.
    destruct Hshape
      as [[H _]|[[H [e He]]|[_ [H|[H|[[H _]|[[H [[e He] [e' He']]]
                                 |[[H _]|[[n H] _]]]]]]]]];
      rewrite H in Hin |- *.
    + in_calls Hin; discriminate Hin.
    + congruence.
    + eexists [_]; reflexivity.
    + eexists [_; _]; reflexivity.
    + eexists [_; _; _; _]; reflexivity.
    + destruct Hagain; congruence.
    + eexists [_; _; _; _; _]; reflexivity.
    + eexists (_ :: _ :: _ :: _ :: _ :: repeat EvFetchOne n).
      reflexivity.
  - intros Hin.
    destruct Hshape
      as [[H _]|[[H _]|[_ [H|[H|[[H _]|[[H _]|[[H _]|[[n H] _]]]]]]]]];
      rewrite H in Hin |- *; cbn [app] in Hin |- *.
    + in_calls Hin; discriminate Hin.
    + in_calls Hin; discriminate Hin.
    + eexists [_; _; _]; split; [reflexivity|].
      intros Hbad; in_calls Hbad; discriminate Hbad.
    + eexists [_; _; _; _]; split; [reflexivity|].
      intros Hbad; in_calls Hbad; discriminate Hbad.
    + eexists [_; _; _; _; _; _]; split; [reflexivity|].
      intros Hbad; in_calls Hbad; discriminate Hbad.
    + in_calls Hin; discriminate Hin.
    + eexists [_; _; _; _; _; _; _]; split; [reflexivity|].
      intros Hbad; in_calls Hbad; discriminate Hbad.
    + exists ([EvConnect; EvCursor;
               EvExecute (strip (sql_of_body body_sql)); EvFetchAll;
               EvCursorClose; EvNewCursor;
               EvExecute (strip (sql_of_body body_sql))]
                ++ repeat EvFetchOne n)%list.
      split; [reflexivity|].
      intros Hbad; in_calls Hbad; try discriminate Hbad.
      revert Hbad; apply not_in_repeat_fetch; discriminate.
Qed.

(** The statement at a database that opens the connection and then fails to
    make a cursor: the connection is not closed. *)
Lemma executor_releases_connection_witness :
  execute_sql_query (Some "SELECT 1") None
    (Driver (Ok tt) (raise DriverError "no cursor") (Ok []) (Ok []) (Ok tt)
       (Ok tt) [] (Ok tt))
  = ([EvConnect; EvCursor], ServerError (Raise_ DriverError "no cursor")).
Proof.
  destruct (executor_releases_connection (Some "SELECT 1") None
              (Driver (Ok tt) (raise DriverError "no cursor") (Ok []) (Ok [])
                 (Ok tt) (Ok tt) [] (Ok tt)))
    as (_ & _ & Hleak & _).
  exact (Hleak (Raise_ DriverError "no cursor") eq_refl eq_refl eq_refl).
Defined.

(* ================================================================= *)
(** ** The ad-hoc executor: rows returned *)

Lemma slice_to_length {A} (l : list A) (n : Z) :
  (0 <= n)%Z -> (Z.of_nat (length (slice_to l n)) <= n)%Z.
Proof.
  intros Hn; unfold slice_to.
  replace (n <? 0)%Z with false by (symmetry; apply Z.ltb_ge; lia).
  rewrite length_firstn; lia.
Qed.

Lemma slice_to_shorter {A} (l : list A) (n : Z) :
  (length (slice_to l n) <= length l)%nat.
Proof.
  unfold slice_to; destruct (n <? 0)%Z; rewrite length_firstn; lia.
Qed.

Lemma bulk_rows_count (columns : list string) :
  forall rows acc count result count' err,
    bulk_rows rows columns acc count = (result, count', err) ->
    count = Z.of_nat (length acc) ->
    count' = Z.of_nat (length result)
    /\ (length result <= length acc + length rows)%nat.
Proof.
  induction rows as [|row rest IH]; intros acc count result count' err H Hc;
    cbn [bulk_rows] in H.
  - injection H as <- <- _; simpl; split; [exact Hc | lia].
  - destruct (bulk_row row columns 0 []) as [row_dict|e].
    + apply IH in H; [| rewrite length_app; simpl; lia].
      rewrite length_app in H; simpl in H |- *; split; [tauto | lia].
    + injection H as <- <- _; simpl; split; [exact Hc | lia].
Qed.

Lemma degraded_loop_bound (columns : list string) (max_rows : Z) :
  forall answers acc count,
    count = Z.of_nat (length acc) ->
    (Z.of_nat (length (snd (degraded_loop answers columns max_rows
                              acc count)))
     <= Z.max count max_rows)%Z.
Proof.
  induction answers as [|[cells|e] rest IH]; intros acc count Hc;
    cbn [degraded_loop];
    destruct (count <? max_rows)%Z eqn:Hlt; simpl; try lia.
  apply Z.ltb_lt in Hlt.
  destruct (degraded_row cells columns 0 []) as [|entry more].
  - specialize (IH acc count Hc).
    destruct (degraded_loop rest columns max_rows acc count); simpl in *.
    exact IH.
  - specialize (IH (acc ++ [entry :: more])%list (count + 1)%Z).
    destruct (degraded_loop rest columns max_rows _ _); simpl in *.
    rewrite length_app in IH; simpl in IH.
    etransitivity; [apply IH; lia | lia].
Qed.

(** X3. With a limit that is not negative, the executor returns at most
    that many rows, whether they were read in bulk or one by one, and the
    [total] it reports is the number of rows it returns. *)
Theorem executor_row_limit :
  forall (body_sql : option string) (body_limit : option Z) (db : driver)
         (evs : list event) (columns : list string)
         (rows : list (pydict string)) (total : nat),
    (0 <= limit_of_body body_limit)%Z ->
    execute_sql_query body_sql body_limit db
    = (evs, SqlResult columns rows total) ->
    (Z.of_nat (length rows) <= limit_of_body body_limit)%Z
    /\ total = length rows.
Proof.
  intros body_sql body_limit db evs columns rows total Hlim H.
  unfold execute_sql_query in H; fold (limit_of_body body_limit) in H.
  set (limit := limit_of_body body_limit) in *.
  destruct (reject_sql _) as [r|] eqn:Hrej.
  { destruct (reject_sql_is_http _ _ Hrej) as (st & d & ->).
    injection H as _ H; discriminate H. }
  destruct (db_connect db); [| injection H as _ H; discriminate H].
  destruct (db_cursor db); [| injection H as _ H; discriminate H].
  destruct (db_execute db) as [cols|]; [| injection H as _ H; discriminate H].
  destruct (match db_fetchall db with
            | Ok rows0 => _
            | Raise e => _
            end) as [[result_rows row_count] err] eqn:Hbulk.
  assert (Hinv : row_count = Z.of_nat (length result_rows)
                 /\ (Z.of_nat (length result_rows) <= limit)%Z).
  { destruct (db_fetchall db) as [fetched|e].
    - apply bulk_rows_count in Hbulk as [Hc Hl]; [| reflexivity].
      split; [exact Hc|].
      pose proof (slice_to_length fetched limit Hlim); simpl in Hl; lia.
    - injection Hbulk as <- <- _; simpl; split; [reflexivity | lia]. }
  destruct Hinv as [Hcount Hle].
  destruct err as [e|].
  - destruct (db_cursor_again db);
      [| destruct (db_close_again db); injection H as _ H; discriminate H].
    destruct (db_reexecute db); [| injection H as _ H; discriminate H].
    pose proof (degraded_loop_bound cols limit (db_fetchone db)
                  result_rows row_count Hcount) as Hb.
    destruct (degraded_loop _ _ _ _ _) as [fetches final]; simpl in Hb.
    injection H as _ _ <- <-; split; [lia | reflexivity].
  - injection H as _ _ <- <-; split; [lia | reflexivity].
Qed.

(** The statement at a limit of 2 on three rows. *)
Lemma executor_row_limit_witness :
  (Z.of_nat (length [[("n", "1")]; [("n", "2")]]) <= 2)%Z
  /\ 2%nat = length [[("n", "1")]; [("n", "2")]].
Proof.
  apply (executor_row_limit (Some "SELECT n FROM T") (Some 2%Z)
           (Driver (Ok tt) (Ok tt) (Ok ["n"])
              (Ok [[VInt 1]; [VInt 2]; [VInt 3]]) (Ok tt) (Ok tt) [] (Ok tt))
           [EvConnect; EvCursor; EvExecute "SELECT n FROM T"; EvFetchAll;
            EvCursorClose; EvConnClose]
           ["n"] [[("n", "1")]; [("n", "2")]] 2%nat).
  - simpl; lia.
  - reflexivity.
Defined.

Lemma Forall_prefix {A} (P : A -> Prop) (l : list A) :
  forall n, Forall P l -> Forall P (firstn n l).
Proof.
  induction l as [|a l IH]; intros [|n] H; simpl; auto.
  inversion H; subst; constructor; auto.
Qed.

Lemma skipn_nth {A} (l : list A) :
  forall i v, nth_error l i = Some v -> skipn i l = v :: skipn (S i) l.
Proof.
  induction l as [|a l IH]; intros [|i] v H; simpl in *; try discriminate.
  - now injection H as ->.
  - now apply IH.
Qed.

(** The loop over column indexes is a zip of the column names with the
    cells. *)
Lemma bulk_row_zip (row : list db_value) :
  forall cols idx d,
    (idx + length cols <= length row)%nat ->
    bulk_row row cols idx d
    = Ok (fold_left (fun d kv => dict_set (fst kv) (snd kv) d)
            (combine cols (map convert_value_safely (skipn idx row))) d).
Proof.
  induction cols as [|col rest IH]; intros idx d Hlen; simpl in *.
  - reflexivity.
  - unfold row_item.
    destruct (nth_error row idx) as [v|] eqn:Hnth.
    + rewrite (skipn_nth row idx v Hnth); simpl.
      apply IH; lia.
    + apply nth_error_None in Hnth; lia.
Qed.

Lemma bulk_rows_all (columns : list string) :
  forall rows acc count,
    Forall (fun row => (length columns <= length row)%nat) rows ->
    bulk_rows rows columns acc count
    = ((acc ++ map (converted_row columns) rows)%list,
       (count + Z.of_nat (length rows))%Z, None).
Proof.
  induction rows as [|row rest IH]; intros acc count Hall; cbn [bulk_rows].
  - simpl; now rewrite app_nil_r, Z.add_0_r.
  - inversion Hall as [|? ? Hrow Hrest]; subst.
    rewrite (bulk_row_zip row columns 0 []) by (simpl; lia).
    rewrite IH by exact Hrest.
    cbn [map length skipn]; unfold converted_row, dict_of_pairs.
    rewrite <- app_assoc; do 2 f_equal; lia.
Qed.

(** X4. When [fetchall] succeeds and every row has a cell for every column,
    the executor makes one [execute] and no [fetchone], closes the cursor
    and the connection, and returns the first [limit] rows, each as the
    column names zipped with the converted cells. *)
Theorem bulk_fetch_converts_rows :
  forall (body_sql : string) (body_limit : option Z) (db : driver)
         (columns : list string) (rows : list (list db_value)),
    reject_sql (strip body_sql) = None ->
    db_connect db = Ok tt ->
    db_cursor db = Ok tt ->
    db_execute db = Ok columns ->
    db_fetchall db = Ok rows ->
    Forall (fun row => (length columns <= length row)%nat) rows ->
    let kept := slice_to rows (limit_of_body body_limit) in
    execute_sql_query (Some body_sql) body_limit db
    = ([EvConnect; EvCursor; EvExecute (strip body_sql); EvFetchAll;
        EvCursorClose; EvConnClose],
       SqlResult columns (map (converted_row columns) kept) (length kept)).
Proof.
  intros body_sql body_limit db columns rows Hpass Hconn Hcur Hexec Hall
         Hrows; cbv zeta.
  unfold execute_sql_query.
  rewrite Hpass, Hconn, Hcur, Hexec, Hall; fold (limit_of_body body_limit).
  rewrite bulk_rows_all.
  - unfold success; simpl; now rewrite length_map.
  - unfold slice_to.
    destruct (limit_of_body body_limit <? 0)%Z; now apply Forall_prefix.
Qed.

(** The statement on two columns, two rows and no limit. *)
Lemma bulk_fetch_converts_rows_witness :
  execute_sql_query (Some "SELECT id, name FROM T") None
    (Driver (Ok tt) (Ok tt) (Ok ["id"; "name"])
       (Ok [[VInt 7; VStr "a"]; [VInt 8; VNone]]) (Ok tt) (Ok tt) [] (Ok tt))
  = ([EvConnect; EvCursor; EvExecute "SELECT id, name FROM T"; EvFetchAll;
      EvCursorClose; EvConnClose],
     SqlResult ["id"; "name"]
       [[("id", "7"); ("name", "a")]; [("id", "8"); ("name", "")]] 2).
Proof.
  apply (bulk_fetch_converts_rows "SELECT id, name FROM T" None
           (Driver (Ok tt) (Ok tt) (Ok ["id"; "name"])
              (Ok [[VInt 7; VStr "a"]; [VInt 8; VNone]]) (Ok tt) (Ok tt) []
              (Ok tt))
           ["id"; "name"] [[VInt 7; VStr "a"]; [VInt 8; VNone]]);
    try reflexivity.
  repeat constructor.
Defined.

(* ================================================================= *)
(** ** The table of the report endpoints *)

(** X5. The table handed to the renderer by the export endpoint has one
    row per database row, in the same order; row [i] (from 0) is
    [str(i + 1)] followed by one text per cell, the empty text for a null
    and [str(cell)] otherwise. *)
Theorem export_table_rows :
  forall (valid_columns column_names : list string)
         (rows : list (list db_value))
         (default_config header_config : config_dict)
         (out_columns : list string) (data_rows : list (list string))
         (chart : chart_entry),
    shape valid_columns column_names rows default_config header_config
    = Ok (out_columns, data_rows, chart) ->
    length data_rows = length rows
    /\ forall i row,
         nth_error rows i = Some row ->
         exists texts,
           nth_error data_rows i = Some (str_of_nat (S i) :: texts)
           /\ length texts = length row
           /\ Forall2 (fun cell text =>
                         if is_none cell then text = ""
                         else py_str cell = Ok text) row texts.
Proof.
  intros valid_columns column_names rows default_config header_config
         out_columns data_rows chart H.
  unfold shape in H.
  destruct (convert_rows rows column_names) as [[dicts tss]|] eqn:Hconv;
    [| discriminate H].
  cbn [bind] in H; injection H as _ <- _.
  pose proof (convert_rows_texts column_names rows dicts tss Hconv) as Hall.
  split.
  - rewrite with_index_length; symmetry; exact (Forall2_length Hall).
  - intros i row Hnth.
    destruct (Forall2_nth _ _ _ Hall i row Hnth) as (texts & Hts & Hrow).
    exists texts; rewrite with_index_nth, Hts; simpl.
    split; [reflexivity | split; [symmetry; exact (Forall2_length Hrow)|]].
    clear -Hrow; induction Hrow as [|cell text row texts Hc _ IH];
      constructor; auto.
    unfold cell_text in Hc; destruct (is_none cell); [| exact Hc].
    now injection Hc as <-.
Qed.

(** The statement on two rows, the second with a null. *)
Lemma export_table_rows_witness :
  length [["1"; "Alice"; "3"]; ["2"; "Bob"; ""]] = 2%nat.
Proof.
  apply (export_table_rows ["name"; "n"] ["name"; "n"]
           [[VStr "Alice"; VInt 3]; [VStr "Bob"; VNone]] no_header no_header
           ["#"; "name"; "n"] [["1"; "Alice"; "3"]; ["2"; "Bob"; ""]]
           NoChartData eq_refl).
Defined.

Lemma row_values_texts (row : list db_value) :
  forall texts,
    fold_right (fun cell acc =>
                  text <- cell_text cell ;;
                  others <- acc ;;
                  Ok (text :: others)) (Ok []) row = Ok texts ->
    Forall2 (fun cell text => cell_text cell = Ok text) row texts.
Proof.
  induction row as [|cell rest IH]; intros texts H; cbn [fold_right] in H.
  - injection H as <-; constructor.
  - destruct (cell_text cell) as [text|] eqn:Htext; [| discriminate H].
    cbn [bind] in H.
    destruct (fold_right _ _ rest) as [others|]; [| discriminate H].
    cbn [bind] in H; injection H as <-.
    constructor; [exact Htext | now apply IH].
Qed.

Lemma preview_rows_spec (columns_with_index : list string) :
  forall rows start shown,
    preview_rows start columns_with_index rows = Ok shown ->
    length shown = length rows
    /\ forall i row,
         nth_error rows i = Some row ->
         exists texts,
           Forall2 (fun cell text => cell_text cell = Ok text) row texts
           /\ nth_error shown i
              = Some (dict_of_pairs
                        (combine columns_with_index
                           (str_of_nat (start + i) :: texts))).
Proof.
  induction rows as [|row rest IH]; intros start shown H;
    cbn [preview_rows] in H.
  - injection H as <-; split; [reflexivity|].
    intros [|i] row Hnth; discriminate Hnth.
  - destruct (fold_right _ _ row) as [texts|] eqn:Hrow; [| discriminate H].
    cbn [bind] in H.
    destruct (preview_rows (S start) columns_with_index rest)
      as [others|] eqn:Hrest; [| discriminate H].
    cbn [bind] in H; injection H as <-.
    destruct (IH (S start) others Hrest) as [Hlen Hnth].
    split; [simpl; now rewrite Hlen|].
    intros [|i] row' Hrow'; simpl in Hrow' |- *.
    + injection Hrow' as <-; exists texts.
      split; [now apply row_values_texts | now rewrite Nat.add_0_r].
    + destruct (Hnth i row' Hrow') as (texts' & Hall & Hi).
      exists texts'; split; [exact Hall|].
      rewrite Hi; now replace (start + S i)%nat with (S start + i)%nat by lia.
Qed.

Lemma preview_result (build : list string -> list join_spec -> list string ->
                              list where_condition -> option time_filter ->
                              outcome string)
    (body : selection) (db : driver) (evs : list report_event)
    (cols : list string) (shown : list (pydict string)) (total : nat)
    (lim : Z) :
  preview_dynamic_report build body db = (evs, Preview cols shown total lim) ->
  lim = match previewLimit body with Some n => n | None => 200%Z end
  /\ cols = "#" :: columns body
  /\ exists rows,
       db_fetchall db = Ok rows
       /\ total = length rows
       /\ preview_rows 1 ("#" :: columns body) (slice_to rows lim) = Ok shown.
Proof.
  unfold preview_dynamic_report; intros H.
  destruct (_ || _); [discriminate H|].
  destruct (is_empty _); [discriminate H|].
  destruct (build _ _ _ _ _); [| discriminate H].
  destruct (db_connect db); [| discriminate H].
  destruct (db_cursor db); [| discriminate H].
  destruct (db_execute db); [| discriminate H].
  destruct (db_fetchall db) as [rows|]; [| discriminate H].
  destruct (preview_rows _ _ _) as [made|] eqn:Hrows; [| discriminate H].
  injection H as _ <- <- <- <-.
  split; [reflexivity | split; [reflexivity|]].
  exists rows; auto.
Qed.

(** X6. A preview response reports as [total] the number of rows the query
    returned, shows the rows of [rows[:previewLimit]] and no others, so
    never more than [total], and never more than the limit when the limit
    is not negative; the limit is 200 unless the request gives one. *)
Theorem preview_counts :
  forall (build : list string -> list join_spec -> list string ->
                  list where_condition -> option time_filter ->
                  outcome string)
         (body : selection) (db : driver) (evs : list report_event)
         (cols : list string) (shown : list (pydict string)) (total : nat)
         (lim : Z),
    preview_dynamic_report build body db
    = (evs, Preview cols shown total lim) ->
    lim = match previewLimit body with Some n => n | None => 200%Z end
    /\ (exists rows,
           db_fetchall db = Ok rows
           /\ total = length rows
           /\ length shown = length (slice_to rows lim))
    /\ (length shown <= total)%nat
    /\ ((0 <= lim)%Z -> (Z.of_nat (length shown) <= lim)%Z).
Proof.
  intros build body db evs cols shown total lim H.
  destruct (preview_result build body db evs cols shown total lim H)
    as (Hlim & _ & rows & Hfetch & Htotal & Hrows).
  apply preview_rows_spec in Hrows as [Hlen _].
  split; [exact Hlim | split; [| split]].
  - exists rows; auto.
  - rewrite Hlen, Htotal; apply slice_to_shorter.
  - intros Hpos; rewrite Hlen; now apply slice_to_length.
Qed.

(** The statement on three rows and a limit of 2. *)
Lemma preview_counts_witness :
  (length [[("#", "1"); ("n", "5")]; [("#", "2"); ("n", "6")]] <= 3)%nat.
Proof.
  apply (preview_counts
           (fun _ _ _ _ _ => Ok "SELECT n FROM T")
           (Selection ["T"] [] ["n"] [] None None no_header None
              (Some 2%Z))
           (Driver (Ok tt) (Ok tt) (Ok ["n"])
              (Ok [[VInt 5]; [VInt 6]; [VInt 7]]) (Ok tt) (Ok tt) [] (Ok tt))
           [EvBuildQuery ["T"] ["n"]; EvDb EvConnect; EvDb EvCursor;
            EvDb (EvExecute "SELECT n FROM T"); EvDb EvFetchAll;
            EvDb EvCursorClose; EvDb EvConnClose]
           ["#"; "n"] [[("#", "1"); ("n", "5")]; [("#", "2"); ("n", "6")]]
           3%nat 2%Z eq_refl).
Defined.

Lemma dict_set_fresh {V} (k : string) (v : V) (d : pydict V) :
  ~ In k (dict_keys d) -> dict_set k v d = (d ++ [(k, v)])%list.
Proof.
  unfold dict_keys; induction d as [|[k' v'] r IH]; simpl; intros Hnot;
    [reflexivity|].
  destruct (String.eqb_spec k' k) as [->|_]; [tauto|].
  rewrite IH; tauto.
Qed.

Lemma fold_dict_set_nodup {V} (ps : list (string * V)) :
  forall d,
    NoDup (dict_keys d ++ map fst ps) ->
    fold_left (fun d kv => dict_set (fst kv) (snd kv) d) ps d
    = (d ++ ps)%list.
Proof.
  induction ps as [|[k v] ps IH]; intros d Hnd; simpl.
  - now rewrite app_nil_r.
  - simpl in Hnd.
    assert (Hk : ~ In k (dict_keys d)).
    { apply NoDup_remove_2 in Hnd; intros Hin; apply Hnd.
      apply in_or_app; now left. }
    rewrite (dict_set_fresh k v d Hk), IH.
    + now rewrite <- app_assoc.
    + unfold dict_keys in *; rewrite map_app; simpl.
      rewrite <- app_assoc; simpl.
      apply NoDup_remove_1 in Hnd as Hrest.
      apply NoDup_remove_2 in Hnd.
      clear -Hnd Hrest.
      revert Hnd Hrest; generalize (map fst d) (map fst ps); intros a b.
      intros Hk Hab.
      apply NoDup_app; [now apply NoDup_app_remove_r in Hab | |].
      * constructor; [| now apply NoDup_app_remove_l in Hab].
        intros Hin; apply Hk, in_or_app; now right.
      * intros x Hxa [<-|Hxb]; [apply Hk, in_or_app; now left|].
        revert x Hxa Hxb; clear Hk.
        induction a as [|y a IHa]; intros x Hxa Hxb; [contradiction|].
        simpl in Hab; inversion Hab as [|? ? Hy Hrest]; subst.
        destruct Hxa as [->|Hxa]; [apply Hy, in_or_app; now right|].
        now apply (IHa Hrest x).
Qed.

(** A dictionary built from pairs with distinct keys is those pairs. *)
Lemma dict_of_pairs_nodup {V} (ps : list (string * V)) :
  NoDup (map fst ps) -> dict_of_pairs ps = ps.
Proof. intros H; unfold dict_of_pairs; now rewrite fold_dict_set_nodup. Qed.

Lemma map_fst_combine_nodup {B} (ks : list string) :
  forall (vs : list B), NoDup ks -> NoDup (map fst (combine ks vs)).
Proof.
  induction ks as [|k ks IH]; intros [|v vs] H; simpl; try constructor.
  - inversion H as [|? ? Hk _]; subst; intros Hin; apply Hk.
    apply in_map_iff in Hin as ([k' v'] & <- & Hin).
    now apply in_combine_l in Hin.
  - inversion H; subst; now apply IH.
Qed.

(** X7. When the columns sent to the preview are pairwise distinct and do
    not include ['#'], every preview row is the column names paired with
    the cell texts, headed by ['#'] paired with the 1-based position of the
    row. *)
Theorem preview_rows_are_indexed :
  forall (build : list string -> list join_spec -> list string ->
                  list where_condition -> option time_filter ->
                  outcome string)
         (body : selection) (db : driver) (evs : list report_event)
         (cols : list string) (shown : list (pydict string)) (total : nat)
         (lim : Z) (rows : list (list db_value)),
    preview_dynamic_report build body db
    = (evs, Preview cols shown total lim) ->
    db_fetchall db = Ok rows ->
    NoDup ("#" :: columns body) ->
    forall i row,
      nth_error (slice_to rows lim) i = Some row ->
      exists texts,
        Forall2 (fun cell text => cell_text cell = Ok text) row texts
        /\ nth_error shown i
           = Some (("#", str_of_nat (S i)) :: combine (columns body) texts).
Proof.
  intros build body db evs cols shown total lim rows H Hfetch Hnd i row Hnth.
  destruct (preview_result build body db evs cols shown total lim H)
    as (_ & _ & rows' & Hfetch' & _ & Hrows).
  rewrite Hfetch in Hfetch'; injection Hfetch' as <-.
  apply preview_rows_spec in Hrows as [_ Hspec].
  destruct (Hspec i row Hnth) as (texts & Hall & Hi).
  exists texts; split; [exact Hall|].
  rewrite Hi, dict_of_pairs_nodup; [reflexivity|].
  now apply map_fst_combine_nodup.
Qed.

(** The statement on the columns [name, n] and one row. *)
Lemma preview_rows_are_indexed_witness :
  exists texts,
    Forall2 (fun cell text => cell_text cell = Ok text)
      [VStr "Alice"; VNone] texts
    /\ nth_error [[("#", "1"); ("name", "Alice"); ("n", "")]] 0
       = Some (("#", str_of_nat 1) :: combine ["name"; "n"] texts).
Proof.
  apply (preview_rows_are_indexed
           (fun _ _ _ _ _ => Ok "SELECT name, n FROM T")
           (Selection ["T"] [] ["name"; "n"] [] None None no_header None
              None)
           (Driver (Ok tt) (Ok tt) (Ok ["name"; "n"])
              (Ok [[VStr "Alice"; VNone]]) (Ok tt) (Ok tt) [] (Ok tt))
           [EvBuildQuery ["T"] ["name"; "n"]; EvDb EvConnect; EvDb EvCursor;
            EvDb (EvExecute "SELECT name, n FROM T"); EvDb EvFetchAll;
            EvDb EvCursorClose; EvDb EvConnClose]
           ["#"; "name"; "n"] [[("#", "1"); ("name", "Alice"); ("n", "")]]
           1%nat 200%Z [[VStr "Alice"; VNone]] eq_refl eq_refl).
  - repeat constructor; simpl; intros H;
      repeat (destruct H as [H|H]; [discriminate H|]); exact H.
  - reflexivity.
Defined.

(* ================================================================= *)
(** ** Column resolution: what the loop returns *)

Lemma lower_char_dot (c : ascii) :
  Ascii.eqb (lower_char c) "." = Ascii.eqb c ".".
Proof. destruct c as [[] [] [] [] [] [] [] []]; reflexivity. Qed.

Lemma contains_dot_lower (s : string) :
  contains_char "." (lower s) = contains_char "." s.
Proof.
  induction s as [|c r IH]; simpl; [reflexivity|].
  unfold lower in *; now rewrite lower_char_dot, IH.
Qed.

Lemma split_lower (s : string) :
  split "." (lower s) = map lower (split "." s).
Proof.
  induction s as [|c r IH]; simpl; [reflexivity|].
  unfold lower in *; rewrite lower_char_dot, IH.
  destruct (Ascii.eqb c "."); [reflexivity|].
  destruct (split "." r); reflexivity.
Qed.

Lemma split_no_sep (s : string) :
  contains_char "." s = false -> split "." s = [s].
Proof.
  induction s as [|c r IH]; simpl; [reflexivity|].
  destruct (Ascii.eqb c "."); simpl; [discriminate|].
  intros H; now rewrite (IH H).
Qed.

Lemma last_map {A B} (f : A -> B) (l : list A) (d : A) :
  last (map f l) (f d) = f (last l d).
Proof.
  induction l as [|a [|b l] IH]; simpl in *; auto.
Qed.

(** The normalized form of a name only depends on its lower-case form. *)
Lemma normalized_of_lower (s : string) :
  normalized s = last (split "." (lower s)) "".
Proof.
  unfold normalized.
  destruct (contains_char "." s) eqn:E.
  - rewrite split_lower; symmetry; apply (last_map lower (split "." s) "").
  - rewrite split_no_sep by (now rewrite contains_dot_lower); reflexivity.
Qed.

Lemma lower_eq_normalized (a b : string) :
  lower a = lower b -> normalized a = normalized b.
Proof. intros H; now rewrite !normalized_of_lower, H. Qed.

(** The three tests of the loop come down to the second one. *)
Lemma column_matches_normalized (key col : string) :
  column_matches key col = String.eqb (normalized col) (normalized key).
Proof.
  unfold column_matches.
  destruct (String.eqb_spec (normalized col) (normalized key)) as [_|Hne].
  - now rewrite orb_true_r.
  - rewrite orb_false_r.
    destruct (String.eqb_spec col key) as [->|_]; [congruence|].
    destruct (String.eqb_spec (lower col) (lower key)) as [Hl|_];
      [| reflexivity].
    apply lower_eq_normalized in Hl; congruence.
Qed.

Lemma match_step_none (key col : string) :
  match_step key (normalized key) None col
  = if column_matches key col then Some col else None.
Proof.
  unfold match_step, column_matches; simpl.
  destruct (String.eqb col key); [reflexivity|].
  destruct (String.eqb (normalized col) (normalized key)); [reflexivity|].
  simpl; now destruct (String.eqb (lower col) (lower key)).
Qed.

Lemma truthy_some (s : string) : s <> "" -> truthy (Some s) = true.
Proof.
  intros H; simpl; destruct (String.eqb_spec s ""); [contradiction|].
  reflexivity.
Qed.

(** Starting from no match, the loop returns a column it was given that
    passes one of the tests. *)
Lemma fold_match_step_result (key : string) (cols : list string) :
  forall m c,
    fold_left (match_step key (normalized key)) cols m = Some c ->
    m = Some c \/ (In c cols /\ column_matches key c = true).
Proof.
  induction cols as [|col rest IH]; intros m c H; simpl in H; [now left|].
  apply IH in H as [H|[Hin Hm]]; [| right; split; [now right | exact Hm]].
  unfold match_step in H.
  destruct (negb (truthy m)) eqn:Hm; cbn [andb] in H; [| now left].
  fold (column_matches key col) in H.
  assert (Hcases : (if column_matches key col then Some col else m) = Some c).
  { unfold column_matches.
    destruct (String.eqb col key); [exact H|].
    destruct (String.eqb (normalized col) (normalized key)); [exact H|].
    destruct (String.eqb (lower col) (lower key)); exact H. }
  destruct (column_matches key col) eqn:Hc; [| now left].
  injection Hcases as <-; right; split; [now left | exact Hc].
Qed.

Lemma fold_match_step_find (key : string) (cols : list string) :
  ~ In "" cols ->
  fold_left (match_step key (normalized key)) cols None
  = find (column_matches key) cols.
Proof.
  induction cols as [|col rest IH]; intros Hne; simpl; [reflexivity|].
  rewrite match_step_none.
  destruct (column_matches key col).
  - apply fold_match_step_keeps, truthy_some.
    intros ->; apply Hne; now left.
  - apply IH; intros Hin; apply Hne; now right.
Qed.

Lemma normalized_index : normalized "#" = "#".
Proof. reflexivity. Qed.

(** X8. A chart key resolves either to the index column, and only when
    the key is ['#'] up to a table prefix, or to one of the result columns
    that passes one of the three tests; and a key other than the index
    column that no column matches stays unresolved. *)
Theorem resolved_column_is_a_match :
  forall (key : string) (available_cols : list string),
    (forall c,
        resolve_column key available_cols = Some c ->
        (c = "#" /\ normalized key = "#")
        \/ (In c available_cols /\ column_matches key c = true))
    /\ (normalized key <> "#" ->
        (forall col, In col available_cols ->
                     column_matches key col = false) ->
        resolve_column key available_cols = None).
Proof.
  intros key cols; split.
  - intros c H; unfold resolve_column in H; cbv zeta in H.
    apply fold_match_step_result in H as [H|H]; [| now right].
    left.
    destruct (String.eqb_spec key "#") as [->|_]; simpl in H.
    + injection H as <-; auto.
    + destruct (String.eqb_spec (normalized key) "#") as [Hn|_];
        [| discriminate H].
      injection H as <-; auto.
  - intros Hkey Hnone; unfold resolve_column; cbv zeta.
    destruct (String.eqb_spec key "#") as [->|_]; [now elim Hkey|].
    destruct (String.eqb_spec (normalized key) "#") as [Hn|_];
      [contradiction|].
    simpl orb; cbv iota.
    destruct (fold_left _ cols None) as [c|] eqn:Hf; [| reflexivity].
    apply fold_match_step_result in Hf as [Hf|[Hin Hm]]; [discriminate Hf|].
    rewrite (Hnone c Hin) in Hm; discriminate Hm.
Qed.

(** The statement at a key found without regard to case, and at a key
    found nowhere. *)
Lemma resolved_column_is_a_match_witness :
  ((("STATUS" = "#" /\ normalized "t.status" = "#")
    \/ (In "STATUS" ["id"; "STATUS"; "#"]
        /\ column_matches "t.status" "STATUS" = true)))
  /\ resolve_column "owner" ["id"; "STATUS"; "#"] = None.
Proof.
  destruct (resolved_column_is_a_match "t.status" ["id"; "STATUS"; "#"])
    as [Hsome _].
  destruct (resolved_column_is_a_match "owner" ["id"; "STATUS"; "#"])
    as [_ Hnone].
  split.
  - apply Hsome; reflexivity.
  - apply Hnone; [discriminate|].
    intros col Hin; simpl in Hin.
    repeat (destruct Hin as [<-|Hin]; [reflexivity|]); contradiction.
Defined.

Lemma find_column_matches (key : string) (cols : list string) :
  find (column_matches key) cols
  = find (fun col => String.eqb (normalized col) (normalized key)) cols.
Proof.
  induction cols as [|col rest IH]; simpl; [reflexivity|].
  rewrite column_matches_normalized.
  now destruct (String.eqb (normalized col) (normalized key)).
Qed.

Lemma nodup_map_inj {A B} (f : A -> B) (l : list A) :
  NoDup (map f l) ->
  forall a b, In a l -> In b l -> f a = f b -> a = b.
Proof.
  induction l as [|x l IH]; simpl; intros Hnd a b Ha Hb Hf; [contradiction|].
  inversion Hnd as [|? ? Hx Hrest]; subst.
  destruct Ha as [<-|Ha], Hb as [<-|Hb]; auto.
  - exfalso; apply Hx; rewrite Hf; now apply in_map.
  - exfalso; apply Hx; rewrite <- Hf; now apply in_map.
Qed.

(** X9. When no two result columns have the same normalized name and none
    is the empty string, the loop resolves a key other than the index
    column to the same column as the strategies taken in priority order
    over the whole list: exact, then after the last dot without case, then
    whole name without case. *)
Theorem resolve_column_agrees_with_priority :
  forall (key : string) (available_cols : list string),
    normalized key <> "#" ->
    ~ In "" available_cols ->
    NoDup (map normalized available_cols) ->
    resolve_column key available_cols
    = resolve_by_priority key available_cols.
Proof.
  intros key cols Hkey Hne Hnd.
  assert (Hloop : resolve_column key cols = find (column_matches key) cols).
  { unfold resolve_column; cbv zeta.
    destruct (String.eqb_spec key "#") as [->|_]; [now elim Hkey|].
    destruct (String.eqb_spec (normalized key) "#"); [contradiction|].
    now apply fold_match_step_find. }
  rewrite Hloop; unfold resolve_by_priority.
  pose proof (find_column_matches key cols) as Hsame.
  rewrite Hsame.
  destruct (find (fun col => String.eqb col key) cols) as [c|] eqn:Hexact.
  - apply find_some in Hexact as [Hin Heq].
    apply String.eqb_eq in Heq; subst c.
    destruct (find (fun col => String.eqb (normalized col) (normalized key))
                cols) as [c'|] eqn:Hb.
    + apply find_some in Hb as [Hin' Heq'].
      apply String.eqb_eq in Heq'.
      f_equal; exact (nodup_map_inj normalized cols Hnd c' key Hin' Hin Heq').
    + pose proof (find_none _ _ Hb key Hin) as Hf; simpl in Hf.
      rewrite String.eqb_refl in Hf; discriminate Hf.
  - destruct (find (fun col => String.eqb (normalized col) (normalized key))
                cols) as [c'|] eqn:Hb; [reflexivity|].
    destruct (find (fun col => String.eqb (lower col) (lower key)) cols)
      as [c|] eqn:Hc; [| reflexivity].
    apply find_some in Hc as [Hin Heq]; apply String.eqb_eq in Heq.
    pose proof (find_none _ _ Hb c Hin) as Hf; simpl in Hf.
    rewrite (lower_eq_normalized c key Heq), String.eqb_refl in Hf.
    discriminate Hf.
Qed.

(** The statement at distinct bare names, a key with a table prefix. *)
Lemma resolve_column_agrees_with_priority_witness :
  resolve_column "Orders.Total" ["id"; "name"; "total"; "#"]
  = resolve_by_priority "Orders.Total" ["id"; "name"; "total"; "#"].
Proof.
  apply resolve_column_agrees_with_priority.
  - discriminate.
  - simpl; intros H; repeat (destruct H as [H|H]; [discriminate H|]); exact H.
  - repeat constructor; simpl; intros H;
      repeat (destruct H as [H|H]; [discriminate H|]); exact H.
Defined.

(* ================================================================= *)
(** ** Chart series: totals and empty series *)

Lemma counter_add_total (x : string) (d : pydict nat) :
  list_sum (dict_values (counter_add x d)) = S (list_sum (dict_values d))
  /\ (Forall (fun n => 1 <= n)%nat (dict_values d) ->
      Forall (fun n => 1 <= n)%nat (dict_values (counter_add x d))).
Proof.
  unfold dict_values; induction d as [|[k n] r [IHs IHf]]; simpl.
  - split; [reflexivity | repeat constructor].
  - destruct (String.eqb k x); simpl.
    + split; [reflexivity|].
      intros H; inversion H; subst; constructor; [lia | assumption].
    + rewrite IHs; split; [lia|].
      intros H; inversion H; subst; constructor; auto.
Qed.

Lemma counter_total (xs : list string) :
  forall d,
    list_sum (dict_values (fold_left counter_step xs d))
    = (list_sum (dict_values d) + length xs)%nat
    /\ (Forall (fun n => 1 <= n)%nat (dict_values d) ->
        Forall (fun n => 1 <= n)%nat
          (dict_values (fold_left counter_step xs d))).
Proof.
  induction xs as [|x rest IH]; intros d; simpl.
  - split; [lia | auto].
  - destruct (IH (counter_step d x)) as [IHs IHf].
    destruct (counter_add_total x d) as [Hs Hf].
    unfold counter_step in *; rewrite IHs, Hs; split; [lia | auto].
Qed.

Lemma column_texts_length (col : string) :
  forall data_rows_dict texts,
    column_texts col data_rows_dict = Ok texts ->
    (length texts <= length data_rows_dict)%nat.
Proof.
  induction data_rows_dict as [|row rest IH]; intros texts H;
    cbn [column_texts] in H.
  - injection H as <-; simpl; lia.
  - destruct (get_not_none col row) as [v|].
    + destruct (py_str v); [| discriminate H]; cbn [bind] in H.
      destruct (column_texts col rest) as [others|]; [| discriminate H].
      cbn [bind] in H; injection H as <-.
      specialize (IH others eq_refl); simpl; lia.
    + specialize (IH texts H); simpl; lia.
Qed.

(** X10. In a count aggregation every count is at least 1 and the counts
    add up to the number of rows whose x cell is not null, which is at most
    the number of rows: no row is counted twice and none is lost. *)
Theorem count_series_adds_up :
  forall (x_col : string) (chart_type : json)
         (data_rows_dict : list (pydict db_value)) (texts : list string),
    column_texts x_col data_rows_dict = Ok texts ->
    exists counts,
      series x_col "#" chart_type data_rows_dict
      = Ok (first_seen texts, map (fun n => NumInt (Z.of_nat n)) counts)
      /\ list_sum counts = length texts
      /\ Forall (fun n => 1 <= n)%nat counts
      /\ (length texts <= length data_rows_dict)%nat.
Proof.
  intros x_col chart_type rows texts Htexts.
  exists (dict_values (Counter texts)).
  destruct (counter_total texts []) as [Hsum Hpos].
  split; [| split; [exact Hsum | split]].
  - unfold series; simpl; rewrite Htexts; simpl.
    unfold count_series; cbv zeta.
    now destruct (Counter_spec texts) as (-> & _ & _).
  - apply Hpos; constructor.
  - now apply (column_texts_length x_col).
Qed.

(** The statement on four rows, one with a null status. *)
Lemma count_series_adds_up_witness :
  exists counts,
    series "status" "#" (JString "bar")
      [[("status", VStr "open")]; [("status", VNone)];
       [("status", VStr "closed")]; [("status", VStr "open")]]
    = Ok (first_seen ["open"; "closed"; "open"],
          map (fun n => NumInt (Z.of_nat n)) counts)
    /\ list_sum counts = 3%nat
    /\ Forall (fun n => 1 <= n)%nat counts
    /\ (3 <= 4)%nat.
Proof.
  apply (count_series_adds_up "status" (JString "bar")
           [[("status", VStr "open")]; [("status", VNone)];
            [("status", VStr "closed")]; [("status", VStr "open")]]
           ["open"; "closed"; "open"] eq_refl).
Defined.

Lemma unconvertible_raises (v : db_value) :
  unconvertible v = true ->
  exists e, py_float v = Raise e
            /\ caught_by [ValueError; TypeError] e = true
            /\ y_number v = Raise e.
Proof.
  destruct v; simpl; try discriminate.
  - destruct (parse_float s); [discriminate|].
    intros _; eexists; repeat split.
  - intros _; eexists; repeat split.
  - intros _; eexists; repeat split.
Qed.

Lemma numeric_series_nothing (x_col y_col : string) :
  forall data_rows_dict ls vs,
    forallb (no_number_in y_col) data_rows_dict = true ->
    numeric_series x_col y_col data_rows_dict ls vs = Ok (ls, vs).
Proof.
  induction data_rows_dict as [|row rest IH]; intros ls vs Hall;
    cbn [numeric_series]; [reflexivity|].
  cbn [forallb] in Hall; apply andb_true_iff in Hall as [Hrow Hrest].
  unfold no_number_in in Hrow.
  destruct (get_not_none x_col row) as [x_val|]; [| now apply IH].
  destruct (get_not_none y_col row) as [y_val|]; [| now apply IH].
  destruct (unconvertible_raises y_val Hrow) as (e & _ & Hcaught & Hnum).
  unfold numeric_point; rewrite Hnum; cbn [bind]; rewrite Hcaught.
  now apply IH.
Qed.

Lemma sample_unconvertible (y_col : string) :
  forall data_rows_dict,
    forallb (no_number_in y_col) data_rows_dict = true ->
    Forall (fun v => unconvertible v = true)
      (sample_y_vals y_col data_rows_dict).
Proof.
  intros rows Hall; unfold sample_y_vals.
  assert (Hfirst : forallb (no_number_in y_col) (firstn 10 rows) = true).
  { apply forallb_forall, Forall_forall, Forall_prefix.
    now apply Forall_forall, forallb_forall. }
  revert Hfirst; generalize (firstn 10 rows); intros l.
  induction l as [|row rest IH]; simpl; intros H; [constructor|].
  apply andb_true_iff in H as [Hrow Hrest].
  unfold no_number_in in Hrow.
  destruct (get_not_none y_col row); simpl; auto.
Qed.

(** X11. When the y column is not the index column, the chart type is not
    [pie] and no row has a y cell that converts to a number (each is null,
    text that is not a number, or a date), the series is empty; and the
    binding then produces no chart dataset. *)
Theorem unconvertible_y_gives_no_chart :
  forall (cfg : chart_config) (x_col y_col : string) (chart_type : json)
         (data_rows_dict : list (pydict db_value)),
    String.eqb y_col "#" = false ->
    is_pie chart_type = false ->
    forallb (no_number_in y_col) data_rows_dict = true ->
    series x_col y_col chart_type data_rows_dict = Ok ([], [])
    /\ (let available_cols :=
          match data_rows_dict with
          | first :: _ => dict_keys first
          | [] => []
          end in
        resolve_column (strip (key_text (xKey cfg))) available_cols
        = Some x_col ->
        resolve_column (strip (key_text (yKey cfg))) available_cols
        = Some y_col ->
        chart_type_field cfg = Some chart_type ->
        chart_body cfg data_rows_dict = Ok None).
Proof.
  intros cfg x_col y_col chart_type rows Hy Hpie Hall.
  assert (Hseries : series x_col y_col chart_type rows = Ok ([], [])).
  { unfold series; rewrite Hy.
    pose proof (sample_unconvertible y_col rows Hall) as Hsample.
    destruct (sample_y_vals y_col rows) as [|first others];
      cbn [is_y_numeric bind].
    - rewrite Hpie; simpl; now apply numeric_series_nothing.
    - inversion Hsample as [|? ? Hfirst _]; subst.
      destruct (unconvertible_raises first Hfirst) as (e & -> & -> & _).
      cbn [bind]; rewrite Hpie; simpl; now apply numeric_series_nothing. }
  split; [exact Hseries|].
  cbv zeta; intros Hx Hyc Htype.
  unfold chart_body; cbv zeta.
  unfold key_text in Hx, Hyc; rewrite Hx, Hyc, Htype, Hseries.
  destruct (negb (truthy (Some x_col)) || negb (truthy (Some y_col)));
    reflexivity.
Qed.

(** The statement on a bar chart of a status column. *)
Lemma unconvertible_y_gives_no_chart_witness :
  chart_body
    (ChartConfig (Some "team") (Some "status") (Some (JString "bar")))
    [[("team", VStr "a"); ("status", VStr "open"); ("#", VStr "1")];
     [("team", VStr "b"); ("status", VNone); ("#", VStr "2")]]
  = Ok None.
Proof.
  destruct (unconvertible_y_gives_no_chart
              (ChartConfig (Some "team") (Some "status")
                 (Some (JString "bar")))
              "team" "status" (JString "bar")
              [[("team", VStr "a"); ("status", VStr "open"); ("#", VStr "1")];
               [("team", VStr "b"); ("status", VNone); ("#", VStr "2")]]
              eq_refl eq_refl eq_refl) as [_ Hbody].
  apply Hbody; reflexivity.
Defined.

(* ================================================================= *)
(** ** Export log *)

(** X12. The pagination block of the export list is consistent for every
    requested limit and page: the limit is brought into 1..200 and the
    page to at least 1, the offset is the number of rows on the pages
    before, [totalPages] pages are exactly enough to hold [total] rows,
    [hasNext] holds exactly when the page is before the last one and
    [hasPrev] exactly when it is after the first. *)
Theorem pagination_is_consistent :
  forall (limit page total_count : Z),
    (0 <= total_count)%Z ->
    let offset := fst (paginate limit page total_count) in
    let p := snd (paginate limit page total_count) in
    (1 <= pg_limit p <= 200)%Z
    /\ (1 <= pg_page p)%Z
    /\ ((1 <= limit <= 200)%Z -> pg_limit p = limit)
    /\ ((1 <= page)%Z -> pg_page p = page)
    /\ offset = ((pg_page p - 1) * pg_limit p)%Z
    /\ (0 <= offset)%Z
    /\ (0 <= pg_totalPages p)%Z
    /\ (((pg_totalPages p - 1) * pg_limit p < total_count
         <= pg_totalPages p * pg_limit p)%Z
        \/ (total_count = 0 /\ pg_totalPages p = 0)%Z)
    /\ (pg_hasNext p = true <-> (pg_page p < pg_totalPages p)%Z)
    /\ (pg_hasPrev p = true <-> (1 < pg_page p)%Z).
Proof.
  intros limit page total Htotal; cbv zeta; unfold paginate; cbv zeta.
  cbn [fst snd pg_limit pg_page pg_totalPages pg_hasNext pg_hasPrev].
  set (L := Z.max 1 (Z.min 200 limit)).
  set (P := Z.max 1 page).
  assert (HL : (1 <= L <= 200)%Z) by (subst L; lia).
  assert (HP : (1 <= P)%Z) by (subst P; lia).
  pose proof (Z.div_mod (total + L - 1) L ltac:(lia)) as Hdiv.
  pose proof (Z.mod_pos_bound (total + L - 1) L ltac:(lia)) as Hmod.
  set (T := ((total + L - 1) / L)%Z) in *.
  set (R := ((total + L - 1) mod L)%Z) in *.
  assert (HT : (0 <= T)%Z) by nia.
  repeat split; try (subst L P; lia); nia.
Qed.

(** The statement at page 3 of 45 rows taken 20 at a time. *)
Lemma pagination_is_consistent_witness :
  pg_hasNext (snd (paginate 20 3 45)) = true
  <-> (pg_page (snd (paginate 20 3 45))
       < pg_totalPages (snd (paginate 20 3 45)))%Z.
Proof.
  destruct (pagination_is_consistent 20 3 45 ltac:(lia))
    as (_ & _ & _ & _ & _ & _ & _ & _ & Hnext & _).
  exact Hnext.
Defined.

(** X13. Whatever the search text and the type and dashboard parameters,
    the WHERE clause of the export list is one of eight fixed texts: the
    search text is never part of the SQL and only travels as a parameter.
    The clause has as many [?] as there are parameters, and when a type
    parameter is given the dashboard parameter makes no difference. *)
Theorem search_clause_is_fixed_text :
  forall (search : string) (type_filter dashboard_filter : option string),
    let conditions :=
      fst (search_conditions search type_filter dashboard_filter) in
    let params :=
      snd (search_conditions search type_filter dashboard_filter) in
    In (search_condition conditions) search_clauses
    /\ count_char "?" (search_condition conditions) = length params
    /\ (truthy type_filter = true ->
        search_conditions search type_filter dashboard_filter
        = search_conditions search type_filter None).
Proof.
  intros search type_filter dashboard_filter; cbv zeta.
  unfold search_conditions; cbv zeta.
  split; [| split].
  - destruct (negb (String.eqb search "")
              && negb (String.eqb (strip search) ""));
      destruct (truthy type_filter);
      repeat match goal with
             | |- context [if ?b then _ else _] => destruct b
             end;
      cbn [fst snd app search_condition is_empty join String.concat];
      unfold search_clauses; simpl; auto 12.
  - destruct (negb (String.eqb search "")
              && negb (String.eqb (strip search) ""));
      destruct (truthy type_filter);
      repeat match goal with
             | |- context [if ?b then _ else _] => destruct b
             end;
      reflexivity.
  - intros ->; reflexivity.
Qed.

(** The statement at a search for a title with a type filter. *)
Lemma search_clause_is_fixed_text_witness :
  search_conditions "x' OR 1=1 --" (Some "Dashboard") (Some "risks")
  = search_conditions "x' OR 1=1 --" (Some "Dashboard") None.
Proof.
  destruct (search_clause_is_fixed_text "x' OR 1=1 --" (Some "Dashboard")
              (Some "risks")) as (_ & _ & Htype).
  apply Htype; reflexivity.
Defined.

Lemma lstrip_head (s : string) : opt_isspace (head_char (lstrip s)) = false.
Proof.
  induction s as [|c r IH]; simpl; [reflexivity|].
  destruct (py_isspace c) eqn:E; [exact IH | simpl; exact E].
Qed.

Lemma rstrip_last (s : string) :
  opt_isspace (last_char None (rstrip s)) = false.
Proof.
  induction s as [|c r IH]; simpl; [reflexivity|].
  destruct (rstrip r) as [|d r'] eqn:E.
  - destruct (py_isspace c) eqn:Ec; simpl; [reflexivity | exact Ec].
  - exact IH.
Qed.

Lemma rstrip_head (s : string) :
  opt_isspace (head_char s) = false ->
  opt_isspace (head_char (rstrip s)) = false.
Proof.
  destruct s as [|c r]; simpl; [reflexivity|].
  intros Hc; destruct (rstrip r); [rewrite Hc|]; simpl; exact Hc.
Qed.

(** [strip] leaves no blank at either end. *)
Lemma strip_trimmed (s : string) : trimmed (strip s) = true.
Proof.
  unfold trimmed, strip.
  now rewrite rstrip_head, rstrip_last by apply lstrip_head.
Qed.

Lemma or_default_trimmed (x default : string) :
  trimmed x = true -> trimmed default = true -> default <> "" ->
  trimmed (or_default x default) = true /\ or_default x default <> "".
Proof.
  unfold or_default; intros Hx Hd Hne.
  destruct (String.eqb_spec x ""); auto.
Qed.

Lemma stripped_or_empty_text (v : option string) :
  stripped_or_empty v = strip (key_text v).
Proof.
  unfold stripped_or_empty, truthy, key_text.
  destruct v as [t|]; [| reflexivity].
  now destruct (String.eqb_spec t "") as [->|_].
Qed.

Lemma lower_empty (t : string) : lower t = "" <-> t = "".
Proof. destruct t; simpl; split; intros H; try reflexivity; discriminate H. Qed.

(** X14. What is logged for an export, field by field: the title, the
    dashboard and the author are the given texts without the blanks around
    them, or "Untitled Report", "general" and "System" when nothing is
    left; the format is the given text without the blanks around it and in
    lower case, or "unknown"; the source is the given text without the
    blanks around it; the type is "dashboard" exactly for the dashboards
    incidents, kris, risks and controls in any letter case, and
    "transaction" otherwise.  So title, format, dashboard and author are
    never empty, and title, source, dashboard and author carry no blank at
    either end. *)
Theorem logged_export_is_normalised :
  forall (title src fmt dashboard created_by : option string),
    let e := log_entry_of_body title src fmt dashboard created_by in
    let given v := strip (key_text v) in
    let or_if_empty text default :=
      if String.eqb text "" then default else text in
    log_title e = or_if_empty (given title) "Untitled Report"
    /\ log_src e = given src
    /\ log_format e
       = (if String.eqb (given fmt) "" then "unknown"
          else lower (given fmt))
    /\ log_dashboard e = or_if_empty (given dashboard) "general"
    /\ log_created_by e = or_if_empty (given created_by) "System"
    /\ log_type e
       = (if existsb (String.eqb (lower (log_dashboard e)))
               ["incidents"; "kris"; "risks"; "controls"]
          then "dashboard" else "transaction")
    /\ log_title e <> "" /\ log_format e <> "" /\ log_dashboard e <> ""
    /\ log_created_by e <> ""
    /\ trimmed (log_title e) = true /\ trimmed (log_src e) = true
    /\ trimmed (log_dashboard e) = true /\ trimmed (log_created_by e) = true
    /\ lower (log_format e) = log_format e
    /\ (log_type e = "dashboard"
        <-> In (lower (log_dashboard e))
              ["incidents"; "kris"; "risks"; "controls"]).
Proof.
  intros title src fmt dashboard created_by; cbv zeta.
  unfold log_entry_of_body; cbv zeta.
  cbn [log_title log_src log_format log_dashboard log_type log_created_by].
  rewrite !stripped_or_empty_text.
  destruct (or_default_trimmed (strip (key_text title)) "Untitled Report"
              (strip_trimmed _) eq_refl ltac:(discriminate)) as [Ht1 Ht2].
  destruct (or_default_trimmed (strip (key_text dashboard)) "general"
              (strip_trimmed _) eq_refl ltac:(discriminate)) as [Hd1 Hd2].
  destruct (or_default_trimmed (strip (key_text created_by)) "System"
              (strip_trimmed _) eq_refl ltac:(discriminate)) as [Hc1 Hc2].
  fold (or_default (strip (key_text title)) "Untitled Report").
  fold (or_default (strip (key_text dashboard)) "general").
  fold (or_default (strip (key_text created_by)) "System").
  set (d := or_default (strip (key_text dashboard)) "general") in *.
  assert (Hd : String.eqb d "" = false)
    by (destruct (String.eqb_spec d ""); congruence).
  rewrite Hd; cbn [negb andb].
  assert (Hfmt : or_default (lower (strip (key_text fmt))) "unknown"
                 = if String.eqb (strip (key_text fmt)) "" then "unknown"
                   else lower (strip (key_text fmt))).
  { unfold or_default.
    destruct (String.eqb_spec (strip (key_text fmt)) "") as [->|Hne];
      [reflexivity|].
    destruct (String.eqb_spec (lower (strip (key_text fmt))) "") as [He|_];
      [| reflexivity].
    destruct (lower_empty (strip (key_text fmt))) as [Hl _].
    elim Hne; exact (Hl He). }
  rewrite Hfmt.
  repeat split; auto.
  - destruct (String.eqb_spec (strip (key_text fmt)) "") as [_|Hne];
      [discriminate|].
    intros He; destruct (lower_empty (strip (key_text fmt))) as [Hl _].
    exact (Hne (Hl He)).
  - apply strip_trimmed.
  - destruct (String.eqb (strip (key_text fmt)) "");
      [reflexivity | apply lower_idem].
  - destruct (existsb _ _) eqn:E; [| discriminate].
    intros _; apply existsb_exists in E as (x & Hin & Heq).
    apply String.eqb_eq in Heq; now rewrite Heq.
  - intros Hin.
    replace (existsb (String.eqb (lower d))
               ["incidents"; "kris"; "risks"; "controls"]) with true;
      [reflexivity|].
    symmetry; apply existsb_exists; exists (lower d); split;
      [exact Hin | apply String.eqb_refl].
Qed.

(** The statement at a body that only gives a padded dashboard name. *)
Lemma logged_export_is_normalised_witness :
  log_type (log_entry_of_body None None None (Some "  Risks ") None)
  = "dashboard".
Proof.
  destruct (logged_export_is_normalised None None None (Some "  Risks ")
              None)
    as (_ & _ & _ & _ & _ & _ & _ & _ & _ & _ & _ & _ & _ & _ & _ & Htype).
  apply Htype; simpl; tauto.
Defined.

Lemma resolve_format_in (body_format : option json) :
  In (resolve_format body_format) ["excel"; "pdf"; "word"].
Proof.
  destruct body_format as [[| u | | | |]|]; try (simpl; now auto).
  rewrite resolve_format_of_text; cbv zeta.
  repeat match goal with
         | |- context [if ?b then _ else _] => destruct b
         end; simpl; auto.
Qed.

(** X15. Every export request reaches a renderer: whatever the format
    field holds, the resolved format has a renderer and a file extension
    among xlsx, docx and pdf, so the "Unsupported format" branch is never
    taken; the media type of the response is never the octet-stream
    fallback, and the download endpoint serves a file stored under that
    extension, in any letter case, with the same media type. *)
Theorem export_always_has_a_renderer :
  forall (body_format : option json),
    exists renderer file_extension,
      renderer_of_format (resolve_format body_format)
      = Some (renderer, file_extension)
      /\ In file_extension ["xlsx"; "docx"; "pdf"]
      /\ export_media_type file_extension <> "application/octet-stream"
      /\ download_media_type (Some file_extension)
         = export_media_type file_extension
      /\ download_media_type (Some (upper file_extension))
         = export_media_type file_extension.
Proof.
  intros body_format.
  pose proof (resolve_format_in body_format) as Hin; simpl in Hin.
  destruct Hin as [<-|[<-|[<-|[]]]].
  - exists "generate_excel_report", "xlsx"; repeat split;
      [simpl; auto | discriminate].
  - exists "generate_pdf_report", "pdf"; repeat split;
      [simpl; auto | discriminate].
  - exists "generate_word_report", "docx"; repeat split;
      [simpl; auto | discriminate].
Qed.

(* ================================================================= *)
(** ** Substrings *)

Lemma substring_in_spec (p s : string) :
  substring_in p s = true <-> exists pre post, s = pre ++ p ++ post.
Proof.
  induction s as [|c r IH]; cbn [substring_in].
  - rewrite orb_false_r, prefix_split; split.
    + intros [t Ht]; now exists "", t.
    + intros (pre & post & H).
      symmetry in H; apply string_app_nil_inv in H as [-> H].
      exists post; now rewrite H.
  - rewrite orb_true_iff, prefix_split, IH; split.
    + intros [[t Ht]|(pre & post & Hr)].
      * now exists "", t.
      * exists (String c pre), post; simpl; now rewrite Hr.
    + intros (pre & post & H).
      destruct pre as [|c' pre]; simpl in H.
      * left; now exists post.
      * right; injection H as _ Hr; now exists pre, post.
Qed.

Lemma string_app_assoc (a b c : string) : (a ++ b) ++ c = a ++ (b ++ c).
Proof. induction a as [|x a IH]; simpl; [reflexivity | now rewrite IH]. Qed.

Lemma substring_in_trans (a b c : string) :
  substring_in a b = true -> substring_in b c = true ->
  substring_in a c = true.
Proof.
  rewrite !substring_in_spec.
  intros (p1 & q1 & ->) (p2 & q2 & ->).
  exists (p2 ++ p1), (q1 ++ q2).
  now rewrite !string_app_assoc.
Qed.

Lemma map_string_app (f : ascii -> ascii) (a b : string) :
  map_string f (a ++ b) = map_string f a ++ map_string f b.
Proof. induction a as [|x a IH]; simpl; [reflexivity | now rewrite IH]. Qed.

Lemma prefix_replace_back (a b : ascii) (p : string) :
  contains_char b p = false ->
  forall s, String.prefix p (replace_char a b s) = true ->
            String.prefix p s = true.
Proof.
  induction p as [|c p IH]; intros Hp s H; [now destruct s|].
  simpl in Hp; apply orb_false_iff in Hp as [Hc Hp].
  destruct s as [|x s]; simpl in H |- *; [exact H|].
  destruct (ascii_dec c (if Ascii.eqb x a then b else x)) as [Heq|Hne];
    [| discriminate H].
  destruct (Ascii.eqb x a).
  - subst c; rewrite Ascii.eqb_refl in Hc; discriminate Hc.
  - subst c; destruct (ascii_dec x x); [| congruence].
    now apply IH.
Qed.

Lemma substring_replace_back (a b : ascii) (p s : string) :
  contains_char b p = false ->
  substring_in p (replace_char a b s) = true -> substring_in p s = true.
Proof.
  intros Hp; induction s as [|x s IH]; cbn [substring_in replace_char
                                            map_string]; intros H.
  - exact H.
  - apply orb_true_iff in H as [H|H]; apply orb_true_iff.
    + left; exact (prefix_replace_back a b p Hp (String x s) H).
    + right; now apply IH.
Qed.

Lemma substring_replace (a b : ascii) (p s : string) :
  replace_char a b p = p ->
  substring_in p s = true -> substring_in p (replace_char a b s) = true.
Proof.
  intros Hp; rewrite !substring_in_spec; intros (pre & post & ->).
  exists (replace_char a b pre), (replace_char a b post).
  unfold replace_char in *; now rewrite !map_string_app, Hp.
Qed.

(** Turning [_] and [-] into blanks neither adds nor removes an
    occurrence of ["admin"]. *)
Lemma admin_in_group_lower (g : string) :
  substring_in "admin" (group_lower_of g) = substring_in "admin" (lower g).
Proof.
  unfold group_lower_of.
  destruct (substring_in "admin" (lower g)) eqn:E.
  - now do 2 (apply substring_replace; [reflexivity|]).
  - destruct (substring_in "admin" (replace_char "-" " " _)) eqn:E';
      [| reflexivity].
    do 2 (apply substring_replace_back in E'; [| reflexivity]).
    congruence.
Qed.

(* ================================================================= *)
(** ** Super admin groups and the function filter of the risk exports *)

(** X16. A group makes its user a super admin exactly when its name is not
    empty and either holds "admin" in any letter case, or, once in lower
    case with [_] and [-] turned into blanks, occurs inside "super admin",
    "superadmin" or "super_admin" (so "Super" and "a" do, too).  For such a
    group the user's functions are not looked up and the access is that
    of a super admin with no function list; with no group at all nobody is
    a super admin. *)
Theorem super_admin_groups :
  forall (db_answer : outcome (list id_cell)) (user_id : option string)
         (g : string),
    (is_super_admin_group (Some g) = true
     <-> g <> ""
         /\ (substring_in "admin" (lower g) = true
             \/ substring_in (group_lower_of g) "super admin" = true
             \/ substring_in (group_lower_of g) "superadmin" = true
             \/ substring_in (group_lower_of g) "super_admin" = true))
    /\ (is_super_admin_group (Some g) = true ->
        get_user_function_access db_answer user_id (Some g)
        = (false, UserFunctionAccessService.Build_UserFunctionAccess true []))
    /\ is_super_admin_group None = false.
Proof.
  intros db_answer user_id g.
  split; [| split; [| reflexivity]].
  - unfold is_super_admin_group; cbn [truthy key_text].
    destruct (String.eqb_spec g "") as [->|Hne]; cbn [negb].
    + split; [discriminate | intros [H _]; congruence].
    + cbv zeta; unfold SUPER_ADMIN_GROUPS; cbn [existsb].
      rewrite !orb_true_iff, admin_in_group_lower.
      set (gl := group_lower_of g).
      split.
      * intros H; split; [exact Hne|].
        destruct H as [[H|H]|[[H|H]|[[H|H]|[[H|H]|H]]]]; auto.
        -- left; rewrite <- admin_in_group_lower; fold gl.
           exact (substring_in_trans "admin" "super admin" gl eq_refl H).
        -- left; rewrite <- admin_in_group_lower; fold gl.
           exact (substring_in_trans "admin" "superadmin" gl eq_refl H).
        -- left; rewrite <- admin_in_group_lower; fold gl.
           exact (substring_in_trans "admin" "super_admin" gl eq_refl H).
        -- right; left.
           exact (substring_in_trans gl "admin" "super admin" H eq_refl).
        -- discriminate H.
      * intros [_ [H|[H|[H|H]]]]; auto 10.
  - intros H; unfold get_user_function_access; now rewrite H.
Qed.

(** The statement at the groups "IT-Administrators" and "Super". *)
Lemma super_admin_groups_witness :
  is_super_admin_group (Some "IT-Administrators") = true
  /\ get_user_function_access (Ok [IdInt 3]) (Some "u1") (Some "Super")
     = (false, UserFunctionAccessService.Build_UserFunctionAccess true []).
Proof.
  destruct (super_admin_groups (Ok [IdInt 3]) (Some "u1") "IT-Administrators")
    as ([_ Hback] & _ & _).
  destruct (super_admin_groups (Ok [IdInt 3]) (Some "u1") "Super")
    as ([_ Hback'] & Hget & _).
  split.
  - apply Hback; split; [discriminate | left; reflexivity].
  - apply Hget, Hback'; split; [discriminate | right; left; reflexivity].
Defined.

Lemma risk_filter_not_admin (db_answer : outcome (list id_cell))
    (u : request_user) (functionId : option string) :
  truthy (user_id_field u) = true ->
  is_super_admin_group (user_groupName u) = false ->
  risk_function_filter db_answer (Some u) functionId
  = UserFunctionAccessService.build_risk_function_filter "r"
      (UserFunctionAccessService.Build_UserFunctionAccess false
         (map id_str (filter id_truthy (execute_query db_answer))))
      functionId.
Proof.
  intros Hid Hgrp; unfold risk_function_filter, get_user_function_access.
  now rewrite Hid, Hgrp.
Qed.

(** X17. The function filter of a risk export: a request with no
    identified user is treated as a super admin, so it is unfiltered
    unless it selects a function; an identified user outside the super
    admin groups is never unfiltered; when the lookup of that user's
    functions fails, or the user selects a function that is not among
    theirs, the filter denies everything. *)
Theorem risk_filter_by_user :
  forall (db_answer : outcome (list id_cell)) (u : request_user)
         (functionId : option string),
    (truthy functionId = false ->
     risk_function_filter db_answer None functionId = "")
    /\ (truthy (user_id_field u) = false ->
        risk_function_filter db_answer (Some u) functionId
        = risk_function_filter db_answer None functionId)
    /\ (truthy (user_id_field u) = true ->
        is_super_admin_group (user_groupName u) = false ->
        risk_function_filter db_answer (Some u) functionId <> ""
        /\ ((exists e, db_answer = Raise e) ->
            risk_function_filter db_answer (Some u) functionId
            = " AND 1 = 0")
        /\ (forall f rows,
               functionId = Some f -> f <> "" -> db_answer = Ok rows ->
               ~ In f (map id_str (filter id_truthy rows)) ->
               risk_function_filter db_answer (Some u) functionId
               = " AND 1 = 0")).
Proof.
  intros db_answer u functionId.
  split; [| split].
  - intros Hsel; unfold risk_function_filter; simpl.
    unfold UserFunctionAccessService.build_risk_function_filter.
    now rewrite Hsel.
  - intros Hid; unfold risk_function_filter; now rewrite Hid.
  - intros Hid Hgrp.
    rewrite (risk_filter_not_admin db_answer u functionId Hid Hgrp).
    unfold UserFunctionAccessService.build_risk_function_filter.
    cbn [UserFunctionAccessService.is_super_admin
         UserFunctionAccessService.function_ids negb andb].
    split; [| split].
    + destruct (truthy functionId).
      * destruct (negb _); discriminate.
      * destruct (is_empty _); discriminate.
    + intros [e ->]; cbn [execute_query filter map].
      destruct (truthy functionId); reflexivity.
    + intros f rows -> Hf -> Hnot; cbn [execute_query].
      assert (Htruthy : truthy (Some f) = true) by (now apply truthy_some).
      rewrite Htruthy; cbn [UserFunctionAccessService.selected].
      replace (UserFunctionAccessService.str_in f
                 (map id_str (filter id_truthy rows))) with false;
        [reflexivity|].
      symmetry; unfold UserFunctionAccessService.str_in.
      destruct (existsb _ _) eqn:E; [| reflexivity].
      apply existsb_eqb_In in E; contradiction.
Qed.

(** The statement at an auditor whose lookup fails. *)
Lemma risk_filter_by_user_witness :
  risk_function_filter (raise DriverError "connection lost")
    (Some (RequestUser (Some "u7") (Some "Auditors") None None)) (Some "12")
  = " AND 1 = 0".
Proof.
  destruct (risk_filter_by_user (raise DriverError "connection lost")
              (RequestUser (Some "u7") (Some "Auditors") None None)
              (Some "12")) as (_ & _ & Huser).
  destruct (Huser eq_refl eq_refl) as (_ & Hfail & _).
  apply Hfail; eexists; reflexivity.
Defined.

(* ================================================================= *)
(** ** Saved charts *)

Lemma take_length (n : nat) (s : string) :
  (String.length (take n s) <= n)%nat.
Proof.
  revert s; induction n as [|n IH]; intros [|c r]; simpl; try lia.
  specialize (IH r); lia.
Qed.

Lemma take_all (n : nat) (s : string) :
  (String.length s <= n)%nat -> take n s = s.
Proof.
  revert s; induction n as [|n IH]; intros [|c r]; simpl; intros H;
    try reflexivity; try lia.
  rewrite IH; [reflexivity | lia].
Qed.

Lemma take_prefix (n : nat) (s : string) :
  String.prefix (take n s) s = true.
Proof.
  revert s; induction n as [|n IH]; intros [|c r]; simpl; try reflexivity.
  destruct (ascii_dec c c); [apply IH | congruence].
Qed.

Lemma take_not_empty (n : nat) (s : string) :
  s <> "" -> take (S n) s <> "".
Proof. destruct s; simpl; [congruence | discriminate]. Qed.

Lemma or_else_truthy (a b : option string) :
  truthy (or_else a b) = truthy a || truthy b.
Proof. unfold or_else; destruct (truthy a) eqn:E; [exact E | reflexivity]. Qed.

Lemma or_else_text (a b : option string) :
  key_text (or_else a b) = if truthy a then key_text a else key_text b.
Proof. unfold or_else; now destruct (truthy a). Qed.

Lemma truthy_text (a : option string) :
  truthy a = true -> key_text a <> "".
Proof.
  destruct a as [t|]; simpl; [| discriminate].
  now destruct (String.eqb_spec t "").
Qed.

(** A cut of a text that is not empty: not empty, within the bound, a
    start of the text, and the whole text when it is within the bound. *)
Lemma take_facts (n : nat) (t : string) :
  t <> "" ->
  take (S n) t <> ""
  /\ (String.length (take (S n) t) <= S n)%nat
  /\ String.prefix (take (S n) t) t = true
  /\ ((String.length t <= S n)%nat -> take (S n) t = t).
Proof.
  intros Ht; split; [now apply take_not_empty|].
  split; [apply take_length|].
  split; [apply take_prefix | apply take_all].
Qed.

(** X18. Saving a chart for a request that carries no user fails before
    anything is stored.  Otherwise the stored title is cut from the given
    title, or from "Dynamic Chart" when none is given; the stored chart
    type from the given chart type, or from "bar"; the stored user name
    from the first that is given among the user's name, the user's
    userName and the X-User-Name header, or from "System"; and a user id
    is stored exactly when the user has one, cut from it.  Each stored
    text is not empty, holds at most 1000, 100, 500 and 500 characters in
    that order, is a start of the text it is cut from, and is that text
    when it is within the bound. *)
Theorem saved_chart_fields_are_bounded :
  forall (user : option request_user) (x_user_name : option string)
         (body_title body_chartType : option string),
    let saved := chart_row_of_request user x_user_name body_title
                   body_chartType in
    let cut_from bound stored given :=
      stored <> ""
      /\ (String.length stored <= bound)%nat
      /\ String.prefix stored given = true
      /\ ((String.length given <= bound)%nat -> stored = given) in
    match user with
    | None => exists e, saved = Raise e /\ exn_cls e = AttributeError
    | Some u =>
        let title_given :=
          if truthy body_title then key_text body_title
          else "Dynamic Chart" in
        let type_given :=
          if truthy body_chartType then key_text body_chartType
          else "bar" in
        let name_given :=
          if truthy (user_name_field u) then key_text (user_name_field u)
          else if truthy (user_userName u) then key_text (user_userName u)
          else if truthy x_user_name then key_text x_user_name
          else "System" in
        exists row,
          saved = Ok row
          /\ cut_from 1000%nat (row_title row) title_given
          /\ cut_from 100%nat (row_chart_type row) type_given
          /\ cut_from 500%nat (row_user_name row) name_given
          /\ match row_user_id row with
             | Some id =>
                 truthy (user_id_field u) = true
                 /\ cut_from 500%nat id (key_text (user_id_field u))
             | None => truthy (user_id_field u) = false
             end
    end.
Proof.
  intros user x_user_name body_title body_chartType; cbv zeta.
  unfold chart_row_of_request; cbv zeta.
  destruct user as [u|]; cbn [bind raise];
    [| eexists; split; reflexivity].
  eexists; split; [reflexivity|].
  cbn [row_title row_chart_type row_user_name row_user_id].
  rewrite !or_else_text, !or_else_truthy.
  cbn [key_text]; change (truthy (Some "System")) with true.
  rewrite !orb_true_r.
  split; [| split; [| split]].
  - apply take_facts.
    destruct (truthy body_title) eqn:E;
      [now apply truthy_text | discriminate].
  - apply take_facts.
    destruct (truthy body_chartType) eqn:E;
      [now apply truthy_text | discriminate].
  - destruct (truthy (user_name_field u)) eqn:E1; cbn [orb].
    + apply take_facts; now apply truthy_text.
    + destruct (truthy (user_userName u)) eqn:E2; cbn [orb].
      * apply take_facts; now apply truthy_text.
      * destruct (truthy x_user_name) eqn:E3; apply take_facts;
          [now apply truthy_text | discriminate].
  - destruct (truthy (user_id_field u)) eqn:Hid; [| reflexivity].
    split; [reflexivity|].
    apply take_facts; now apply truthy_text.
Qed.

(** The statement at a request with a user and a short title. *)
Lemma saved_chart_fields_are_bounded_witness :
  exists row,
    chart_row_of_request
      (Some (RequestUser (Some "u1") None None (Some "ann")))
      (Some "Ann B") (Some "Risks by owner") None
    = Ok row
    /\ row_title row = "Risks by owner"
    /\ row_chart_type row = "bar"
    /\ row_user_name row = "ann".
Proof.
  destruct (saved_chart_fields_are_bounded
              (Some (RequestUser (Some "u1") None None (Some "ann")))
              (Some "Ann B") (Some "Risks by owner") None)
    as (row & Hrow & (_ & _ & _ & Ht) & (_ & _ & _ & Hc) & (_ & _ & _ & Hn)
        & _).
  exists row.
  split; [exact Hrow|].
  split; [apply Ht; simpl; lia|].
  split; [apply Hc; simpl; lia | apply Hn; simpl; lia].
Defined.

(* ================================================================= *)
(** ** Report lookup of the comply exports *)

Lemma dict_get_of_key {V} (k : string) (d : pydict V) :
  In k (dict_keys d) -> exists v, dict_get k d = Some v.
Proof.
  unfold dict_keys; induction d as [|[k' v'] r IH]; simpl; [contradiction|].
  intros [->|Hin].
  - rewrite String.eqb_refl; eauto.
  - destruct (String.eqb k' k); eauto.
Qed.

Lemma handed_single {V} (c : string) (x : V) :
  dict_get c [(c, x)] = Some x
  /\ forall k v, dict_get k [(c, x)] = Some v -> v = x /\ k = c.
Proof.
  simpl; rewrite String.eqb_refl; split; [reflexivity|].
  intros k v; destruct (String.eqb_spec c k); [| discriminate].
  intros H; injection H as <-; auto.
Qed.

Lemma handed_pair {V} (c r : string) (x : V) :
  c <> r ->
  dict_get c [(c, x); (r, x)] = Some x
  /\ dict_get r [(c, x); (r, x)] = Some x
  /\ forall k v, dict_get k [(c, x); (r, x)] = Some v ->
                 v = x /\ (k = c \/ k = r).
Proof.
  intros Hne; simpl; rewrite !String.eqb_refl.
  destruct (String.eqb_spec c r); [contradiction|].
  split; [reflexivity | split; [reflexivity|]].
  intros k v; destruct (String.eqb_spec c k).
  - intros H; injection H as <-; auto.
  - destruct (String.eqb_spec r k); [| discriminate].
    intros H; injection H as <-; auto.
Qed.

(** X19. The comply exports hand the renderer a dictionary that holds the
    data found under the card type, and under the report name when that
    differs, and nothing else.  Data that is not empty always comes from
    the payload, from under the report name returned or from under the
    card type; and when the payload has data under the name the card type
    maps to, that data and that name are the ones used. *)
Theorem comply_lookup_is_coherent :
  forall (A : Type) (comply_data : pydict (list A)) (cardType : string),
    let report_name := fst (fst (comply_lookup comply_data cardType)) in
    let export_data := snd (fst (comply_lookup comply_data cardType)) in
    let handed := snd (comply_lookup comply_data cardType) in
    let mapped := dict_get_default cardType cardType report_name_map in
    dict_get cardType handed = Some export_data
    /\ dict_get report_name handed = Some export_data
    /\ (forall k v, dict_get k handed = Some v ->
                    v = export_data /\ (k = cardType \/ k = report_name))
    /\ (export_data <> [] ->
        dict_get report_name comply_data = Some export_data
        \/ dict_get cardType comply_data = Some export_data)
    /\ (forall data,
           data <> [] -> dict_get mapped comply_data = Some data ->
           export_data = data /\ report_name = mapped).
Proof.
  intros A comply_data cardType; cbv zeta.
  unfold comply_lookup; cbv zeta.
  set (mapped := dict_get_default cardType cardType report_name_map).
  set (initial := dict_get_default mapped
                    (dict_get_default cardType [] comply_data) comply_data).
  set (found := if is_empty initial && negb (String.eqb cardType "")
                then match partial_match cardType comply_data with
                     | Some key => (key, dict_get_default key [] comply_data)
                     | None => (mapped, initial)
                     end
                else (mapped, initial)).
  assert (Hsource :
            snd found <> [] ->
            dict_get (fst found) comply_data = Some (snd found)
            \/ dict_get cardType comply_data = Some (snd found)).
  { subst found.
    assert (Hinit : initial <> [] ->
                    dict_get mapped comply_data = Some initial
                    \/ dict_get cardType comply_data = Some initial).
    { subst initial; unfold dict_get_default.
      destruct (dict_get mapped comply_data); [now left|].
      destruct (dict_get cardType comply_data); [now right|].
      intros H; now elim H. }
    destruct (is_empty initial && negb (String.eqb cardType "")) eqn:E;
      [| exact Hinit].
    destruct (partial_match cardType comply_data) as [key|] eqn:Hp;
      [| exact Hinit].
    cbn [fst snd]; intros _; left.
    apply find_some in Hp as [Hin _].
    destruct (dict_get_of_key key comply_data Hin) as [v Hv].
    unfold dict_get_default; now rewrite Hv. }
  assert (Hmapped :
            forall data, data <> [] ->
                         dict_get mapped comply_data = Some data ->
                         snd found = data /\ fst found = mapped).
  { intros data Hne Hget.
    assert (Hinit : initial = data)
      by (subst initial; unfold dict_get_default; now rewrite Hget).
    subst found; rewrite Hinit.
    destruct data; [congruence|]; now cbn [is_empty andb fst snd]. }
  destruct found as [report_name export_data]; cbn [fst snd] in *.
  destruct (String.eqb_spec report_name cardType) as [->|Hne];
    cbn [negb fst snd dict_set].
  - destruct (handed_single cardType export_data) as [Hget Honly].
    split; [exact Hget | split; [exact Hget | split; [| split]]]; auto.
    intros k v Hk; destruct (Honly k v Hk); auto.
  - replace (String.eqb cardType report_name) with false
      by (symmetry; apply String.eqb_neq; congruence).
    destruct (handed_pair cardType report_name export_data)
      as (Hc & Hr & Honly); [congruence|].
    split; [exact Hc | split; [exact Hr | split; [| split]]]; auto.
Qed.

(** The statement at a card whose report is in the payload. *)
Lemma comply_lookup_is_coherent_witness :
  snd (fst (comply_lookup
              [("Compliance Details", [1%nat; 2%nat]);
               ("Surveys by Status", [3%nat])] "totalSurveys"))
  = [3%nat]
  /\ fst (fst (comply_lookup
                 [("Compliance Details", [1%nat; 2%nat]);
                  ("Surveys by Status", [3%nat])] "totalSurveys"))
     = dict_get_default "totalSurveys" "totalSurveys" report_name_map.
Proof.
  destruct (comply_lookup_is_coherent nat
              [("Compliance Details", [1%nat; 2%nat]);
               ("Surveys by Status", [3%nat])] "totalSurveys")
    as (_ & _ & _ & _ & Hmapped).
  apply Hmapped; [discriminate | reflexivity].
Defined.

(* ================================================================= *)
(** ** The report endpoints: query builder and connection *)

Lemma valid_columns_clean (columns : list string) :
  Forall (fun col => col <> "#" /\ strip col <> "")
    (valid_columns_of columns).
Proof.
  apply Forall_forall; intros col Hin.
  unfold valid_columns_of in Hin; apply filter_In in Hin as [_ H].
  apply andb_true_iff in H as [H1 H2].
  split; intros Heq; rewrite Heq in *; discriminate.
Qed.

(** The calls of the export endpoint. *)
Lemma export_trace_shape
    (build : list string -> list join_spec -> list string ->
             list where_condition -> option time_filter -> outcome string)
    (default_config : config_dict)
    (render : string -> list string -> list (list string) -> chart_entry ->
              outcome string)
    (save : string -> string -> string -> chart_entry -> string -> string ->
            outcome export_info)
    (body : selection) (request : request_info) (db : driver) :
  report_trace (tables body) (valid_columns_of (columns body))
    (build (tables body) (joins body) (valid_columns_of (columns body))
       (whereConditions body) (timeFilter body))
    (db_cursor db)
    (fst (generate_dynamic_report build default_config render save body
            request db)).
Proof.
  unfold report_trace, generate_dynamic_report; cbv zeta.
  destruct (is_empty (tables body)) eqn:Ht; [now left|].
  destruct (is_empty (valid_columns_of (columns body))) eqn:Hc; [now left|].
  cbn [orb]; right.
  split; [now apply is_empty_false | split; [now apply is_empty_false|]].
  destruct (build _ _ _ _ _) as [sql|e]; [| reflexivity].
  destruct (db_connect db); [| now left].
  destruct (db_cursor db) as [[]|e]; [| right; left; eauto].
  right; right; split; [reflexivity|].
  unfold report_work.
  destruct (db_execute db) as [column_names|];
    [| exists []; split; [now left | reflexivity]].
  destruct (db_fetchall db) as [rows|];
    [| exists [EvDb EvFetchAll]; split; [right; now left | reflexivity]].
  destruct (shape _ _ _ _ _) as [[[cols data] chart]|];
    [| exists [EvDb EvFetchAll]; split; [right; now left | reflexivity]].
  destruct (renderer_of_format _) as [[renderer ext]|];
    [| exists [EvDb EvFetchAll]; split; [right; now left | reflexivity]].
  destruct (if String.eqb _ "excel" then _ else _);
    [| exists [EvDb EvFetchAll]; split; [right; now left | reflexivity]].
  destruct (render renderer cols data chart) as [content|].
  - eexists [_; _; _]; split; [| reflexivity].
    right; right; right; repeat eexists.
  - eexists [_; _]; split; [| reflexivity].
    right; right; left; repeat eexists.
Qed.

(** The calls of the preview endpoint. *)
Lemma preview_trace_shape
    (build : list string -> list join_spec -> list string ->
             list where_condition -> option time_filter -> outcome string)
    (body : selection) (db : driver) :
  report_trace (tables body) (valid_columns_of (columns body))
    (build (tables body) (joins body) (valid_columns_of (columns body))
       (whereConditions body) (timeFilter body))
    (db_cursor db)
    (fst (preview_dynamic_report build body db)).
Proof.
  unfold report_trace, preview_dynamic_report; cbv zeta.
  destruct (is_empty (tables body)) eqn:Ht; [now left|].
  destruct (is_empty (columns body)); [now left|]; cbn [orb].
  destruct (is_empty (valid_columns_of (columns body))) eqn:Hc; [now left|].
  right.
  split; [now apply is_empty_false | split; [now apply is_empty_false|]].
  destruct (build _ _ _ _ _) as [sql|e]; [| reflexivity].
  destruct (db_connect db); [| now left].
  destruct (db_cursor db) as [[]|e]; [| right; left; eauto].
  right; right; split; [reflexivity|].
  unfold report_work.
  destruct (db_execute db) as [column_names|];
    [| exists []; split; [now left | reflexivity]].
  destruct (db_fetchall db) as [rows|];
    [| exists [EvDb EvFetchAll]; split; [right; now left | reflexivity]].
  destruct (preview_rows _ _ _);
    exists [EvDb EvFetchAll]; (split; [right; now left | reflexivity]).
Qed.

(** In the calls of a report endpoint the query builder comes first, and
    once. *)
Lemma report_trace_build (t c : list string) (built : outcome string)
    (cursor_made : outcome unit) (evs : list report_event)
    (t' c' : list string) :
  report_trace t c built cursor_made evs ->
  In (EvBuildQuery t' c') evs ->
  t' = t /\ c' = c /\ t <> [] /\ c <> [].
Proof.
  intros [->|(Ht & Hc & H)] Hin; [contradiction|].
  assert (Hhead : In (EvBuildQuery t' c') [EvBuildQuery t c] ->
                  t' = t /\ c' = c /\ t <> [] /\ c <> []).
  { intros [Heq|[]]; injection Heq as <- <-; auto. }
  destruct built as [sql|e]; [| subst evs; auto].
  destruct H as [->|[[-> _]|(_ & work & Hwork & ->)]].
  - in_calls Hin; try discriminate Hin; apply Hhead; now left.
  - in_calls Hin; try discriminate Hin; apply Hhead; now left.
  - destruct Hwork
      as [->|[->|[(r & oc & dr & ch & ->)
                 |(r & oc & dr & ch & ext & card & who & ty & ->)]]];
      in_calls Hin; try discriminate Hin; apply Hhead; now left.
Qed.

(** The calls of a report endpoint on the database. *)
Lemma report_trace_db_calls (t c : list string) (built : outcome string)
    (cursor_made : outcome unit) (evs : list report_event) :
  report_trace t c built cursor_made evs ->
  match built with
  | Ok sql => In (db_events evs) (report_db_calls sql)
  | Raise _ => db_events evs = []
  end.
Proof.
  intros [->|(Ht & Hc & H)].
  - destruct built; simpl; auto.
  - destruct built as [sql|e]; [| now subst evs].
    destruct H as [->|[[-> _]|(_ & work & Hwork & ->)]];
      [simpl; auto | simpl; auto |].
    destruct Hwork
      as [->|[->|[(r & oc & dr & ch & ->)
                 |(r & oc & dr & ch & ext & card & who & ty & ->)]]];
      simpl; auto 6.
Qed.

(** Where a report endpoint closes what it opened. *)
Lemma report_trace_closes (t c : list string) (built : outcome string)
    (cursor_made : outcome unit) (evs : list report_event) :
  report_trace t c built cursor_made evs ->
  (cursor_made = Ok tt ->
   In (EvDb EvCursor) evs ->
   exists before,
     evs = (before ++ [EvDb EvCursorClose; EvDb EvConnClose])%list
     /\ ~ In (EvDb EvCursorClose) before
     /\ ~ In (EvDb EvConnClose) before)
  /\ ((exists e, cursor_made = Raise e) -> ~ In (EvDb EvConnClose) evs)
  /\ (forall file_extension card_type created_by export_type,
         In (EvSave file_extension card_type created_by export_type) evs ->
         exists before renderer out_columns data_rows chart,
           evs = (before
                  ++ [EvRender renderer out_columns data_rows chart;
                      EvSave file_extension card_type created_by export_type;
                      EvDb EvCursorClose; EvDb EvConnClose])%list).
Proof.
  intros Htrace.
  split; [| split].
  - intros Hcur Hin.
    destruct Htrace as [->|(Ht & Hc & H)]; [contradiction|].
    destruct built as [sql|e];
      [| subst evs; in_calls Hin; discriminate Hin].
    destruct H as [->|[[-> [e He]]|(_ & work & Hwork & ->)]].
    + in_calls Hin; discriminate Hin.
    + congruence.
    + exists ([EvBuildQuery t c; EvDb EvConnect; EvDb EvCursor;
               EvDb (EvExecute sql)] ++ work)%list.
      split; [now rewrite <- app_assoc|].
      destruct Hwork
        as [->|[->|[(r & oc & dr & ch & ->)
                   |(r & oc & dr & ch & ext & card & who & ty & ->)]]];
        split; intros Hbad; in_calls Hbad; discriminate Hbad.
  - intros [e He] Hin.
    destruct Htrace as [->|(Ht & Hc & H)]; [contradiction|].
    destruct built as [sql|e'];
      [| subst evs; in_calls Hin; discriminate Hin].
    destruct H as [->|[[-> _]|(Hcur & _)]].
    + in_calls Hin; discriminate Hin.
    + in_calls Hin; discriminate Hin.
    + congruence.
  - intros ext' card' who' ty' Hin.
    destruct Htrace as [->|(Ht & Hc & H)]; [contradiction|].
    destruct built as [sql|e];
      [| subst evs; in_calls Hin; discriminate Hin].
    destruct H as [->|[[-> _]|(_ & work & Hwork & ->)]].
    + in_calls Hin; discriminate Hin.
    + in_calls Hin; discriminate Hin.
    + destruct Hwork
        as [->|[->|[(r & oc & dr & ch & ->)
                   |(r & oc & dr & ch & ext & card & who & ty & ->)]]];
        in_calls Hin; try discriminate Hin.
      injection Hin as <- <- <- <-.
      exists [EvBuildQuery t c; EvDb EvConnect; EvDb EvCursor;
              EvDb (EvExecute sql); EvDb EvFetchAll], r, oc, dr, ch.
      reflexivity.
Qed.

(** X20. Whenever either report endpoint calls the query builder, it is
    with the tables of the request, which are not empty, and with the
    requested columns less ['#'] and the blank entries, of which at least
    one is left. *)
Theorem builder_gets_a_valid_selection :
  forall (build : list string -> list join_spec -> list string ->
                  list where_condition -> option time_filter ->
                  outcome string)
         (default_config : config_dict)
         (render : string -> list string -> list (list string) ->
                   chart_entry -> outcome string)
         (save : string -> string -> string -> chart_entry -> string ->
                 string -> outcome export_info)
         (body : selection) (request : request_info) (db : driver)
         (t c : list string),
    In (EvBuildQuery t c)
      (fst (generate_dynamic_report build default_config render save body
              request db))
    \/ In (EvBuildQuery t c) (fst (preview_dynamic_report build body db)) ->
    t = tables body /\ t <> []
    /\ c = valid_columns_of (columns body) /\ c <> []
    /\ Forall (fun col => col <> "#" /\ strip col <> "") c.
Proof.
  intros build default_config render save body request db t c Hin.
  assert (Hcall : t = tables body /\ c = valid_columns_of (columns body)
                  /\ tables body <> []
                  /\ valid_columns_of (columns body) <> []).
  { destruct Hin as [Hin|Hin].
    - exact (report_trace_build _ _ _ _ _ _ _
               (export_trace_shape build default_config render save body
                  request db) Hin).
    - exact (report_trace_build _ _ _ _ _ _ _
               (preview_trace_shape build body db) Hin). }
  destruct Hcall as (-> & -> & Ht & Hc).
  repeat split; auto.
  apply valid_columns_clean.
Qed.

(** The statement at a selection that names ['#'] and a blank column. *)
Lemma builder_gets_a_valid_selection_witness :
  ["name"] = valid_columns_of ["#"; "name"; "  "].
Proof.
  destruct (builder_gets_a_valid_selection
              (fun _ _ _ _ _ => Ok "SELECT name FROM T")
              no_header (fun _ _ _ _ => Ok "content")
              (fun _ _ _ _ _ _ => Ok (ExportInfo "f.xlsx" "exports/f.xlsx"
                                        (Some 7%Z)))
              (Selection ["T"] [] ["#"; "name"; "  "] [] None None no_header
                 None None)
              anonymous idle_db ["T"] ["name"]) as (_ & _ & Hc & _).
  - left; simpl; left; reflexivity.
  - exact Hc.
Defined.

(** X21. On its own connection a report endpoint runs nothing but the query
    the builder returned, and it opens at most one connection and one
    cursor; when the builder fails, or the request is refused, it makes no
    database call.  Once the cursor exists, the cursor and then the
    connection are closed as the last two calls on every way out, whether
    the query, the fetch, the shaping, the rendering or the saving fails
    or not; the export renders and saves before that, while the connection
    is still open, and saves only what it has just rendered.  When the
    cursor cannot be made, the connection that was opened is never
    closed. *)
Theorem report_endpoints_release_connection :
  forall (build : list string -> list join_spec -> list string ->
                  list where_condition -> option time_filter ->
                  outcome string)
         (default_config : config_dict)
         (render : string -> list string -> list (list string) ->
                   chart_entry -> outcome string)
         (save : string -> string -> string -> chart_entry -> string ->
                 string -> outcome export_info)
         (body : selection) (request : request_info) (db : driver),
    let export_calls :=
      fst (generate_dynamic_report build default_config render save body
             request db) in
    let preview_calls := fst (preview_dynamic_report build body db) in
    let closes_last evs :=
      db_cursor db = Ok tt ->
      In (EvDb EvCursor) evs ->
      exists before,
        evs = (before ++ [EvDb EvCursorClose; EvDb EvConnClose])%list
        /\ ~ In (EvDb EvCursorClose) before
        /\ ~ In (EvDb EvConnClose) before in
    let never_closes evs :=
      (exists e, db_cursor db = Raise e) -> ~ In (EvDb EvConnClose) evs in
    match build (tables body) (joins body) (valid_columns_of (columns body))
            (whereConditions body) (timeFilter body) with
    | Ok sql =>
        In (db_events export_calls) (report_db_calls sql)
        /\ In (db_events preview_calls) (report_db_calls sql)
    | Raise _ => db_events export_calls = [] /\ db_events preview_calls = []
    end
    /\ closes_last export_calls /\ closes_last preview_calls
    /\ never_closes export_calls /\ never_closes preview_calls
    /\ (forall file_extension card_type created_by export_type,
           In (EvSave file_extension card_type created_by export_type)
             export_calls ->
           exists before renderer out_columns data_rows chart,
             export_calls
             = (before
                ++ [EvRender renderer out_columns data_rows chart;
                    EvSave file_extension card_type created_by export_type;
                    EvDb EvCursorClose; EvDb EvConnClose])%list).
Proof.
  intros build default_config render save body request db; cbv zeta.
  pose proof (export_trace_shape build default_config render save body
                request db) as He.
  pose proof (preview_trace_shape build body db) as Hp.
  destruct (report_trace_closes _ _ _ _ _ He) as (He1 & He2 & He3).
  destruct (report_trace_closes _ _ _ _ _ Hp) as (Hp1 & Hp2 & _).
  apply report_trace_db_calls in He; apply report_trace_db_calls in Hp.
  split; [| repeat split; assumption].
  destruct (build _ _ _ _ _); auto.
Qed.

(** The statement at a preview whose connection opens and whose cursor
    cannot be made: the connection is not closed. *)
Lemma report_endpoints_release_connection_witness :
  ~ In (EvDb EvConnClose)
      (fst (preview_dynamic_report (fun _ _ _ _ _ => Ok "SELECT n FROM T")
              (Selection ["T"] [] ["n"] [] None None no_header None None)
              (Driver (Ok tt) (raise DriverError "no cursor") (Ok []) (Ok [])
                 (Ok tt) (Ok tt) [] (Ok tt)))).
Proof.
  destruct (report_endpoints_release_connection
              (fun _ _ _ _ _ => Ok "SELECT n FROM T")
              no_header (fun _ _ _ _ => Ok "content")
              (fun _ _ _ _ _ _ => Ok (ExportInfo "f.xlsx" "exports/f.xlsx"
                                        (Some 7%Z)))
              (Selection ["T"] [] ["n"] [] None None no_header None None)
              anonymous
              (Driver (Ok tt) (raise DriverError "no cursor") (Ok []) (Ok [])
                 (Ok tt) (Ok tt) [] (Ok tt)))
    as (_ & _ & _ & _ & Hleak & _).
  apply Hleak; eexists; reflexivity.
Defined.
